(** * GitPaste: the GitHub asset-upload client and the paste handler

    A shallow embedding of [src/lib/github.ts] (class [GitHub]), of its
    sibling revisions and of the plugin's image handler, with the
    properties of the upload sequence stated over it.

    Conventions of the embedding.
    - A JavaScript string is a [string]: the sequence of its UTF-8 bytes,
      which is what [Buffer.from] and [TextEncoder] produce from it.
    - A JavaScript number that the client handles (repository id, file
      size, HTTP status) is an integer, a [Z], in the range where
      [toString] prints plain decimal digits.
    - An [async] method is a state transformer returning a [Result]: the
      promise resolves ([Ok]) or rejects ([Throw]).  Nothing runs between
      two awaits of one call, so the interleaving of several pending
      calls is not part of this model.
    - [console.log], [console.warn] and [console.error] are not modelled.
    - The host ([requestUrl], [Math.random], [path.extname],
      [mime.lookup]) is an interface, [Host]; the general statements
      hold for every instance of it, the concrete runs use a scripted
      one.
    - Where a statement is about the status a server answers with, the
      host is [obsidian wire], the host [requestUrl] makes of a wire: an
      answer of status 400 or more rejects the promise unless the call
      passed [throw: false].
    - The storage behind the vault is a field of the plugin's state: it
      may refuse to create or modify a file, and it decides what text
      the bytes of a file are read as. *)

From Stdlib Require Import ZArith List String Ascii Bool Lia.
From Stdlib Require Strings.Byte.
From Stdlib Require Import DecimalString DecimalZ.
Import ListNotations.

Local Set Warnings "-register-all".
Local Open Scope string_scope.
Local Open Scope Z_scope.

(** ** JavaScript values and built-ins *)

Module Js.

(** The double quote, carriage return + line feed. *)
Definition dquote : string := String "034"%char EmptyString.
Definition CRLF : string := String "013"%char (String "010"%char EmptyString).

(** An exception value: [name] is the constructor's name. *)
Record JsError := mkError { name : string; message : string }.

(** [new Error(msg)] *)
Definition Error (msg : string) : JsError := mkError "Error" msg.
Definition TypeError (msg : string) : JsError := mkError "TypeError" msg.

Definition is_empty (s : string) : bool :=
  match s with EmptyString => true | String _ _ => false end.

(** [Error.prototype.toString], what a template literal makes of a
    caught error. *)
Definition Error_toString (e : JsError) : string :=
  if is_empty (name e) then message e
  else if is_empty (message e) then name e
  else name e ++ ": " ++ message e.

(** [Number.prototype.toString] on an integer. *)
Definition Number_toString (z : Z) : string :=
  NilZero.string_of_int (Z.to_int z).

(** The values a field typed [number | null] can hold at run time, with
    the [undefined] an unchecked [any] lets in. *)
Inductive JsVal :=
| VUndefined
| VNull
| VBool (b : bool)
| VNum (z : Z)
| VStr (s : string).

(** ToBoolean. *)
Definition truthy (v : JsVal) : bool :=
  match v with
  | VUndefined | VNull => false
  | VBool b => b
  | VNum z => negb (z =? 0)
  | VStr s => negb (is_empty s)
  end.

(** A parsed JSON document; an object lists its properties in creation
    order, without duplicates. *)
Inductive Json :=
| JNull
| JBool (b : bool)
| JNum (z : Z)
| JStr (s : string)
| JArr (items : list Json)
| JObj (props : list (string * Json)).

Fixpoint assoc {A} (k : string) (l : list (string * A)) : option A :=
  match l with
  | [] => None
  | (k', v) :: l' => if String.eqb k k' then Some v else assoc k l'
  end.

(** The outcome of a computation.  [Stuck] marks a run in which the
    server sent JSON outside the interface the code casts it to
    ([UploadPolicy], a primitive [id]); the model follows the code no
    further there. *)
Inductive Result (A : Type) :=
| Ok (a : A)
| Throw (e : JsError)
| Stuck.
Arguments Ok {A} a.
Arguments Throw {A} e.
Arguments Stuck {A}.

(** State and exceptions. *)
Definition M (S A : Type) : Type := S -> Result A * S.

Definition ret {S A} (a : A) : M S A := fun s => (Ok a, s).
Definition throw {S A} (e : JsError) : M S A := fun s => (Throw e, s).
Definition stuck {S A} : M S A := fun s => (Stuck, s).

Definition bind {S A B} (m : M S A) (k : A -> M S B) : M S B :=
  fun s =>
    match m s with
    | (Ok a, s') => k a s'
    | (Throw e, s') => (Throw e, s')
    | (Stuck, s') => (Stuck, s')
    end.

(** [try { body } catch (error) { handler }]: what the body did to the
    state before it threw stays done. *)
Definition try_catch {S A} (body : M S A) (handler : JsError -> M S A) : M S A :=
  fun s =>
    match body s with
    | (Throw e, s') => handler e s'
    | r => r
    end.

Definition get {S} : M S S := fun s => (Ok s, s).
Definition modify {S} (f : S -> S) : M S unit := fun s => (Ok tt, f s).

(** *** Property order of an object

    [Object.entries], like object spread, visits the own properties in
    the order of OrdinaryOwnPropertyKeys: the array indices in ascending
    numeric order first, then the other string keys in creation
    order. *)

(** An array index is a canonical numeric string below [2^32 - 1]. *)
Definition array_index (k : string) : option N :=
  match NilZero.uint_of_string k with
  | Some u =>
      let n := N.of_uint u in
      if (String.eqb (NilZero.string_of_uint (N.to_uint n)) k
          && (n <? 4294967295)%N)%bool
      then Some n else None
  | None => None
  end.

Fixpoint insert_by_index {A} (n : N) (p : string * A)
    (l : list (N * (string * A))) : list (N * (string * A)) :=
  match l with
  | [] => [(n, p)]
  | (m, q) :: l' =>
      if (n <? m)%N then (n, p) :: l else (m, q) :: insert_by_index n p l'
  end.

Fixpoint indexed_props {A} (props : list (string * A)) : list (N * (string * A)) :=
  match props with
  | [] => []
  | (k, v) :: props' =>
      match array_index k with
      | Some n => insert_by_index n (k, v) (indexed_props props')
      | None => indexed_props props'
      end
  end.

Definition named_props {A} (props : list (string * A)) : list (string * A) :=
  filter (fun p => match array_index (fst p) with Some _ => false | None => true end)
         props.

Definition Object_entries {A} (props : list (string * A)) : list (string * A) :=
  (map snd (indexed_props props) ++ named_props props)%list.

(** *** Bytes *)

Definition bytes := list Byte.byte.

(** [Buffer.from(str)], [TextEncoder.encode(str)]: the UTF-8 bytes. *)
Definition Buffer_from (s : string) : bytes := list_byte_of_string s.

(** [new Uint8Array(length)]: zero-filled. *)
Definition Uint8Array_new (length : nat) : bytes := repeat Byte.x00 length.

(** [target.set(source, offset)]: a RangeError when the source does not
    fit. *)
Definition Uint8Array_set (target source : bytes) (offset : nat) : Result bytes :=
  if (offset + List.length source <=? List.length target)%nat
  then Ok (firstn offset target ++ source
             ++ skipn (offset + List.length source) target)%list
  else Throw (mkError "RangeError" "offset is out of bounds").

(** *** [URLSearchParams.prototype.toString]

    The application/x-www-form-urlencoded serializer: the ASCII
    alphanumerics and [*-._] stay, a space becomes [+], every other
    byte is percent-encoded in upper-case hexadecimal. *)

Definition hex_digit (n : nat) : ascii :=
  if (n <? 10)%nat then ascii_of_nat (48 + n) else ascii_of_nat (55 + n).

Definition urlencoded_unreserved (c : ascii) : bool :=
  let n := nat_of_ascii c in
  ((48 <=? n) && (n <=? 57) || (65 <=? n) && (n <=? 90) || (97 <=? n) && (n <=? 122)
   || (n =? 42) || (n =? 45) || (n =? 46) || (n =? 95))%nat%bool.

Fixpoint urlencode (s : string) : string :=
  match s with
  | EmptyString => EmptyString
  | String c s' =>
      let n := nat_of_ascii c in
      if urlencoded_unreserved c then String c (urlencode s')
      else if (n =? 32)%nat then String "+"%char (urlencode s')
      else String "%"%char
             (String (hex_digit (n / 16)) (String (hex_digit (n mod 16)) (urlencode s')))
  end.

Fixpoint URLSearchParams_toString (params : list (string * string)) : string :=
  match params with
  | [] => EmptyString
  | [(k, v)] => urlencode k ++ "=" ++ urlencode v
  | (k, v) :: rest => urlencode k ++ "=" ++ urlencode v ++ "&" ++ URLSearchParams_toString rest
  end.

(** [a || b] on strings. *)
Definition or_else (a : option string) (b : string) : string :=
  match a with
  | Some s => if is_empty s then b else s
  | None => b
  end.

End Js.

Export Js.

Declare Scope js_scope.
Delimit Scope js_scope with js.
Notation "x <- m ;; k" := (bind m (fun x => k))
  (at level 61, m at next level, right associativity) : js_scope.
Notation "m ;;; k" := (bind m (fun _ => k))
  (at level 61, right associativity) : js_scope.
Local Open Scope js_scope.

(** ** The host: network, randomness, [path] and [mime-types] *)

Inductive Body :=
| NoBody
| TextBody (s : string)
| BinaryBody (b : bytes).

(** [RequestUrlParam] of the host API. *)
Record RequestUrlParam := {
  url : string;
  method : string;
  req_headers : list (string * string);
  contentType : option string;
  body : Body;
  throw_opt : option bool
}.

(** [response.json] is a getter: it throws on a body that is not JSON. *)
Inductive Parsed :=
| Parsed_ok (j : Json)
| Parsed_error (e : JsError).

(** [RequestUrlResponse] of the host API. *)
Record RequestUrlResponse := {
  status : Z;
  headers : list (string * string);
  text : string;
  json : Parsed
}.

(** What one awaited [requestUrl] call comes to. *)
Inductive Outcome :=
| Resolved (response : RequestUrlResponse)
| Rejected (error : JsError).

(** The host decides, from its own state, how each request ends (it
    resolves with a response or rejects; which statuses make it reject
    is its own business) and what
    [Math.random().toString(36).substring(2)] yields; [path.extname] and
    [mime.lookup] (a static table, [None] for its [false]) are pure. *)
Class Host := {
  World : Type;
  host_requestUrl : RequestUrlParam -> World -> Outcome * World;
  Math_random_base36 : World -> string * World;
  path_extname : string -> string;
  mime_lookup : string -> option string
}.

(** ** The data model of [src/lib/github.ts] *)

Record Asset := {
  asset_id : Z;
  asset_name : string;
  asset_size : Z;
  asset_content_type : string;
  href : string;
  original_name : string
}.

Record UploadPolicy := {
  upload_url : string;
  upload_authenticity_token : string;
  asset_upload_url : string;
  asset_upload_authenticity_token : string;
  asset : Asset;
  form : list (string * string);
  header : option Json;
  same_origin : bool
}.

Record UploadResult := {
  githubLink : string;
  awsLink : string
}.

(** A [File]: a name, a media type and the content. *)
Record File := {
  file_name : string;
  file_type : string;
  file_bytes : bytes
}.

Definition file_size (f : File) : Z := Z.of_nat (List.length (file_bytes f)).

(** *** Reading a JSON document at its declared type *)

Definition get_string (k : string) (o : list (string * Json)) : option string :=
  match assoc k o with Some (JStr s) => Some s | _ => None end.

Definition get_number (k : string) (o : list (string * Json)) : option Z :=
  match assoc k o with Some (JNum z) => Some z | _ => None end.

Definition get_boolean (k : string) (o : list (string * Json)) : option bool :=
  match assoc k o with Some (JBool b) => Some b | _ => None end.

Definition get_object (k : string) (o : list (string * Json))
  : option (list (string * Json)) :=
  match assoc k o with Some (JObj p) => Some p | _ => None end.

(** [Record<string, string>] *)
Fixpoint string_record (o : list (string * Json)) : option (list (string * string)) :=
  match o with
  | [] => Some []
  | (k, JStr v) :: o' =>
      match string_record o' with
      | Some r => Some ((k, v) :: r)
      | None => None
      end
  | _ => None
  end.

Definition Asset_of_json (o : list (string * Json)) : option Asset :=
  match get_number "id" o, get_string "name" o, get_number "size" o,
        get_string "content_type" o, get_string "href" o,
        get_string "original_name" o with
  | Some i, Some n, Some s, Some c, Some h, Some on => Some (Build_Asset i n s c h on)
  | _, _, _, _, _, _ => None
  end.

(** The documents that inhabit [interface UploadPolicy]. *)
Definition UploadPolicy_of_json (j : Json) : option UploadPolicy :=
  match j with
  | JObj o =>
      match get_string "upload_url" o, get_string "upload_authenticity_token" o,
            get_string "asset_upload_url" o,
            get_string "asset_upload_authenticity_token" o with
      | Some u, Some ut, Some au, Some aut =>
          match get_object "asset" o, get_object "form" o, get_boolean "same_origin" o with
          | Some a, Some f, Some so =>
              match Asset_of_json a, string_record f with
              | Some a', Some f' =>
                  Some (Build_UploadPolicy u ut au aut a' f' (assoc "header" o) so)
              | _, _ => None
              end
          | _, _, _ => None
          end
      | _, _, _, _ => None
      end
  | _ => None
  end.

(** A primitive JSON value. *)
Definition JsVal_of_json (j : Json) : option JsVal :=
  match j with
  | JNull => Some VNull
  | JBool b => Some (VBool b)
  | JNum z => Some (VNum z)
  | JStr s => Some (VStr s)
  | JArr _ | JObj _ => None
  end.

(** ** The state a call runs in *)

(** The fields of [class GitHub].  The axios [client] the constructor of
    [src/lib/github.ts] also builds is never used by the methods below
    and holds no data of an upload. *)
Record GitHub := {
  repo : string;
  repoId : JsVal;
  userSession : string
}.

Section WithHost.

Context {host : Host}.

(** What a call can touch outside the instance: the host's state, the
    requests issued so far with how each ended, the notices shown. *)
Record Runtime := {
  world : World;
  trace : list (RequestUrlParam * Outcome);
  notices : list string
}.

Record Session := {
  this : GitHub;
  rt : Runtime
}.

Definition Async (A : Type) : Type := M Session A.

(** [await requestUrl(param)] *)
Definition Runtime_requestUrl (param : RequestUrlParam) (r : Runtime)
  : Outcome * Runtime :=
  let (o, w) := host_requestUrl param (world r) in
  (o, {| world := w; trace := (trace r ++ [(param, o)])%list; notices := notices r |}).

Definition requestUrl (param : RequestUrlParam) : Async RequestUrlResponse :=
  fun s =>
    let (o, r) := Runtime_requestUrl param (rt s) in
    let s' := {| this := this s; rt := r |} in
    match o with
    | Resolved response => (Ok response, s')
    | Rejected error => (Throw error, s')
    end.

(** [new Notice(msg)] *)
Definition Runtime_Notice (msg : string) (r : Runtime) : Runtime :=
  {| world := world r; trace := trace r; notices := (notices r ++ [msg])%list |}.

Definition Notice (msg : string) : Async unit :=
  modify (fun s => {| this := this s; rt := Runtime_Notice msg (rt s) |}).

Definition random_base36 : Async string :=
  fun s =>
    let (tok, w) := Math_random_base36 (world (rt s)) in
    (Ok tok, {| this := this s;
                rt := {| world := w; trace := trace (rt s); notices := notices (rt s) |} |}).

Definition get_this : Async GitHub := fun s => (Ok (this s), s).

(** [this.repoId = v] *)
Definition set_repoId (v : JsVal) : Async unit :=
  modify (fun s => {| this := {| repo := repo (this s); repoId := v;
                                 userSession := userSession (this s) |};
                      rt := rt s |}).

(** [response.json] *)
Definition response_json (response : RequestUrlResponse) : Async Json :=
  match json response with
  | Parsed_ok j => ret j
  | Parsed_error e => throw e
  end.

(** [data.id]: reading a property of [null] throws; a primitive or an
    array has no [id]. *)
Definition data_id (data : Json) : Async JsVal :=
  match data with
  | JNull => throw (TypeError "Cannot read properties of null (reading 'id')")
  | JObj props =>
      match assoc "id" props with
      | None => ret VUndefined
      | Some j =>
          match JsVal_of_json j with
          | Some v => ret v
          | None => stuck
          end
      end
  | _ => ret VUndefined
  end.

(** [v.toString()] *)
Definition method_toString (v : JsVal) : Async string :=
  match v with
  | VUndefined =>
      throw (TypeError "Cannot read properties of undefined (reading 'toString')")
  | VNull => throw (TypeError "Cannot read properties of null (reading 'toString')")
  | VBool b => ret (if b then "true" else "false")
  | VNum z => ret (Number_toString z)
  | VStr s => ret s
  end.

(** The cast [const policy: UploadPolicy = response.json]. *)
Definition as_UploadPolicy (j : Json) : Async UploadPolicy :=
  match UploadPolicy_of_json j with
  | Some p => ret p
  | None => stuck
  end.

End WithHost.

(** ** The multipart payload *)

(** One form field, as text. *)
Definition field_part (boundary : string) (kv : string * string) : string :=
  "--" ++ boundary ++ CRLF ++
  "Content-Disposition: form-data; name=" ++ dquote ++ fst kv ++ dquote ++ CRLF ++ CRLF ++
  snd kv ++ CRLF.

(** The head of the file part, as text. *)
Definition file_part_head (boundary name type : string) : string :=
  "--" ++ boundary ++ CRLF ++
  "Content-Disposition: form-data; name=" ++ dquote ++ "file" ++ dquote ++
    "; filename=" ++ dquote ++ name ++ dquote ++ CRLF ++
  "Content-Type: " ++ type ++ CRLF ++ CRLF.

(** The byte sequence section 4.3 of the specification prescribes: every
    field in the order given, the file part, the closing delimiter. *)
Definition multipart_body (boundary : string) (fields : list (string * string))
    (name type : string) (content : bytes) : bytes :=
  (List.concat (map (fun kv => Buffer_from (field_part boundary kv)) fields)
   ++ Buffer_from (file_part_head boundary name type)
   ++ content
   ++ Buffer_from CRLF
   ++ Buffer_from ("--" ++ boundary ++ "--" ++ CRLF))%list.

(** [{...policy.form, file: file}]: the spread copies the properties in
    the order of [Object_entries]; the [file] key then holds the [File],
    whatever the form held under it. *)
Record PayloadData := {
  pd_fields : list (string * string);
  pd_file : File
}.

Definition payload_data_of (policy : UploadPolicy) (file : File) : PayloadData :=
  {| pd_fields := filter (fun kv => negb (String.eqb (fst kv) "file"))
                         (Object_entries (form policy));
     pd_file := file |}.

(** ** [src/lib/github.ts]: the client the plugin imports *)

Module GitHubLib.
Section Client.

Context {host : Host}.

(** [constructor(userSession, repo = "cli/cli")].  The cookie jar and
    the axios instance built next are not used by any method. *)
Definition constructor (userSession : string) (repo : option string) : GitHub :=
  let repo := or_else repo "cli/cli" in
  {| repo := repo;
     repoId := if String.eqb repo "cli/cli" then VNum 212613049 else VNull;
     userSession := userSession |}.

Definition repo_request (gh : GitHub) : RequestUrlParam :=
  {| url := "https://api.github.com/repos/" ++ repo gh;
     method := "GET";
     req_headers := [];
     contentType := None;
     body := NoBody;
     throw_opt := None |}.

Definition getRepoId : Async JsVal :=
  gh <- get_this ;;
  if truthy (repoId gh) then ret (repoId gh)
  else
    try_catch
      (response <- requestUrl (repo_request gh) ;;
       data <- response_json response ;;
       id <- data_id data ;;
       set_repoId id ;;;
       gh' <- get_this ;;
       ret (repoId gh'))
      (fun error => throw (Error ("Failed to get repo ID: " ++ Error_toString error))).

Definition cookie_header (gh : GitHub) : string :=
  "user_session=" ++ userSession gh ++ "; __Host-user_session_same_site="
    ++ userSession gh ++ ";".

(** The four fields appended to [formData], in order. *)
Definition policy_form (repository_id name : string) (size : Z) (content_type : string)
  : list (string * string) :=
  [("repository_id", repository_id); ("name", name);
   ("size", Number_toString size); ("content_type", content_type)].

Definition policy_request (gh : GitHub) (formData : list (string * string))
  : RequestUrlParam :=
  {| url := "https://github.com/upload/policies/assets";
     method := "POST";
     req_headers :=
       [("Github-Verified-Fetch", "true");
        ("Origin", "https://github.com");
        ("Content-Type", "application/x-www-form-urlencoded");
        ("Cookie", cookie_header gh)];
     contentType := None;
     body := TextBody (URLSearchParams_toString formData);
     throw_opt := None |}.

Definition session_expired_notice : string :=
  "GitPaste: Your Github session is expired. Add again".

Definition getPolicy (name : string) (size : Z) (contentType : string)
  : Async UploadPolicy :=
  gh <- get_this ;;
  (if negb (truthy (repoId gh)) then (_ <- getRepoId ;; ret tt) else ret tt) ;;;
  gh <- get_this ;;
  repository_id <- method_toString (repoId gh) ;;
  let formData := policy_form repository_id name size contentType in
  try_catch
    (response <- requestUrl (policy_request gh formData) ;;
     if negb (status response =? 201) then
       Notice session_expired_notice ;;;
       throw (Error ("Failed to get upload policy: " ++ text response))
     else
       j <- response_json response ;;
       as_UploadPolicy j)
    (fun error =>
       throw (Error ("Failed to get upload policy: " ++ Error_toString error))).

Definition complete_request (gh : GitHub) (policy : UploadPolicy) : RequestUrlParam :=
  {| url := "https://github.com" ++ asset_upload_url policy;
     method := "PUT";
     req_headers :=
       [("Content-Type", "application/x-www-form-urlencoded");
        ("Cookie", cookie_header gh)];
     contentType := None;
     body := TextBody (URLSearchParams_toString
               [("authenticity_token", asset_upload_authenticity_token policy)]);
     throw_opt := None |}.

Definition markUploadComplete (policy : UploadPolicy) : Async unit :=
  gh <- get_this ;;
  try_catch
    (_ <- requestUrl (complete_request gh policy) ;; ret tt)
    (fun error =>
       throw (Error ("Failed to mark upload as complete: " ++ Error_toString error))).

(** Modelled from the spec: [payloadGenerator] of [./payload-gen], whose
    source is missing.  Section 4.3 makes the builder a pure function
    of a boundary, the fields and the file part, and section 4.2 has a
    fresh random boundary token per call; the caller announces the
    boundary as four dashes and the string returned. *)
Definition payloadGenerator (payload_data : PayloadData) : Async (bytes * string) :=
  boundary_string <- random_base36 ;;
  let file := pd_file payload_data in
  ret (multipart_body ("----" ++ boundary_string) (pd_fields payload_data)
         (file_name file) (file_type file) (file_bytes file),
       boundary_string).

Definition upload_request (policy : UploadPolicy) (request_body : bytes)
    (boundary_string : string) : RequestUrlParam :=
  {| url := upload_url policy;
     method := "POST";
     req_headers :=
       [("contentType", "multipart/form-data; boundary=----" ++ boundary_string);
        ("Accept", "*/*")];
     contentType := Some ("multipart/form-data; boundary=----" ++ boundary_string);
     body := BinaryBody request_body;
     throw_opt := None |}.

(** [[201, 204].includes(status)] *)
Definition accepted (status : Z) : bool := (status =? 201) || (status =? 204).

Definition content_type_of (name : string) : string :=
  let ext := path_extname name in
  or_else (mime_lookup ext) "application/octet-stream".

Definition upload (name : string) (size : Z) (file : File) : Async UploadResult :=
  let contentType := content_type_of name in
  policy <- getPolicy name size contentType ;;
  try_catch
    (let payload_data := payload_data_of policy file in
     generated <- payloadGenerator payload_data ;;
     let request_body := fst generated in
     let boundary_string := snd generated in
     response <- requestUrl (upload_request policy request_body boundary_string) ;;
     if negb (accepted (status response)) then
       throw (Error ("Upload failed with status: " ++ Number_toString (status response)))
     else
       let awsLink := or_else (assoc "location" (headers response)) EmptyString in
       markUploadComplete policy ;;;
       ret {| githubLink := href (asset policy); awsLink := awsLink |})
    (fun error => throw (Error ("Failed to upload file: " ++ Error_toString error))).

End Client.
End GitHubLib.

(** ** The sibling revision with a message for an expired session

    [src/unnamed/part_001]: the same methods without the axios client;
    [getPolicy] names the expired session in the error it throws,
    [markUploadComplete] asks the host not to throw on a status. *)

Module Part001.
Section Client.

Context {host : Host}.

Definition user_agent : string :=
  "Mozilla/5.0 (Macintosh; Intel Mac OS X 10_15_7) AppleWebKit/537.36 (KHTML, like Gecko) Chrome/131.0.0.0 Safari/537.36".

Definition getRepoId : Async JsVal := GitHubLib.getRepoId.

Definition policy_request (gh : GitHub) (formData : list (string * string))
  : RequestUrlParam :=
  {| url := "https://github.com/upload/policies/assets";
     method := "POST";
     req_headers :=
       [("Github-Verified-Fetch", "true");
        ("Origin", "https://github.com");
        ("Content-Type", "application/x-www-form-urlencoded");
        ("Cookie", GitHubLib.cookie_header gh);
        ("User-Agent", user_agent);
        ("X-Requested-With", "XMLHttpRequest")];
     contentType := None;
     body := TextBody (URLSearchParams_toString formData);
     throw_opt := None |}.

Definition session_expired_message : string :=
  "Your Github session is expired. Add again".

Definition getPolicy (name : string) (size : Z) (contentType : string)
  : Async UploadPolicy :=
  gh <- get_this ;;
  (if negb (truthy (repoId gh)) then (_ <- getRepoId ;; ret tt) else ret tt) ;;;
  gh <- get_this ;;
  repository_id <- method_toString (repoId gh) ;;
  let formData := GitHubLib.policy_form repository_id name size contentType in
  try_catch
    (response <- requestUrl (policy_request gh formData) ;;
     if negb (status response =? 201) then
       throw (Error session_expired_message)
     else
       j <- response_json response ;;
       as_UploadPolicy j)
    (fun error =>
       throw (Error ("Failed to get upload policy: " ++ Error_toString error))).

Definition complete_request (gh : GitHub) (policy : UploadPolicy) : RequestUrlParam :=
  {| url := "https://github.com" ++ asset_upload_url policy;
     method := "PUT";
     req_headers :=
       [("Content-Type", "application/x-www-form-urlencoded");
        ("Cookie", GitHubLib.cookie_header gh);
        ("User-Agent", user_agent);
        ("X-Requested-With", "XMLHttpRequest")];
     contentType := Some "application/x-www-form-urlencoded";
     body := TextBody (URLSearchParams_toString
               [("authenticity_token", asset_upload_authenticity_token policy)]);
     throw_opt := Some false |}.

Definition markUploadComplete (policy : UploadPolicy) : Async unit :=
  gh <- get_this ;;
  try_catch
    (_ <- requestUrl (complete_request gh policy) ;; ret tt)
    (fun error =>
       throw (Error ("Failed to mark upload as complete: " ++ Error_toString error))).

Definition upload_request (policy : UploadPolicy) (request_body : bytes)
    (boundary_string : string) : RequestUrlParam :=
  {| url := upload_url policy;
     method := "POST";
     req_headers :=
       [("contentType", "multipart/form-data; boundary=----" ++ boundary_string);
        ("Accept", "*/*");
        ("User-Agent", user_agent);
        ("X-Requested-With", "XMLHttpRequest")];
     contentType := Some ("multipart/form-data; boundary=----" ++ boundary_string);
     body := BinaryBody request_body;
     throw_opt := None |}.

Definition upload (name : string) (size : Z) (file : File) : Async UploadResult :=
  let contentType := GitHubLib.content_type_of name in
  policy <- getPolicy name size contentType ;;
  try_catch
    (let payload_data := payload_data_of policy file in
     generated <- GitHubLib.payloadGenerator payload_data ;;
     let request_body := fst generated in
     let boundary_string := snd generated in
     response <- requestUrl (upload_request policy request_body boundary_string) ;;
     if negb (GitHubLib.accepted (status response)) then
       throw (Error ("Upload failed with status: " ++ Number_toString (status response)))
     else
       let awsLink := or_else (assoc "location" (headers response)) EmptyString in
       markUploadComplete policy ;;;
       ret {| githubLink := href (asset policy); awsLink := awsLink |})
    (fun error => throw (Error ("Failed to upload file: " ++ Error_toString error))).

End Client.
End Part001.

(** ** The sibling revision that assembles the multipart body itself

    [src/unnamed/part_000]; the second listing of [src/lib/github.ts]
    builds the body with the same statements and sends it through
    axios. *)

Module Part000.
Section Client.

Context {host : Host}.

Definition policy_request (gh : GitHub) (formData : list (string * string))
  : RequestUrlParam := GitHubLib.policy_request gh formData.

(** No status is looked at here. *)
Definition getPolicy (name : string) (size : Z) (contentType : string)
  : Async UploadPolicy :=
  gh <- get_this ;;
  (if negb (truthy (repoId gh)) then (_ <- GitHubLib.getRepoId ;; ret tt) else ret tt) ;;;
  gh <- get_this ;;
  repository_id <- method_toString (repoId gh) ;;
  let formData := GitHubLib.policy_form repository_id name size contentType in
  try_catch
    (response <- requestUrl (policy_request gh formData) ;;
     j <- response_json response ;;
     as_UploadPolicy j)
    (fun error =>
       throw (Error ("Failed to get upload policy: " ++ Error_toString error))).

Definition markUploadComplete (policy : UploadPolicy) : Async unit :=
  GitHubLib.markUploadComplete policy.

(** An element of [parts: (ArrayBuffer | string)[]]. *)
Inductive Part :=
| PartBuffer (b : bytes)
| PartString (s : string).

(** ["----WebKitFormBoundary" + Math.random().toString(36).substring(2)] *)
Definition boundary_of (token : string) : string :=
  "----WebKitFormBoundary" ++ token.

(** The [parts] array once the fields and the file are pushed. *)
Definition make_parts (boundary : string) (policy : UploadPolicy)
    (name contentType : string) (fileBuffer : bytes) : list Part :=
  (map (fun kv =>
          PartBuffer (Buffer_from
            ("--" ++ boundary ++ CRLF ++
             "Content-Disposition: form-data; name=" ++ dquote ++ fst kv ++ dquote
               ++ CRLF ++ CRLF ++
             snd kv ++ CRLF)))
       (Object_entries (form policy))
   ++ [PartBuffer (Buffer_from
         ("--" ++ boundary ++ CRLF ++
          "Content-Disposition: form-data; name=" ++ dquote ++ "file" ++ dquote
            ++ "; filename=" ++ dquote ++ name ++ dquote ++ CRLF ++
          "Content-Type: " ++ contentType ++ CRLF ++ CRLF));
       PartBuffer fileBuffer;
       PartBuffer (Buffer_from (CRLF ++ "--" ++ boundary ++ "--" ++ CRLF))])%list.

(** [typeof part === 'string' ? textEncoder.encode(part) : new Uint8Array(part)] *)
Definition to_Uint8Array (part : Part) : bytes :=
  match part with
  | PartString s => Buffer_from s
  | PartBuffer b => b
  end.

(** [buffers.forEach(buf => { body.set(buf, offset); offset += buf.length })] *)
Fixpoint set_each (body : bytes) (offset : nat) (buffers : list bytes) : Result bytes :=
  match buffers with
  | [] => Ok body
  | buf :: rest =>
      match Uint8Array_set body buf offset with
      | Ok body' => set_each body' (offset + List.length buf) rest
      | Throw e => Throw e
      | Stuck => Stuck
      end
  end.

(** From [parts] to the single array that is sent. *)
Definition combine_parts (parts : list Part) : Result bytes :=
  let buffers := map to_Uint8Array parts in
  let totalLength := fold_left (fun sum buf => (sum + List.length buf)%nat) buffers 0%nat in
  let body := Uint8Array_new totalLength in
  set_each body 0 buffers.

Definition lift_result {A} (r : Result A) : Async A := fun s => (r, s).

Definition upload_request (gh : GitHub) (policy : UploadPolicy) (boundary : string)
    (body : bytes) : RequestUrlParam :=
  {| url := upload_url policy;
     method := "POST";
     req_headers :=
       [("Content-Type", "multipart/form-data; boundary=" ++ boundary);
        ("Content-Length", Number_toString (Z.of_nat (List.length body)));
        ("Accept", "*/*");
        ("Connection", "keep-alive");
        ("Cookie", GitHubLib.cookie_header gh)];
     contentType := None;
     body := BinaryBody body;
     throw_opt := None |}.

Definition upload (name : string) (size : Z) (file : File) : Async UploadResult :=
  let contentType := GitHubLib.content_type_of name in
  policy <- getPolicy name size contentType ;;
  let fileBuffer := file_bytes file in
  try_catch
    (token <- random_base36 ;;
     let boundary := boundary_of token in
     let parts := make_parts boundary policy name contentType fileBuffer in
     body <- lift_result (combine_parts parts) ;;
     gh <- get_this ;;
     response <- requestUrl (upload_request gh policy boundary body) ;;
     let awsLink := or_else (assoc "location" (headers response)) EmptyString in
     markUploadComplete policy ;;;
     ret {| githubLink := href (asset policy); awsLink := awsLink |})
    (fun error => throw (Error ("Failed to upload file: " ++ Error_toString error))).

End Client.
End Part000.

(** ** String helpers for the plugin *)

Module Str.

Fixpoint starts_with (prefix s : string) : bool :=
  match prefix, s with
  | EmptyString, _ => true
  | String a p, String b s' => Ascii.eqb a b && starts_with p s'
  | String _ _, EmptyString => false
  end.

Fixpoint drop (n : nat) (s : string) : string :=
  match n, s with
  | O, _ => s
  | S n', String _ s' => drop n' s'
  | S _, EmptyString => EmptyString
  end.

Fixpoint take (n : nat) (s : string) : string :=
  match n, s with
  | O, _ => EmptyString
  | S n', String c s' => String c (take n' s')
  | S _, EmptyString => EmptyString
  end.

(** The leftmost occurrence of [needle]: what precedes it and what
    follows it. *)
Fixpoint split_at_first (needle s : string) : option (string * string) :=
  if starts_with needle s then Some (EmptyString, drop (String.length needle) s)
  else
    match s with
    | EmptyString => None
    | String c s' =>
        match split_at_first needle s' with
        | Some (before, after) => Some (String c before, after)
        | None => None
        end
    end.

Definition contains (needle s : string) : bool :=
  match split_at_first needle s with Some _ => true | None => false end.

Definition lower (c : ascii) : ascii :=
  let n := nat_of_ascii c in
  if ((65 <=? n) && (n <=? 90))%nat then ascii_of_nat (n + 32) else c.

Fixpoint to_lower (s : string) : string :=
  match s with
  | EmptyString => EmptyString
  | String c s' => String (lower c) (to_lower s')
  end.

(** GetSubstitution of [String.prototype.replace] for a pattern without
    capture groups: [$$], [$&], [$`] and [$'] are expanded, every other
    character stands for itself. *)
Fixpoint substitute (replacement matched before after : string) : string :=
  match replacement with
  | String "$" (String c rest as tail) =>
      if Ascii.eqb c "$" then String "$" (substitute rest matched before after)
      else if Ascii.eqb c "&" then matched ++ substitute rest matched before after
      else if Ascii.eqb c "`" then before ++ substitute rest matched before after
      else if Ascii.eqb c "'" then after ++ substitute rest matched before after
      else String "$" (substitute tail matched before after)
  | String c rest => String c (substitute rest matched before after)
  | EmptyString => EmptyString
  end.

(** [s.replace(re, replacement)] for a pattern [re] that matches the
    literal text [needle], without the [g] flag. *)
Definition replace_first (needle replacement s : string) : string :=
  match split_at_first needle s with
  | Some (before, after) =>
      before ++ substitute replacement needle before after ++ after
  | None => s
  end.

End Str.

(** ** The plugin: [src/unnamed/part_002], the revision of [main.ts] with
    settings, notices and the vault's create event *)

Module Main.
Section Plugin.

Context {host : Host}.

Record GitPasteSettings := {
  githubSession : string;
  deleteLocalImage : bool;
  showNotices : bool;
  enableLogging : bool;
  logFilePath : string
}.

Definition DEFAULT_SETTINGS : GitPasteSettings :=
  {| githubSession := EmptyString;
     deleteLocalImage := false;
     showNotices := true;
     enableLogging := false;
     logFilePath := "uploaded-images.md" |}.

(** A vault file handle. *)
Record TFile := {
  path : string;
  tfile_name : string;
  extension : string
}.

Inductive VaultEntry :=
| FileEntry (content : bytes)
| FolderEntry.

(** The storage behind the vault, for the three calls that [logImageURL]
    awaits, [vault.create], [vault.read] and [vault.modify] of the
    obsidian API: whether a write is refused, and with what error, for
    a path, a text and the vault as it stands; and what text the bytes
    of a file are read as, if they can be read. *)
Record VaultAdapter := {
  create_refused : string -> string -> list (string * VaultEntry) -> option JsError;
  read_as : string -> bytes -> JsError + string;
  modify_refused : string -> string -> list (string * VaultEntry) -> option JsError
}.

(** The editor of the active markdown view: its lines and the cursor,
    which the handler only reads. *)
Record Editor := {
  lines : list string;
  cursor_line : nat;
  cursor_ch : nat
}.

(** The plugin and what it acts on: the vault by path and its storage,
    the files handed to [trashFile], the editor of the active view if
    there is one. *)
Record Plugin := {
  settings : GitPasteSettings;
  vault : list (string * VaultEntry);
  adapter : VaultAdapter;
  trashed : list TFile;
  activeEditor : option Editor;
  prt : Runtime
}.

Definition App (A : Type) : Type := M Plugin A.

Definition set_prt (p : Plugin) (r : Runtime) : Plugin :=
  {| settings := settings p; vault := vault p; adapter := adapter p;
     trashed := trashed p; activeEditor := activeEditor p; prt := r |}.

Definition set_vault (p : Plugin) (v : list (string * VaultEntry)) : Plugin :=
  {| settings := settings p; vault := v; adapter := adapter p;
     trashed := trashed p; activeEditor := activeEditor p; prt := prt p |}.

Definition set_editor (p : Plugin) (e : option Editor) : Plugin :=
  {| settings := settings p; vault := vault p; adapter := adapter p;
     trashed := trashed p; activeEditor := e; prt := prt p |}.

(** A method call on a client held in a local variable: the instance
    lives for the call and is dropped after it. *)
Definition on_client {A} (gh : GitHub) (m : Async A) : App A :=
  fun p =>
    let (r, s) := m {| this := gh; rt := prt p |} in
    (r, set_prt p (rt s)).

Definition showNotice (message : string) : App unit :=
  p <- get ;;
  if showNotices (settings p)
  then modify (fun p => set_prt p (Runtime_Notice ("GitPaste: " ++ message) (prt p)))
  else ret tt.

Fixpoint remove_path (k : string) (v : list (string * VaultEntry))
  : list (string * VaultEntry) :=
  match v with
  | [] => []
  | (k', e) :: v' => if String.eqb k k' then remove_path k v' else (k', e) :: remove_path k v'
  end.

(** [this.app.vault.readBinary(file)] *)
Definition readBinary (file : TFile) : App bytes :=
  p <- get ;;
  match assoc (path file) (vault p) with
  | Some (FileEntry content) => ret content
  | _ => throw (Error ("ENOENT: no such file or directory, open '" ++ path file ++ "'"))
  end.

(** [this.app.fileManager.trashFile(file)] *)
Definition trashFile (file : TFile) : App unit :=
  modify (fun p =>
    {| settings := settings p;
       vault := remove_path (path file) (vault p);
       adapter := adapter p;
       trashed := (trashed p ++ [file])%list;
       activeEditor := activeEditor p;
       prt := prt p |}).

(** The vault once [content] is stored at [k]. *)
Definition stored (k : string) (content : bytes) (v : list (string * VaultEntry))
  : list (string * VaultEntry) :=
  (k, FileEntry content) :: remove_path k v.

(** [await this.app.vault.create(path, data)]: the promise rejects when
    the storage refuses the write; otherwise the file holds the text. *)
Definition vault_create (k : string) (data : string) : App VaultEntry :=
  p <- get ;;
  match create_refused (adapter p) k data (vault p) with
  | Some e => throw e
  | None =>
      modify (fun p => set_vault p (stored k (list_byte_of_string data) (vault p))) ;;;
      ret (FileEntry (list_byte_of_string data))
  end.

(** [await this.app.vault.read(file)]: the file's bytes as text, as far
    as the storage can read them. *)
Definition vault_read (k : string) : App string :=
  p <- get ;;
  match assoc k (vault p) with
  | Some (FileEntry content) =>
      match read_as (adapter p) k content with
      | inl e => throw e
      | inr text => ret text
      end
  | _ => throw (Error ("ENOENT: no such file or directory, open '" ++ k ++ "'"))
  end.

(** [await this.app.vault.modify(file, data)] *)
Definition vault_modify (k : string) (data : string) : App unit :=
  p <- get ;;
  match modify_refused (adapter p) k data (vault p) with
  | Some e => throw e
  | None => modify (fun p => set_vault p (stored k (list_byte_of_string data) (vault p)))
  end.

(** [getAbstractFileByPath] is the lookup by path; [file instanceof
    TFile] tells a file from a folder. *)
Definition logImageURL (fileName githubLink : string) : App unit :=
  p <- get ;;
  let logFilePath := logFilePath (settings p) in
  file <- match assoc logFilePath (vault p) with
          | Some e => ret e
          | None => vault_create logFilePath EmptyString
          end ;;
  match file with
  | FileEntry _ =>
      currentContent <- vault_read logFilePath ;;
      let newContent :=
        currentContent ++ String "010"%char EmptyString ++ "- " ++ fileName ++ ": "
          ++ githubLink in
      vault_modify logFilePath newContent
  | FolderEntry => ret tt
  end.

Fixpoint set_nth (n : nat) (x : string) (l : list string) : list string :=
  match n, l with
  | O, _ :: l' => x :: l'
  | S n', y :: l' => y :: set_nth n' x l'
  | _, [] => []
  end.

(** The text of a local embed of [name], which the pattern built from
    the escaped name matches literally. *)
Definition local_embed (name : string) : string := "![[" ++ name ++ "]]".

(** The body of [if (markdownView) { ... }]. *)
Definition rewrite_note (name filePath : string) : App unit :=
  p <- get ;;
  match activeEditor p with
  | None => ret tt
  | Some editor =>
      let lineContent := nth (cursor_line editor) (lines editor) EmptyString in
      let imageMarkdown := "![" ++ name ++ "](" ++ filePath ++ ")" in
      if Str.contains (local_embed name) lineContent then
        let updatedLine := Str.replace_first (local_embed name) imageMarkdown lineContent in
        modify (fun p => set_editor p (Some
          {| lines := set_nth (cursor_line editor) updatedLine (lines editor);
             cursor_line := cursor_line editor;
             cursor_ch := cursor_ch editor |})) ;;;
        showNotice "Replaced local image link with GitHub URL."
      else
        let updatedLine :=
          Str.take (cursor_ch editor) lineContent ++ imageMarkdown
            ++ Str.drop (cursor_ch editor) lineContent in
        modify (fun p => set_editor p (Some
          {| lines := set_nth (cursor_line editor) updatedLine (lines editor);
             cursor_line := cursor_line editor;
             cursor_ch := cursor_ch editor |})) ;;;
        showNotice "Inserted GitHub image link."
  end.

Definition handleImagePaste (file : option File) : App unit :=
  match file with
  | None => ret tt
  | Some file =>
      p <- get ;;
      if is_empty (githubSession (settings p)) then
        showNotice "GitPaste: Please Add GitHub Session to use this."
      else
        let gh := GitHubLib.constructor (githubSession (settings p)) None in
        try_catch
          (result <- on_client gh
                       (GitHubLib.upload (file_name file) (file_size file) file) ;;
           let filePath := githubLink result in
           rewrite_note (file_name file) filePath ;;;
           p <- get ;;
           if enableLogging (settings p)
           then logImageURL (file_name file) (githubLink result)
           else ret tt)
          (fun error =>
             showNotice (message error ++ ". Please check the console for details."))
  end.

(** [file.extension.match(/png|jpg|jpeg|gif|bmp/i)] *)
Definition image_extension (ext : string) : bool :=
  let e := Str.to_lower ext in
  Str.contains "png" e || Str.contains "jpg" e || Str.contains "jpeg" e
  || Str.contains "gif" e || Str.contains "bmp" e.

(** The handler registered on the vault's [create] event.  The [File] it
    builds takes the media type of its [Blob], which is lower-cased. *)
Definition on_create (file : TFile) : App unit :=
  if negb (is_empty (extension file)) && image_extension (extension file) then
    data <- readBinary file ;;
    let uploadedFile :=
      {| file_name := tfile_name file;
         file_type := Str.to_lower ("image/" ++ extension file);
         file_bytes := data |} in
    handleImagePaste (Some uploadedFile) ;;;
    p <- get ;;
    if deleteLocalImage (settings p) then
      trashFile file ;;;
      showNotice "Local Image is trashed"
    else ret tt
  else ret tt.

End Plugin.
End Main.

(** ** A scripted host for the examples

    Each request takes the next outcome of the script, whatever it asks;
    a request past the end of the script is refused.  The random token is
    fixed; [extname] and [lookup] follow Node's [path] and [mime-types]
    on the few names and types the examples use. *)

Module Mock.

Fixpoint after_last (c : ascii) (s : string) : option string :=
  match s with
  | EmptyString => None
  | String a s' =>
      match after_last c s' with
      | Some r => Some r
      | None => if Ascii.eqb a c then Some s' else None
      end
  end.

Definition basename (p : string) : string :=
  match after_last "/" p with Some b => b | None => p end.

(** The extension with its dot; none for a name without a dot, for a
    name whose only dot comes first, and for [..]. *)
Definition extname (p : string) : string :=
  let b := basename p in
  match after_last "." b with
  | None => EmptyString
  | Some e =>
      if (String.length e + 1 =? String.length b)%nat then EmptyString
      else if String.eqb b ".." then EmptyString
      else String "." e
  end.

Definition types : list (string * string) :=
  [("png", "image/png"); ("jpg", "image/jpeg"); ("jpeg", "image/jpeg");
   ("gif", "image/gif"); ("bmp", "image/bmp"); ("txt", "text/plain")].

Definition lookup (p : string) : option string :=
  match after_last "." ("x." ++ p) with
  | Some e => if is_empty e then None else assoc (Str.to_lower e) types
  | None => None
  end.

Definition refused : JsError := Error "net::ERR_CONNECTION_REFUSED".

Definition step (_ : RequestUrlParam) (w : list Outcome) : Outcome * list Outcome :=
  match w with
  | o :: w' => (o, w')
  | [] => (Rejected refused, [])
  end.

Definition scripted : Host :=
  {| World := list Outcome;
     host_requestUrl := step;
     Math_random_base36 := fun w => ("4fzyo82mvyr", w);
     path_extname := extname;
     mime_lookup := lookup |}.

(** A session of the scripted host. *)
Definition start (gh : GitHub) (script : list Outcome) : @Session scripted :=
  @Build_Session scripted gh (@Build_Runtime scripted script [] []).

Definition respond (status : Z) (headers : list (string * string)) (j : Json)
  : Outcome :=
  Resolved {| status := status; headers := headers; text := EmptyString;
              json := Parsed_ok j |}.

(** A policy as the platform sends it. *)
Definition policy_json (fields : list (string * string)) : Json :=
  JObj [("upload_url", JStr "https://s3/bucket");
        ("upload_authenticity_token", JStr "t1");
        ("asset_upload_url", JStr "/upload/assets/1");
        ("asset_upload_authenticity_token", JStr "t2");
        ("asset", JObj [("id", JNum 1); ("name", JStr "a.png"); ("size", JNum 10);
                        ("content_type", JStr "image/png");
                        ("href", JStr "https://x/assets/1");
                        ("original_name", JStr "a.png")]);
        ("form", JObj (map (fun kv => (fst kv, JStr (snd kv))) fields));
        ("header", JObj []);
        ("same_origin", JBool false)].

(** A storage that refuses nothing and reads the bytes as they are. *)
Definition plain_storage : Main.VaultAdapter :=
  {| Main.create_refused := fun _ _ _ => None;
     Main.read_as := fun _ content => inr (string_of_list_byte content);
     Main.modify_refused := fun _ _ _ => None |}.

Definition a_png : File :=
  {| file_name := "a.png"; file_type := "image/png";
     file_bytes := [Byte.x89; Byte.x50; Byte.x00; Byte.x2d; Byte.x2d; Byte.x0d;
                    Byte.x0a; Byte.xff; Byte.x00; Byte.x47] |}.

End Mock.

(** ** Concrete runs

    The inputs of the examples, first among them the one of the
    specification: the default client, a policy with
    [asset.href = "https://x/assets/1"], an upload answered with
    [Location: https://s3/y]. *)
Module Example.

Import Mock.

Definition client : GitHub := GitHubLib.constructor "sess" None.

Definition form_fields : list (string * string) :=
  [("key", "k"); ("acl", "private")].

Definition policy : UploadPolicy :=
  {| upload_url := "https://s3/bucket";
     upload_authenticity_token := "t1";
     asset_upload_url := "/upload/assets/1";
     asset_upload_authenticity_token := "t2";
     asset := {| asset_id := 1; asset_name := "a.png"; asset_size := 10;
                 asset_content_type := "image/png"; href := "https://x/assets/1";
                 original_name := "a.png" |};
     form := form_fields;
     header := Some (JObj []);
     same_origin := false |}.

Definition all_succeed : list Outcome :=
  [respond 201 [] (policy_json form_fields);
   respond 204 [("location", "https://s3/y")] JNull;
   respond 200 [] JNull].

(** The same run with an accepted upload that names no location. *)
Definition no_location : list Outcome :=
  [respond 201 [] (policy_json form_fields);
   respond 201 [("etag", "abc")] JNull;
   respond 200 [] JNull].

(** A policy request the platform turns down, a host that is not
    reachable, an upload the storage turns down. *)
Definition unauthorized_response : RequestUrlResponse :=
  {| status := 401; headers := []; text := "Unauthorized";
     json := Parsed_error (mkError "SyntaxError" "Unexpected token U in JSON") |}.

Definition unauthorized : Outcome := Resolved unauthorized_response.

Definition expired : list Outcome := [unauthorized].

Definition offline : list Outcome := [].

Definition forbidden_response : RequestUrlResponse :=
  {| status := 403; headers := []; text := "AccessDenied";
     json := Parsed_error (mkError "SyntaxError" "Unexpected token < in JSON") |}.

Definition forbidden : Outcome := Resolved forbidden_response.

Definition upload_refused : list Outcome :=
  [respond 201 [] (policy_json form_fields); forbidden].

(** A client of another repository, whose metadata document gives the id
    0 at first and 7 later. *)
Definition other_client : GitHub := GitHubLib.constructor "sess" (Some "octo/repo").


(** A metadata document without the [id] field, then the answers of a
    successful upload. *)
Definition metadata_without_id : Outcome :=
  respond 200 [] (JObj [("name", JStr "repo"); ("full_name", JStr "octo/repo")]).

Definition no_id_then_success : list Outcome :=
  metadata_without_id :: all_succeed.

(** The plugin with the deletion of local images switched on, the pasted
    image in the vault, a note that embeds it under the cursor, and a
    session the platform no longer accepts. *)
Definition pasted : Main.TFile :=
  {| Main.path := "attachments/a.png"; Main.tfile_name := "a.png";
     Main.extension := "png" |}.

Definition note : Main.Editor :=
  {| Main.lines := ["# Trip"; "see ![[a.png]] below"]; Main.cursor_line := 1;
     Main.cursor_ch := 4 |}.

Definition plugin (script : list Outcome) : @Main.Plugin scripted :=
  @Main.Build_Plugin scripted
    {| Main.githubSession := "sess"; Main.deleteLocalImage := true;
       Main.showNotices := true; Main.enableLogging := false;
       Main.logFilePath := "uploaded-images.md" |}
    [("attachments/a.png", Main.FileEntry (file_bytes a_png))]
    plain_storage
    []
    (Some note)
    (@Build_Runtime scripted script [] []).

(** A form with an array-index key created after a named one. *)
Definition indexed_fields : list (string * string) := [("b", "x"); ("1", "y")].

Definition indexed_form : list Outcome :=
  [respond 201 [] (policy_json indexed_fields);
   respond 204 [("location", "https://s3/y")] JNull;
   respond 200 [] JNull].

Definition webkit_boundary : string := "----WebKitFormBoundary4fzyo82mvyr".

End Example.

(** ** [requestUrl] and the status of the answer

    [requestUrl] belongs to the obsidian API and is not part of the
    repository.  By its documented contract (the option [throw], whether
    to throw an error when the status code is 400 or more, which
    defaults to true) the promise rejects on an answer of status 400 or
    more unless the caller passed [throw: false]; the error it rejects
    with reads "Request failed, status <status>". *)

Definition Request_failed (status : Z) : JsError :=
  Error ("Request failed, status " ++ Number_toString status).

Definition throws_on_status (param : RequestUrlParam) (response : RequestUrlResponse)
  : bool :=
  (400 <=? status response)
  && match throw_opt param with Some false => false | _ => true end.

(** What the promise of [requestUrl] comes to for an answer. *)
Definition settled (param : RequestUrlParam) (response : RequestUrlResponse) : Outcome :=
  if throws_on_status param response
  then Rejected (Request_failed (status response))
  else Resolved response.

(** The host that [requestUrl] makes of a wire.  The wire says what came
    back for a request: an answer, of any status ([Resolved]), or no
    answer at all ([Rejected]). *)
Definition obsidian (wire : Host) : Host :=
  {| World := @World wire;
     host_requestUrl := fun param w =>
       match @host_requestUrl wire param w with
       | (Resolved response, w') => (settled param response, w')
       | (Rejected e, w') => (Rejected e, w')
       end;
     Math_random_base36 := @Math_random_base36 wire;
     path_extname := @path_extname wire;
     mime_lookup := @mime_lookup wire |}.

(** The message under which a refused multipart POST reaches the caller
    of [upload]: the one of [requestUrl] for a status of 400 or more,
    the one of [upload] itself below that. *)
Definition refusal_message (status : Z) : string :=
  if 400 <=? status
  then "Request failed, status " ++ Number_toString status
  else "Upload failed with status: " ++ Number_toString status.

(** [requestUrl] over the scripted wire: the script holds what the
    servers answer. *)
Module Wire.

Definition scripted : Host := obsidian Mock.scripted.

Definition start (gh : GitHub) (script : list Outcome) : @Session scripted :=
  @Build_Session scripted gh (@Build_Runtime scripted script [] []).

End Wire.

(** ** Notions the statements use *)

Section Notions.

Context {host : Host}.

(** The session once a request has been answered. *)
Definition answered (s : Session) (param : RequestUrlParam) (o : Outcome) (w : World)
  : Session :=
  {| this := this s;
     rt := {| world := w; trace := (trace (rt s) ++ [(param, o)])%list;
              notices := notices (rt s) |} |}.

(** The session with one more notice. *)
Definition noticed (s : Session) (msg : string) : Session :=
  {| this := this s; rt := Runtime_Notice msg (rt s) |}.

(** The session once the host has drawn a random token. *)
Definition drawn (s : Session) (w : World) : Session :=
  {| this := this s;
     rt := {| world := w; trace := trace (rt s); notices := notices (rt s) |} |}.

(** The host's answers along one [upload] call of a client that builds
    its requests with [preq], [ureq] and [creq]: the repository id
    resolves to a number, the policy request returns 201 with [P], the
    multipart POST returns 201 or 204 with [location] as the value of
    its Location header, the completion PUT resolves. *)
Definition all_steps_succeed
    (preq : GitHub -> list (string * string) -> RequestUrlParam)
    (ureq : UploadPolicy -> bytes -> string -> RequestUrlParam)
    (creq : GitHub -> UploadPolicy -> RequestUrlParam)
    (s : Session) (name : string) (size : Z) (file : File)
    (P : UploadPolicy) (location : option string) : Prop :=
  exists z s0 presp j w1 tok w2 uresp w3 cresp w4,
    GitHubLib.getRepoId s = (Ok (VNum z), s0)
    /\ host_requestUrl
         (preq (this s0)
            (GitHubLib.policy_form (Number_toString z) name size
               (GitHubLib.content_type_of name)))
         (world (rt s0)) = (Resolved presp, w1)
    /\ status presp = 201
    /\ json presp = Parsed_ok j
    /\ UploadPolicy_of_json j = Some P
    /\ Math_random_base36 w1 = (tok, w2)
    /\ host_requestUrl
         (ureq P
            (multipart_body ("----" ++ tok) (pd_fields (payload_data_of P file))
               (file_name file) (file_type file) (file_bytes file))
            tok)
         w2 = (Resolved uresp, w3)
    /\ (status uresp = 201 \/ status uresp = 204)
    /\ assoc "location" (headers uresp) = location
    /\ host_requestUrl (creq (this s0) P) w3 = (Resolved cresp, w4).

(** How [upload] of [src/lib/github.ts] ends, given how the policy
    request ended. *)
Definition lib_policy_failure (s0 : Session) (param : RequestUrlParam)
    (o : Outcome) (w : World) : Result UploadResult * Session :=
  match o with
  | Resolved response =>
      (Throw (Error ("Failed to get upload policy: Error: Failed to get upload policy: "
                     ++ text response)),
       noticed (answered s0 param o w) GitHubLib.session_expired_notice)
  | Rejected e =>
      (Throw (Error ("Failed to get upload policy: " ++ Error_toString e)),
       answered s0 param o w)
  end.

(** The same for [src/unnamed/part_001]. *)
Definition part001_policy_failure (s0 : Session) (param : RequestUrlParam)
    (o : Outcome) (w : World) : Result UploadResult * Session :=
  match o with
  | Resolved response =>
      (Throw (Error ("Failed to get upload policy: Error: "
                     ++ Part001.session_expired_message)),
       answered s0 param o w)
  | Rejected e =>
      (Throw (Error ("Failed to get upload policy: " ++ Error_toString e)),
       answered s0 param o w)
  end.

(** The policy request did not return 201. *)
Definition not_created (o : Outcome) : Prop :=
  match o with
  | Resolved response => status response <> 201
  | Rejected _ => True
  end.

(** The calls a holder of a client can make, and their effect on the
    session. *)
Inductive Call :=
| call_getRepoId
| call_upload (name : string) (size : Z) (file : File).

Definition run_call (c : Call) (s : Session) : Session :=
  match c with
  | call_getRepoId => snd (GitHubLib.getRepoId s)
  | call_upload name size file => snd (GitHubLib.upload name size file s)
  end.

Definition run_calls (cs : list Call) (s : Session) : Session :=
  fold_left (fun s c => run_call c s) cs s.

(** [s'] comes after [s] and every request issued in between satisfies
    [Q]. *)
Definition issued_between (Q : RequestUrlParam -> Prop) (s s' : Session) : Prop :=
  exists evs, trace (rt s') = (trace (rt s) ++ evs)%list
              /\ Forall (fun ev => Q (fst ev)) evs.

Definition not_a_GET (param : RequestUrlParam) : Prop := method param <> "GET".





End Notions.

From Stdlib Require Import Permutation.

(** ** [uploadFromPath] and [createFileFromPath] of [src/lib/github.ts] *)

(** Node's [fs] and [path.basename], as the two methods use them: the
    size [fs.statSync] reports and the bytes [fs.promises.readFile]
    yields, or the error either raises. *)
Class Disk := {
  statSync_size : string -> JsError + Z;
  readFile : string -> JsError + bytes;
  path_basename : string -> string
}.

Module FromPath.
Section Client.

Context {host : Host} {disk : Disk}.

Definition lift_sum {A} (x : JsError + A) : Async A :=
  match x with
  | inl e => throw e
  | inr a => ret a
  end.

Definition printable (c : ascii) : bool :=
  let n := nat_of_ascii c in ((32 <=? n) && (n <=? 126))%nat.

Fixpoint all_printable (s : string) : bool :=
  match s with
  | EmptyString => true
  | String c s' => printable c && all_printable s'
  end.

(** The [type] of a [Blob]: the option in lower case, the empty string
    when a character of it lies outside U+0020 to U+007E. *)
Definition Blob_type (type : string) : string :=
  if all_printable type then Str.to_lower type else EmptyString.

Definition createFileFromPath (filepath : string) : Async File :=
  buffer <- lift_sum (readFile filepath) ;;
  let filename := path_basename filepath in
  let mimeType := or_else (mime_lookup filepath) "application/octet-stream" in
  ret {| file_name := filename; file_type := Blob_type mimeType; file_bytes := buffer |}.

(** [return this.upload(...)] hands the promise of [upload] back without
    awaiting it: the call is made inside the [try], its rejection is
    settled outside and is not seen by the [catch]. *)
Definition uploadFromPath (filePath : string) : Async UploadResult :=
  returned <-
    try_catch
      (size <- lift_sum (statSync_size filePath) ;;
       file <- createFileFromPath filePath ;;
       ret (GitHubLib.upload (path_basename filePath) size file))
      (fun error =>
         throw (Error ("Failed to upload file from path: " ++ Error_toString error))) ;;
  returned.

End Client.
End FromPath.

(** ** [src/main.ts]: the first revision of the plugin *)

Module MainTs.
Section Plugin.

Context {host : Host}.

Record GitPasteSettings := {
  githubSession : string
}.

(** The document of the active editor around its selection. *)
Record Editor := {
  before : string;
  selected : string;
  after : string
}.

Definition getValue (e : Editor) : string := before e ++ selected e ++ after e.

Record Plugin := {
  settings : GitPasteSettings;
  activeEditor : option Editor;
  prt : Runtime
}.

Definition App (A : Type) : Type := M Plugin A.

Definition on_client {A} (gh : GitHub) (m : Async A) : App A :=
  fun p =>
    let (r, s) := m {| this := gh; rt := prt p |} in
    (r, {| settings := settings p; activeEditor := activeEditor p; prt := rt s |}).

(** [new Notice(msg)] *)
Definition Notice (msg : string) : App unit :=
  modify (fun p => {| settings := settings p; activeEditor := activeEditor p;
                      prt := Runtime_Notice msg (prt p) |}).

(** [editor.replaceSelection(text)]: the text takes the place of the
    selection and the cursor comes after it. *)
Definition replaceSelection (text : string) : App unit :=
  modify (fun p =>
    {| settings := settings p;
       activeEditor :=
         match activeEditor p with
         | Some e => Some {| before := before e ++ text; selected := EmptyString;
                             after := after e |}
         | None => None
         end;
       prt := prt p |}).

(** [this.settings = data || { githubSession: "" }] *)
Definition loadSettings (data : option GitPasteSettings) : GitPasteSettings :=
  match data with
  | Some d => d
  | None => {| githubSession := EmptyString |}
  end.

Definition handleImagePaste (file : option File) : App unit :=
  match file with
  | None => ret tt
  | Some file =>
      p <- get ;;
      (if is_empty (githubSession (settings p))
       then Notice "GitPaste: Please Add Github Session to use this."
       else ret tt) ;;;
      let gh := GitHubLib.constructor (githubSession (settings p)) None in
      result <- on_client gh (GitHubLib.upload (file_name file) (file_size file) file) ;;
      let filePath := githubLink result in
      p <- get ;;
      match activeEditor p with
      | Some _ =>
          let imageMarkdown := "![" ++ file_name file ++ "](" ++ filePath ++ ")" in
          replaceSelection imageMarkdown
      | None => ret tt
      end
  end.

End Plugin.
End MainTs.

(** ** Reading a form body back *)

Module Form.

Definition hex_value (c : ascii) : option nat :=
  let n := nat_of_ascii c in
  if ((48 <=? n) && (n <=? 57))%nat then Some (n - 48)%nat
  else if ((65 <=? n) && (n <=? 70))%nat then Some (n - 55)%nat
  else None.

(** The decoder of application/x-www-form-urlencoded text: [+] is a
    space, [%XY] the byte with that code. *)
Fixpoint urldecode (s : string) : option string :=
  match s with
  | EmptyString => Some EmptyString
  | String c s' =>
      if Ascii.eqb c "%" then
        match s' with
        | String h (String l rest) =>
            match hex_value h, hex_value l, urldecode rest with
            | Some a, Some b, Some r => Some (String (ascii_of_nat (16 * a + b)) r)
            | _, _, _ => None
            end
        | _ => None
        end
      else
        match urldecode s' with
        | Some r => Some (String (if Ascii.eqb c "+" then " "%char else c) r)
        | None => None
        end
  end.

(** The segments between the occurrences of [sep]. *)
Fixpoint split_on (sep : ascii) (s : string) : list string :=
  match s with
  | EmptyString => [EmptyString]
  | String c s' =>
      if Ascii.eqb c sep then EmptyString :: split_on sep s'
      else
        match split_on sep s' with
        | seg :: segs => String c seg :: segs
        | [] => [String c EmptyString]
        end
  end.

Definition parse_pair (seg : string) : option (string * string) :=
  match Str.split_at_first "=" seg with
  | Some (k, v) =>
      match urldecode k, urldecode v with
      | Some k', Some v' => Some (k', v')
      | _, _ => None
      end
  | None => None
  end.

Fixpoint parse_pairs (segs : list string) : option (list (string * string)) :=
  match segs with
  | [] => Some []
  | seg :: segs' =>
      match parse_pair seg, parse_pairs segs' with
      | Some p, Some ps => Some (p :: ps)
      | _, _ => None
      end
  end.

(** The name-value pairs of a form body. *)
Definition parse (body : string) : option (list (string * string)) :=
  if is_empty body then Some [] else parse_pairs (split_on "&" body).

End Form.

(** ** Notions of the further statements *)

(** Which requests of a client carry the session [session].  A request
    with a form body (the policy POST, the completion PUT) carries the
    [Cookie] header made of it; the request without a body (the
    metadata GET) and the one with a binary body (the multipart POST)
    carry no [Cookie] header. *)
Definition cookie_by_body (session : string) (param : RequestUrlParam) : Prop :=
  match body param with
  | NoBody => method param = "GET" /\ assoc "Cookie" (req_headers param) = None
  | BinaryBody _ => method param = "POST" /\ assoc "Cookie" (req_headers param) = None
  | TextBody _ =>
      (method param = "POST" \/ method param = "PUT")
      /\ assoc "Cookie" (req_headers param)
         = Some ("user_session=" ++ session ++ "; __Host-user_session_same_site="
                 ++ session ++ ";")
  end.

(** The errors [upload] of [src/lib/github.ts] can throw. *)
Definition upload_error (e : JsError) : Prop :=
  e = TypeError "Cannot read properties of undefined (reading 'toString')"
  \/ e = TypeError "Cannot read properties of null (reading 'toString')"
  \/ (exists e0, e = Error ("Failed to get repo ID: " ++ Error_toString e0))
  \/ (exists e0, e = Error ("Failed to get upload policy: " ++ Error_toString e0))
  \/ (exists e0, e = Error ("Failed to upload file: " ++ Error_toString e0)).

(** No [$] occurs in the text. *)
Fixpoint no_dollar (s : string) : bool :=
  match s with
  | EmptyString => true
  | String c s' => negb (Ascii.eqb c "$") && no_dollar s'
  end.

(** The character [ch] does not occur in [s]. *)
Fixpoint free_of (ch : ascii) (s : string) : bool :=
  match s with
  | EmptyString => true
  | String c s' => negb (Ascii.eqb c ch) && free_of ch s'
  end.

Section PluginNotions.

Context {host : Host}.

(** From [p] to [p'] no file was trashed, the settings stayed, and the
    vault changed at most under the path of the log file. *)
Definition same_files (p p' : Main.Plugin) : Prop :=
  Main.trashed p' = Main.trashed p
  /\ Main.settings p' = Main.settings p
  /\ forall k, k <> Main.logFilePath (Main.settings p) ->
                assoc k (Main.vault p') = assoc k (Main.vault p).

(** Every run of [m] keeps the files. *)
Definition keeps_files {A} (m : Main.App A) : Prop :=
  forall p r p', m p = (r, p') -> same_files p p'.

(** Every run of [m] leaves the editor alone. *)
Definition keeps_editor {A} (m : Main.App A) : Prop :=
  forall p r p', m p = (r, p') -> Main.activeEditor p' = Main.activeEditor p.

(** The session in which [handleImagePaste] of [src/main.ts] runs
    [upload]: a fresh client of the default repository, after the notice
    about a missing session if there is none. *)
Definition paste_session (p : MainTs.Plugin) : Session :=
  {| this := GitHubLib.constructor (MainTs.githubSession (MainTs.settings p)) None;
     rt := if is_empty (MainTs.githubSession (MainTs.settings p))
           then Runtime_Notice "GitPaste: Please Add Github Session to use this."
                  (MainTs.prt p)
           else MainTs.prt p |}.

End PluginNotions.

(** The alternatives of [/png|jpg|jpeg|gif|bmp/i]. *)
Definition image_words : list string := ["png"; "jpg"; "jpeg"; "gif"; "bmp"].

(** ** More concrete runs *)

Module Runs.

Import Mock.

(** A disk with one image and nothing else. *)
Definition enoent (p : string) : JsError :=
  Error ("ENOENT: no such file or directory, stat '" ++ p ++ "'").

Definition one_image : Disk :=
  {| statSync_size := fun p =>
       if String.eqb p "/tmp/shots/a.png" then inr 10 else inl (enoent p);
     readFile := fun p =>
       if String.eqb p "/tmp/shots/a.png" then inr (file_bytes a_png) else inl (enoent p);
     path_basename := basename |}.

(** A metadata document with the id 7. *)
Definition metadata_seven_response : RequestUrlResponse :=
  {| status := 200; headers := []; text := EmptyString;
     json := Parsed_ok (JObj [("id", JNum 7); ("name", JStr "repo")]) |}.

Definition metadata_seven : list Outcome := [Resolved metadata_seven_response].

(** The metadata body is the JSON text [null]. *)
Definition metadata_null : list Outcome := [respond 200 [] JNull].

(** The upload is stored, the completion request does not get through. *)
Definition completion_lost : list Outcome :=
  [respond 201 [] (policy_json Example.form_fields);
   respond 204 [("location", "https://s3/y")] JNull].

Definition stored_response : RequestUrlResponse :=
  {| status := 204; headers := [("location", "https://s3/y")]; text := EmptyString;
     json := Parsed_ok JNull |}.

(** Every answer carries an error status, the policy document is there
    all the same. *)
Definition error_statuses : list Outcome :=
  [respond 422 [] (policy_json Example.form_fields);
   respond 403 [("location", "https://s3/y")] JNull;
   respond 500 [] JNull].

(** A note created in the vault, and an image whose extension is in
    upper case. *)
Definition created_note : Main.TFile :=
  {| Main.path := "notes/trip.md"; Main.tfile_name := "trip.md"; Main.extension := "md" |}.

(** The plugin of [src/unnamed/part_002] with chosen settings. *)
Definition plugin_with (session : string) (delete notices_on logging : bool)
    (script : list Outcome) : @Main.Plugin scripted :=
  @Main.Build_Plugin scripted
    {| Main.githubSession := session; Main.deleteLocalImage := delete;
       Main.showNotices := notices_on; Main.enableLogging := logging;
       Main.logFilePath := "uploaded-images.md" |}
    [("attachments/a.png", Main.FileEntry (file_bytes a_png));
     ("uploaded-images.md", Main.FileEntry (list_byte_of_string "# Uploaded"))]
    plain_storage
    []
    (Some Example.note)
    (@Build_Runtime scripted script [] []).

(** A storage that can read the log and refuses to write to it, and the
    plugin over it, with logging on. *)
Definition locked_storage : Main.VaultAdapter :=
  {| Main.create_refused := fun _ _ _ => None;
     Main.read_as := fun _ content => inr (string_of_list_byte content);
     Main.modify_refused := fun k _ _ =>
       Some (Error ("EACCES: permission denied, open '" ++ k ++ "'")) |}.

Definition locked_log (session : string) : @Main.Plugin scripted :=
  @Main.Build_Plugin scripted
    {| Main.githubSession := session; Main.deleteLocalImage := false;
       Main.showNotices := true; Main.enableLogging := true;
       Main.logFilePath := "uploaded-images.md" |}
    [("uploaded-images.md", Main.FileEntry (list_byte_of_string "# Uploaded"))]
    locked_storage
    []
    (Some Example.note)
    (@Build_Runtime scripted [] [] []).

(** The first plugin, with a word selected in the note. *)
Definition first_plugin (session : string) (script : list Outcome)
  : @MainTs.Plugin scripted :=
  @MainTs.Build_Plugin scripted
    {| MainTs.githubSession := session |}
    (Some {| MainTs.before := "see "; MainTs.selected := "here";
             MainTs.after := " below" |})
    (@Build_Runtime scripted script [] []).

End Runs.

(** * Properties *)

(** Unfolds the monad and the primitive operations of a session. *)
Ltac run :=
  unfold bind, ret, throw, stuck, try_catch, get, modify, get_this, set_repoId,
    requestUrl, Runtime_requestUrl, Notice, Runtime_Notice, random_base36,
    response_json, as_UploadPolicy in *;
  simpl in *.

(** Case analysis on the innermost scrutinee of a term. *)
Ltac destruct_innermost x :=
  lazymatch x with
  | context [match ?y with _ => _ end] => destruct_innermost y
  | _ => destruct x eqn:?
  end.

(** Splits on the next thing a computation inspects, in the goal or in a
    hypothesis. *)
Ltac split_match :=
  match goal with
  | |- context [match ?x with _ => _ end] => destruct_innermost x
  | H : context [match ?x with _ => _ end] |- _ => destruct_innermost x
  end; simpl in *.

(** Takes equations between pairs apart. *)
Ltac invert_pair :=
  repeat match goal with
  | H : (_, _) = (_, _) |- _ => inversion H; clear H; subst; simpl in *
  end.

(** Reads the answers of a scripted host off its script. *)
Ltac example_steps :=
  unfold all_steps_succeed; repeat eexists; try (vm_compute; reflexivity);
  try (left; reflexivity); try (right; reflexivity).

(** The requests added to an explicit trace are none of them a GET. *)
Ltac close_trace :=
  unfold issued_between; simpl; rewrite <- ?app_assoc; simpl;
  eexists; split; [reflexivity | repeat constructor; unfold not_a_GET; simpl; discriminate].

Section RepoId.

Context {host : Host}.

(** The guard of [getRepoId]: a truthy cached id is returned as it is,
    and nothing else happens. *)
Lemma getRepoId_cached (s : Session) :
  truthy (repoId (this s)) = true ->
  GitHubLib.getRepoId s = (Ok (repoId (this s)), s).
Proof.
  intros H. unfold GitHubLib.getRepoId. run. rewrite H. reflexivity.
Qed.

(** What [getRepoId] returns is what it leaves in [this.repoId]; the
    other fields stay. *)
Lemma getRepoId_returns (s s0 : Session) (v : JsVal) :
  GitHubLib.getRepoId s = (Ok v, s0) ->
  repoId (this s0) = v /\ repo (this s0) = repo (this s)
  /\ userSession (this s0) = userSession (this s).
Proof.
  unfold GitHubLib.getRepoId, data_id. run. intros H.
  repeat split_match; invert_pair; try discriminate; auto.
Qed.

End RepoId.

(** ** A call in which every step succeeds *)

Section Success.

Context {host : Host}.

Lemma accepted_iff (st : Z) :
  GitHubLib.accepted st = true <-> st = 201 \/ st = 204.
Proof.
  unfold GitHubLib.accepted. rewrite orb_true_iff, !Z.eqb_eq. reflexivity.
Qed.

Lemma or_else_Some (l : string) : or_else (Some l) EmptyString = l.
Proof. destruct l; reflexivity. Qed.

(** The guard of [getPolicy] and the call it protects come to the
    session [getRepoId] alone would leave. *)
Lemma resolved_session (s s0 : Session) (v : JsVal) :
  GitHubLib.getRepoId s = (Ok v, s0) ->
  (if negb (truthy (repoId (this s)))
   then bind GitHubLib.getRepoId (fun _ => ret tt)
   else ret tt) s = (Ok tt, s0)
  /\ repoId (this s0) = v.
Proof.
  intros H. destruct (getRepoId_returns _ _ _ H) as (Hv & _ & _).
  split; [|exact Hv].
  destruct (truthy (repoId (this s))) eqn:T; simpl.
  - rewrite (getRepoId_cached _ T) in H. inversion H; subst. reflexivity.
  - unfold bind. rewrite H. reflexivity.
Qed.

Lemma requestUrl_resolved s param response w :
  host_requestUrl param (world (rt s)) = (Resolved response, w) ->
  requestUrl param s = (Ok response, answered s param (Resolved response) w).
Proof. intros H. unfold requestUrl, Runtime_requestUrl. rewrite H. reflexivity. Qed.

Lemma requestUrl_rejected s param error w :
  host_requestUrl param (world (rt s)) = (Rejected error, w) ->
  requestUrl param s = (Throw error, answered s param (Rejected error) w).
Proof. intros H. unfold requestUrl, Runtime_requestUrl. rewrite H. reflexivity. Qed.

Lemma lib_getPolicy_ok s s0 z name size ct presp w1 j P :
  GitHubLib.getRepoId s = (Ok (VNum z), s0) ->
  host_requestUrl
    (GitHubLib.policy_request (this s0)
       (GitHubLib.policy_form (Number_toString z) name size ct))
    (world (rt s0)) = (Resolved presp, w1) ->
  status presp = 201 ->
  json presp = Parsed_ok j ->
  UploadPolicy_of_json j = Some P ->
  GitHubLib.getPolicy name size ct s
  = (Ok P, answered s0 (GitHubLib.policy_request (this s0)
                          (GitHubLib.policy_form (Number_toString z) name size ct))
             (Resolved presp) w1).
Proof.
  intros Hid Hp Hst Hj HP.
  destruct (resolved_session _ _ _ Hid) as (Hres & Hv).
  unfold GitHubLib.getPolicy.
  unfold bind at 1, get_this at 1. unfold bind at 1.
  rewrite Hres. unfold bind at 1, get_this at 1. unfold bind at 1.
  rewrite Hv. simpl. unfold try_catch, bind.
  rewrite (requestUrl_resolved _ _ _ _ Hp). rewrite Hst. simpl.
  unfold response_json, as_UploadPolicy. rewrite Hj. unfold ret at 1.
  rewrite HP. reflexivity.
Qed.

Lemma lib_upload_succeeds s name size file P location :
  all_steps_succeed GitHubLib.policy_request GitHubLib.upload_request
    GitHubLib.complete_request s name size file P location ->
  fst (GitHubLib.upload name size file s)
  = Ok {| githubLink := href (asset P); awsLink := or_else location EmptyString |}.
Proof.
  intros (z & s0 & presp & j & w1 & tok & w2 & uresp & w3 & cresp & w4
          & Hid & Hp & Hst & Hj & HP & Hr & Hu & Hacc & Hloc & Hc).
  apply accepted_iff in Hacc.
  unfold GitHubLib.upload. unfold bind at 1.
  rewrite (lib_getPolicy_ok _ _ _ _ _ _ _ _ _ _ Hid Hp Hst Hj HP).
  unfold GitHubLib.payloadGenerator, GitHubLib.markUploadComplete.
  run. rewrite Hr. simpl. rewrite Hu. simpl.
  rewrite Hacc. simpl. rewrite Hc. simpl. rewrite Hloc. reflexivity.
Qed.

End Success.

Section SuccessPart001.

Context {host : Host}.

Lemma part001_getPolicy_ok s s0 z name size ct presp w1 j P :
  GitHubLib.getRepoId s = (Ok (VNum z), s0) ->
  host_requestUrl
    (Part001.policy_request (this s0)
       (GitHubLib.policy_form (Number_toString z) name size ct))
    (world (rt s0)) = (Resolved presp, w1) ->
  status presp = 201 ->
  json presp = Parsed_ok j ->
  UploadPolicy_of_json j = Some P ->
  Part001.getPolicy name size ct s
  = (Ok P, answered s0 (Part001.policy_request (this s0)
                          (GitHubLib.policy_form (Number_toString z) name size ct))
             (Resolved presp) w1).
Proof.
  intros Hid Hp Hst Hj HP.
  destruct (resolved_session _ _ _ Hid) as (Hres & Hv).
  unfold Part001.getPolicy, Part001.getRepoId.
  unfold bind at 1, get_this at 1. unfold bind at 1.
  rewrite Hres. unfold bind at 1, get_this at 1. unfold bind at 1.
  rewrite Hv. simpl. unfold try_catch, bind.
  rewrite (requestUrl_resolved _ _ _ _ Hp). rewrite Hst. simpl.
  unfold response_json, as_UploadPolicy. rewrite Hj. unfold ret at 1.
  rewrite HP. reflexivity.
Qed.

Lemma part001_upload_succeeds s name size file P location :
  all_steps_succeed Part001.policy_request Part001.upload_request
    Part001.complete_request s name size file P location ->
  fst (Part001.upload name size file s)
  = Ok {| githubLink := href (asset P); awsLink := or_else location EmptyString |}.
Proof.
  intros (z & s0 & presp & j & w1 & tok & w2 & uresp & w3 & cresp & w4
          & Hid & Hp & Hst & Hj & HP & Hr & Hu & Hacc & Hloc & Hc).
  apply accepted_iff in Hacc.
  unfold Part001.upload. unfold bind at 1.
  rewrite (part001_getPolicy_ok _ _ _ _ _ _ _ _ _ _ Hid Hp Hst Hj HP).
  unfold GitHubLib.payloadGenerator, Part001.markUploadComplete.
  run. rewrite Hr. simpl. rewrite Hu. simpl.
  rewrite Hacc. simpl. rewrite Hc. simpl. rewrite Hloc. reflexivity.
Qed.

End SuccessPart001.

(** C1. When every network step of an [upload] call succeeds (the
    repository id resolves, the policy request returns 201 with policy
    [P], the multipart POST returns 201 or 204 with a Location header
    [L], the completion PUT resolves), the call returns exactly
    [{githubLink: P.asset.href, awsLink: L}]; in [src/lib/github.ts] and
    in the revision of [src/unnamed/part_001]. *)
Theorem upload_returns_both_links :
  forall (host : Host) (s : Session) (name : string) (size : Z) (file : File)
         (P : UploadPolicy) (L : string),
    (all_steps_succeed GitHubLib.policy_request GitHubLib.upload_request
       GitHubLib.complete_request s name size file P (Some L) ->
     fst (GitHubLib.upload name size file s)
     = Ok {| githubLink := href (asset P); awsLink := L |})
    /\
    (all_steps_succeed Part001.policy_request Part001.upload_request
       Part001.complete_request s name size file P (Some L) ->
     fst (Part001.upload name size file s)
     = Ok {| githubLink := href (asset P); awsLink := L |}).
Proof.
  intros host s name size file P L. split; intros H.
  - rewrite (lib_upload_succeeds _ _ _ _ _ _ H), or_else_Some. reflexivity.
  - rewrite (part001_upload_succeeds _ _ _ _ _ _ H), or_else_Some. reflexivity.
Qed.

Lemma upload_returns_both_links_witness :
  (all_steps_succeed (host := Mock.scripted) GitHubLib.policy_request
     GitHubLib.upload_request GitHubLib.complete_request
     (Mock.start Example.client Example.all_succeed) "a.png" 10 Mock.a_png
     Example.policy (Some "https://s3/y")
   /\ fst (GitHubLib.upload (host := Mock.scripted) "a.png" 10 Mock.a_png
             (Mock.start Example.client Example.all_succeed))
      = Ok {| githubLink := "https://x/assets/1"; awsLink := "https://s3/y" |})
  /\
  (all_steps_succeed (host := Mock.scripted) Part001.policy_request
     Part001.upload_request Part001.complete_request
     (Mock.start Example.client Example.all_succeed) "a.png" 10 Mock.a_png
     Example.policy (Some "https://s3/y")
   /\ fst (Part001.upload (host := Mock.scripted) "a.png" 10 Mock.a_png
             (Mock.start Example.client Example.all_succeed))
      = Ok {| githubLink := "https://x/assets/1"; awsLink := "https://s3/y" |}).
Proof.
  assert (HA : all_steps_succeed (host := Mock.scripted) GitHubLib.policy_request
     GitHubLib.upload_request GitHubLib.complete_request
     (Mock.start Example.client Example.all_succeed) "a.png" 10 Mock.a_png
     Example.policy (Some "https://s3/y")) by example_steps.
  assert (HB : all_steps_succeed (host := Mock.scripted) Part001.policy_request
     Part001.upload_request Part001.complete_request
     (Mock.start Example.client Example.all_succeed) "a.png" 10 Mock.a_png
     Example.policy (Some "https://s3/y")) by example_steps.
  destruct (upload_returns_both_links Mock.scripted
              (Mock.start Example.client Example.all_succeed) "a.png" 10 Mock.a_png
              Example.policy "https://s3/y") as [TA TB].
  split; split; [exact HA | exact (TA HA) | exact HB | exact (TB HB)].
Defined.

(** C10. When the multipart POST is accepted (201 or 204) but its
    response carries no Location header, [upload] still succeeds and
    [awsLink] is the empty string: a missing header is not an error.  In
    [src/lib/github.ts] and in [src/unnamed/part_001]. *)
Theorem upload_without_location :
  forall (host : Host) (s : Session) (name : string) (size : Z) (file : File)
         (P : UploadPolicy),
    (all_steps_succeed GitHubLib.policy_request GitHubLib.upload_request
       GitHubLib.complete_request s name size file P None ->
     fst (GitHubLib.upload name size file s)
     = Ok {| githubLink := href (asset P); awsLink := EmptyString |})
    /\
    (all_steps_succeed Part001.policy_request Part001.upload_request
       Part001.complete_request s name size file P None ->
     fst (Part001.upload name size file s)
     = Ok {| githubLink := href (asset P); awsLink := EmptyString |}).
Proof.
  intros host s name size file P. split; intros H.
  - exact (lib_upload_succeeds _ _ _ _ _ _ H).
  - exact (part001_upload_succeeds _ _ _ _ _ _ H).
Qed.

Lemma upload_without_location_witness :
  (all_steps_succeed (host := Mock.scripted) GitHubLib.policy_request
     GitHubLib.upload_request GitHubLib.complete_request
     (Mock.start Example.client Example.no_location) "a.png" 10 Mock.a_png
     Example.policy None
   /\ fst (GitHubLib.upload (host := Mock.scripted) "a.png" 10 Mock.a_png
             (Mock.start Example.client Example.no_location))
      = Ok {| githubLink := "https://x/assets/1"; awsLink := EmptyString |})
  /\
  (all_steps_succeed (host := Mock.scripted) Part001.policy_request
     Part001.upload_request Part001.complete_request
     (Mock.start Example.client Example.no_location) "a.png" 10 Mock.a_png
     Example.policy None
   /\ fst (Part001.upload (host := Mock.scripted) "a.png" 10 Mock.a_png
             (Mock.start Example.client Example.no_location))
      = Ok {| githubLink := "https://x/assets/1"; awsLink := EmptyString |}).
Proof.
  assert (HA : all_steps_succeed (host := Mock.scripted) GitHubLib.policy_request
     GitHubLib.upload_request GitHubLib.complete_request
     (Mock.start Example.client Example.no_location) "a.png" 10 Mock.a_png
     Example.policy None) by example_steps.
  assert (HB : all_steps_succeed (host := Mock.scripted) Part001.policy_request
     Part001.upload_request Part001.complete_request
     (Mock.start Example.client Example.no_location) "a.png" 10 Mock.a_png
     Example.policy None) by example_steps.
  destruct (upload_without_location Mock.scripted
              (Mock.start Example.client Example.no_location) "a.png" 10 Mock.a_png
              Example.policy) as [TA TB].
  split; split; [exact HA | exact (TA HA) | exact HB | exact (TB HB)].
Defined.

(** ** A rejected policy request *)

Section PolicyRejected.

Context {host : Host}.

Lemma lib_upload_policy_failure s s0 z name size file o w :
  GitHubLib.getRepoId s = (Ok (VNum z), s0) ->
  host_requestUrl
    (GitHubLib.policy_request (this s0)
       (GitHubLib.policy_form (Number_toString z) name size
          (GitHubLib.content_type_of name)))
    (world (rt s0)) = (o, w) ->
  not_created o ->
  GitHubLib.upload name size file s
  = lib_policy_failure s0
      (GitHubLib.policy_request (this s0)
         (GitHubLib.policy_form (Number_toString z) name size
            (GitHubLib.content_type_of name))) o w.
Proof.
  intros Hid Hp Hst.
  destruct (resolved_session _ _ _ Hid) as (Hres & Hv).
  unfold GitHubLib.upload. unfold bind at 1.
  unfold GitHubLib.getPolicy.
  unfold bind at 1, get_this at 1. unfold bind at 1.
  rewrite Hres. unfold bind at 1, get_this at 1. unfold bind at 1.
  rewrite Hv. simpl. unfold try_catch, bind.
  destruct o as [response | e]; simpl in Hst.
  - rewrite (requestUrl_resolved _ _ _ _ Hp).
    apply Z.eqb_neq in Hst. rewrite Hst. reflexivity.
  - rewrite (requestUrl_rejected _ _ _ _ Hp). reflexivity.
Qed.

Lemma part001_upload_policy_failure s s0 z name size file o w :
  GitHubLib.getRepoId s = (Ok (VNum z), s0) ->
  host_requestUrl
    (Part001.policy_request (this s0)
       (GitHubLib.policy_form (Number_toString z) name size
          (GitHubLib.content_type_of name)))
    (world (rt s0)) = (o, w) ->
  not_created o ->
  Part001.upload name size file s
  = part001_policy_failure s0
      (Part001.policy_request (this s0)
         (GitHubLib.policy_form (Number_toString z) name size
            (GitHubLib.content_type_of name))) o w.
Proof.
  intros Hid Hp Hst.
  destruct (resolved_session _ _ _ Hid) as (Hres & Hv).
  unfold Part001.upload. unfold bind at 1.
  unfold Part001.getPolicy, Part001.getRepoId.
  unfold bind at 1, get_this at 1. unfold bind at 1.
  rewrite Hres. unfold bind at 1, get_this at 1. unfold bind at 1.
  rewrite Hv. simpl. unfold try_catch, bind.
  destruct o as [response | e]; simpl in Hst.
  - rewrite (requestUrl_resolved _ _ _ _ Hp).
    apply Z.eqb_neq in Hst. rewrite Hst. reflexivity.
  - rewrite (requestUrl_rejected _ _ _ _ Hp). reflexivity.
Qed.

End PolicyRejected.

(** The two ways a policy request can fail, over any host.  When
    [requestUrl] resolves with a status other than 201, [upload] fails
    with the failure of an expired session and issues no further
    request: [src/lib/github.ts] raises the notice "Your Github session
    is expired" next to its error, [src/unnamed/part_001] puts that
    sentence in the error's message.  When [requestUrl] rejects, the
    error it rejected with is reported and no such notice is shown. *)
Theorem upload_stops_at_expired_session :
  forall (host : Host) (s s0 : Session) (z : Z) (name : string) (size : Z) (file : File),
    GitHubLib.getRepoId s = (Ok (VNum z), s0) ->
    let form := GitHubLib.policy_form (Number_toString z) name size
                  (GitHubLib.content_type_of name) in
    let lib_request := GitHubLib.policy_request (this s0) form in
    let part001_request := Part001.policy_request (this s0) form in
    (forall response w,
        host_requestUrl lib_request (world (rt s0)) = (Resolved response, w) ->
        status response <> 201 ->
        fst (GitHubLib.upload name size file s)
        = Throw (Error ("Failed to get upload policy: Error: Failed to get upload policy: "
                        ++ text response))
        /\ notices (rt (snd (GitHubLib.upload name size file s)))
           = (notices (rt s0) ++ ["GitPaste: Your Github session is expired. Add again"])%list
        /\ trace (rt (snd (GitHubLib.upload name size file s)))
           = (trace (rt s0) ++ [(lib_request, Resolved response)])%list)
    /\
    (forall response w,
        host_requestUrl part001_request (world (rt s0)) = (Resolved response, w) ->
        status response <> 201 ->
        fst (Part001.upload name size file s)
        = Throw (Error
            "Failed to get upload policy: Error: Your Github session is expired. Add again")
        /\ trace (rt (snd (Part001.upload name size file s)))
           = (trace (rt s0) ++ [(part001_request, Resolved response)])%list)
    /\
    (forall e w,
        host_requestUrl lib_request (world (rt s0)) = (Rejected e, w) ->
        fst (GitHubLib.upload name size file s)
        = Throw (Error ("Failed to get upload policy: " ++ Error_toString e))
        /\ notices (rt (snd (GitHubLib.upload name size file s))) = notices (rt s0))
    /\
    (forall e w,
        host_requestUrl part001_request (world (rt s0)) = (Rejected e, w) ->
        fst (Part001.upload name size file s)
        = Throw (Error ("Failed to get upload policy: " ++ Error_toString e))).
Proof.
  intros host s s0 z name size file Hid form lib_request part001_request.
  repeat split; intros.
  all: try (rewrite (lib_upload_policy_failure _ _ _ _ _ _ _ _ Hid H); simpl; now auto).
  all: try (rewrite (part001_upload_policy_failure _ _ _ _ _ _ _ _ Hid H); simpl; now auto).
Qed.

Lemma upload_stops_at_expired_session_witness :
  let s := Mock.start Example.client Example.expired in
  let s' := Mock.start Example.client Example.offline in
  let form := GitHubLib.policy_form "212613049" "a.png" 10 "image/png" in
  (GitHubLib.getRepoId s = (Ok (VNum 212613049), s)
   /\ (fst (GitHubLib.upload "a.png" 10 Mock.a_png s)
       = Throw (Error
           "Failed to get upload policy: Error: Failed to get upload policy: Unauthorized")
       /\ notices (rt (snd (GitHubLib.upload "a.png" 10 Mock.a_png s)))
          = ["GitPaste: Your Github session is expired. Add again"]
       /\ trace (rt (snd (GitHubLib.upload "a.png" 10 Mock.a_png s)))
          = [(GitHubLib.policy_request Example.client form, Example.unauthorized)])
   /\ (fst (Part001.upload "a.png" 10 Mock.a_png s)
       = Throw (Error
           "Failed to get upload policy: Error: Your Github session is expired. Add again")
       /\ trace (rt (snd (Part001.upload "a.png" 10 Mock.a_png s)))
          = [(Part001.policy_request Example.client form, Example.unauthorized)]))
  /\
  (GitHubLib.getRepoId s' = (Ok (VNum 212613049), s')
   /\ (fst (GitHubLib.upload "a.png" 10 Mock.a_png s')
       = Throw (Error "Failed to get upload policy: Error: net::ERR_CONNECTION_REFUSED")
       /\ notices (rt (snd (GitHubLib.upload "a.png" 10 Mock.a_png s'))) = [])
   /\ fst (Part001.upload "a.png" 10 Mock.a_png s')
      = Throw (Error "Failed to get upload policy: Error: net::ERR_CONNECTION_REFUSED")).
Proof.
  intros s s' form.
  assert (Hid : GitHubLib.getRepoId s = (Ok (VNum 212613049), s)) by reflexivity.
  assert (Hid' : GitHubLib.getRepoId s' = (Ok (VNum 212613049), s')) by reflexivity.
  destruct (upload_stops_at_expired_session Mock.scripted s s 212613049 "a.png" 10
              Mock.a_png Hid) as (A & B & _ & _).
  destruct (upload_stops_at_expired_session Mock.scripted s' s' 212613049 "a.png" 10
              Mock.a_png Hid') as (_ & _ & C & D).
  split; [split; [exact Hid | split] | split; [exact Hid' | split]].
  - refine (A Example.unauthorized_response [] eq_refl _). discriminate.
  - refine (B Example.unauthorized_response [] eq_refl _). discriminate.
  - exact (C Mock.refused [] eq_refl).
  - exact (D Mock.refused [] eq_refl).
Defined.

(** ** A policy request answered with an error status *)

Section PolicyStatus.

Variable wire : Host.

(** Over [requestUrl] as the obsidian API has it, an answer of status
    400 or more to the policy request never reaches the test
    [response.status != 201]: the promise rejects, and [upload] ends as
    it does for any request that did not get through. *)
Lemma lib_policy_error_status (s s0 : @Session (obsidian wire)) z name size file
    response w :
  GitHubLib.getRepoId (host := obsidian wire) s = (Ok (VNum z), s0) ->
  let request :=
    GitHubLib.policy_request (this s0)
      (GitHubLib.policy_form (Number_toString z) name size
         (GitHubLib.content_type_of (host := obsidian wire) name)) in
  @host_requestUrl wire request (world (rt s0)) = (Resolved response, w) ->
  400 <= status response ->
  GitHubLib.upload (host := obsidian wire) name size file s
  = (Throw (Error ("Failed to get upload policy: Error: Request failed, status "
                   ++ Number_toString (status response))),
     answered (host := obsidian wire) s0 request
       (Rejected (Request_failed (status response))) w).
Proof.
  intros Hid request Hp Hst.
  assert (H : @host_requestUrl (obsidian wire) request (world (rt s0))
              = (Rejected (Request_failed (status response)), w)).
  { simpl. rewrite Hp. unfold settled, throws_on_status.
    apply Z.leb_le in Hst. rewrite Hst. reflexivity. }
  rewrite (lib_upload_policy_failure (host := obsidian wire) _ _ _ _ _ _ _ _ Hid H I).
  reflexivity.
Qed.

Lemma part001_policy_error_status (s s0 : @Session (obsidian wire)) z name size file
    response w :
  GitHubLib.getRepoId (host := obsidian wire) s = (Ok (VNum z), s0) ->
  let request :=
    Part001.policy_request (this s0)
      (GitHubLib.policy_form (Number_toString z) name size
         (GitHubLib.content_type_of (host := obsidian wire) name)) in
  @host_requestUrl wire request (world (rt s0)) = (Resolved response, w) ->
  400 <= status response ->
  Part001.upload (host := obsidian wire) name size file s
  = (Throw (Error ("Failed to get upload policy: Error: Request failed, status "
                   ++ Number_toString (status response))),
     answered (host := obsidian wire) s0 request
       (Rejected (Request_failed (status response))) w).
Proof.
  intros Hid request Hp Hst.
  assert (H : @host_requestUrl (obsidian wire) request (world (rt s0))
              = (Rejected (Request_failed (status response)), w)).
  { simpl. rewrite Hp. unfold settled, throws_on_status.
    apply Z.leb_le in Hst. rewrite Hst. reflexivity. }
  rewrite (part001_upload_policy_failure (host := obsidian wire) _ _ _ _ _ _ _ _ Hid H I).
  reflexivity.
Qed.

End PolicyStatus.

(** C3. The policy endpoint answers 401 to a session that has expired.
    [getPolicy] calls [requestUrl] without [throw: false], so the promise
    rejects before the test of the status is reached: [upload] fails
    with "Failed to get upload policy: Error: Request failed, status
    401", shows no notice and says nothing of the session.  The call is,
    error, notices, trace and all, the call in which the request did
    not get through with that error: the failure is the generic one.
    The policy request is the only request, so no multipart POST and no
    completion PUT are issued.  In [src/lib/github.ts] and in
    [src/unnamed/part_001]. *)
Theorem refused_session_fails_as_any_request :
  let s := Wire.start Example.client Example.expired in
  let lost := Wire.start Example.client [Rejected (Request_failed 401)] in
  let form := GitHubLib.policy_form "212613049" "a.png" 10 "image/png" in
  (fst (GitHubLib.upload "a.png" 10 Mock.a_png s)
   = Throw (Error "Failed to get upload policy: Error: Request failed, status 401")
   /\ notices (rt (snd (GitHubLib.upload "a.png" 10 Mock.a_png s))) = []
   /\ trace (rt (snd (GitHubLib.upload "a.png" 10 Mock.a_png s)))
      = [(GitHubLib.policy_request Example.client form, Rejected (Request_failed 401))]
   /\ GitHubLib.upload "a.png" 10 Mock.a_png s
      = GitHubLib.upload "a.png" 10 Mock.a_png lost)
  /\
  (fst (Part001.upload "a.png" 10 Mock.a_png s)
   = Throw (Error "Failed to get upload policy: Error: Request failed, status 401")
   /\ fst (Part001.upload "a.png" 10 Mock.a_png s)
      <> Throw (Error
           "Failed to get upload policy: Error: Your Github session is expired. Add again")
   /\ trace (rt (snd (Part001.upload "a.png" 10 Mock.a_png s)))
      = [(Part001.policy_request Example.client form, Rejected (Request_failed 401))]
   /\ Part001.upload "a.png" 10 Mock.a_png s
      = Part001.upload "a.png" 10 Mock.a_png lost).
Proof.
  intros s lost form.
  repeat split; try reflexivity.
  vm_compute. discriminate.
Qed.

(** ** A refused multipart POST *)

Lemma to_int_not_nil (z : Z) :
  Z.to_int z <> Decimal.Pos Decimal.Nil /\ Z.to_int z <> Decimal.Neg Decimal.Nil.
Proof.
  destruct z; simpl; split; try discriminate; intros H; inversion H;
    eapply DecimalPos.Unsigned.to_uint_nonnil; eauto.
Qed.

(** The decimal rendering of a number determines it. *)
Lemma Number_toString_inj (a b : Z) :
  Number_toString a = Number_toString b -> a = b.
Proof.
  unfold Number_toString. intros H.
  destruct (to_int_not_nil a) as [Ha1 Ha2], (to_int_not_nil b) as [Hb1 Hb2].
  pose proof (NilZero.isi _ Ha1 Ha2) as Ia. pose proof (NilZero.isi _ Hb1 Hb2) as Ib.
  rewrite H in Ia. rewrite Ia in Ib. inversion Ib as [E].
  rewrite <- (DecimalZ.of_to a), <- (DecimalZ.of_to b), E. reflexivity.
Qed.

Section UploadRefused.

Context {host : Host}.

Lemma not_accepted (st : Z) :
  st <> 201 -> st <> 204 -> GitHubLib.accepted st = false.
Proof.
  intros H1 H2. unfold GitHubLib.accepted.
  apply Z.eqb_neq in H1, H2. rewrite H1, H2. reflexivity.
Qed.

Lemma lib_upload_refused s s1 name size file P tok w2 response w3 :
  GitHubLib.getPolicy name size (GitHubLib.content_type_of name) s = (Ok P, s1) ->
  Math_random_base36 (world (rt s1)) = (tok, w2) ->
  host_requestUrl
    (GitHubLib.upload_request P
       (multipart_body ("----" ++ tok) (pd_fields (payload_data_of P file))
          (file_name file) (file_type file) (file_bytes file)) tok)
    w2 = (Resolved response, w3) ->
  status response <> 201 -> status response <> 204 ->
  GitHubLib.upload name size file s
  = (Throw (Error ("Failed to upload file: Error: Upload failed with status: "
                   ++ Number_toString (status response))),
     answered (drawn s1 w2)
       (GitHubLib.upload_request P
          (multipart_body ("----" ++ tok) (pd_fields (payload_data_of P file))
             (file_name file) (file_type file) (file_bytes file)) tok)
       (Resolved response) w3).
Proof.
  intros HP Hr Hu H1 H2.
  unfold GitHubLib.upload. unfold bind at 1. rewrite HP.
  unfold GitHubLib.payloadGenerator. run. rewrite Hr. simpl. rewrite Hu. simpl.
  rewrite (not_accepted _ H1 H2). reflexivity.
Qed.

Lemma part001_upload_refused s s1 name size file P tok w2 response w3 :
  Part001.getPolicy name size (GitHubLib.content_type_of name) s = (Ok P, s1) ->
  Math_random_base36 (world (rt s1)) = (tok, w2) ->
  host_requestUrl
    (Part001.upload_request P
       (multipart_body ("----" ++ tok) (pd_fields (payload_data_of P file))
          (file_name file) (file_type file) (file_bytes file)) tok)
    w2 = (Resolved response, w3) ->
  status response <> 201 -> status response <> 204 ->
  Part001.upload name size file s
  = (Throw (Error ("Failed to upload file: Error: Upload failed with status: "
                   ++ Number_toString (status response))),
     answered (drawn s1 w2)
       (Part001.upload_request P
          (multipart_body ("----" ++ tok) (pd_fields (payload_data_of P file))
             (file_name file) (file_type file) (file_bytes file)) tok)
       (Resolved response) w3).
Proof.
  intros HP Hr Hu H1 H2.
  unfold Part001.upload. unfold bind at 1. rewrite HP.
  unfold GitHubLib.payloadGenerator. run. rewrite Hr. simpl. rewrite Hu. simpl.
  rewrite (not_accepted _ H1 H2). reflexivity.
Qed.

End UploadRefused.

(** ** A multipart POST that does not get through *)

Section UploadRejected.

Context {host : Host}.

Lemma lib_upload_post_rejected s s1 name size file P tok w2 e w3 :
  GitHubLib.getPolicy name size (GitHubLib.content_type_of name) s = (Ok P, s1) ->
  Math_random_base36 (world (rt s1)) = (tok, w2) ->
  host_requestUrl
    (GitHubLib.upload_request P
       (multipart_body ("----" ++ tok) (pd_fields (payload_data_of P file))
          (file_name file) (file_type file) (file_bytes file)) tok)
    w2 = (Rejected e, w3) ->
  GitHubLib.upload name size file s
  = (Throw (Error ("Failed to upload file: " ++ Error_toString e)),
     answered (drawn s1 w2)
       (GitHubLib.upload_request P
          (multipart_body ("----" ++ tok) (pd_fields (payload_data_of P file))
             (file_name file) (file_type file) (file_bytes file)) tok)
       (Rejected e) w3).
Proof.
  intros HP Hr Hu.
  unfold GitHubLib.upload. unfold bind at 1. rewrite HP.
  unfold GitHubLib.payloadGenerator. run. rewrite Hr. simpl. rewrite Hu. reflexivity.
Qed.

Lemma part001_upload_post_rejected s s1 name size file P tok w2 e w3 :
  Part001.getPolicy name size (GitHubLib.content_type_of name) s = (Ok P, s1) ->
  Math_random_base36 (world (rt s1)) = (tok, w2) ->
  host_requestUrl
    (Part001.upload_request P
       (multipart_body ("----" ++ tok) (pd_fields (payload_data_of P file))
          (file_name file) (file_type file) (file_bytes file)) tok)
    w2 = (Rejected e, w3) ->
  Part001.upload name size file s
  = (Throw (Error ("Failed to upload file: " ++ Error_toString e)),
     answered (drawn s1 w2)
       (Part001.upload_request P
          (multipart_body ("----" ++ tok) (pd_fields (payload_data_of P file))
             (file_name file) (file_type file) (file_bytes file)) tok)
       (Rejected e) w3).
Proof.
  intros HP Hr Hu.
  unfold Part001.upload. unfold bind at 1. rewrite HP.
  unfold GitHubLib.payloadGenerator. run. rewrite Hr. simpl. rewrite Hu. reflexivity.
Qed.

End UploadRejected.

Lemma append_cancel (p a b : string) : p ++ a = p ++ b -> a = b.
Proof.
  induction p as [| c p IH]; simpl; intros H; [exact H|].
  inversion H. auto.
Qed.

(** The message of a refused POST names its status. *)
Lemma refusal_message_inj (a b : Z) : refusal_message a = refusal_message b -> a = b.
Proof.
  unfold refusal_message.
  destruct (400 <=? a), (400 <=? b); intros H; try discriminate H.
  - apply Number_toString_inj, (append_cancel _ _ _ H).
  - apply Number_toString_inj, (append_cancel _ _ _ H).
Qed.

Section UploadStatus.

Variable wire : Host.

(** What [upload] makes of an answer to the multipart POST whose status
    is neither 201 nor 204, over [requestUrl] as the obsidian API has
    it. *)
Lemma lib_upload_refused_status (s s1 : @Session (obsidian wire)) name size file P tok
    w2 response w3 :
  GitHubLib.getPolicy (host := obsidian wire) name size
    (GitHubLib.content_type_of (host := obsidian wire) name) s = (Ok P, s1) ->
  @Math_random_base36 wire (world (rt s1)) = (tok, w2) ->
  let request :=
    GitHubLib.upload_request P
      (multipart_body ("----" ++ tok) (pd_fields (payload_data_of P file))
         (file_name file) (file_type file) (file_bytes file)) tok in
  @host_requestUrl wire request w2 = (Resolved response, w3) ->
  status response <> 201 -> status response <> 204 ->
  GitHubLib.upload (host := obsidian wire) name size file s
  = (Throw (Error ("Failed to upload file: Error: " ++ refusal_message (status response))),
     answered (host := obsidian wire) (drawn (host := obsidian wire) s1 w2) request
       (settled request response) w3).
Proof.
  intros HP Hr request Hu H1 H2.
  assert (H : @host_requestUrl (obsidian wire) request w2
              = (settled request response, w3)) by (simpl; rewrite Hu; reflexivity).
  unfold settled, throws_on_status, refusal_message in *.
  destruct (400 <=? status response) eqn:E; simpl in H |- *.
  - rewrite (lib_upload_post_rejected (host := obsidian wire) _ _ _ _ _ _ _ _ _ _ HP Hr H).
    reflexivity.
  - rewrite (lib_upload_refused (host := obsidian wire) _ _ _ _ _ _ _ _ _ _ HP Hr H H1 H2).
    reflexivity.
Qed.

Lemma part001_upload_refused_status (s s1 : @Session (obsidian wire)) name size file P tok
    w2 response w3 :
  Part001.getPolicy (host := obsidian wire) name size
    (GitHubLib.content_type_of (host := obsidian wire) name) s = (Ok P, s1) ->
  @Math_random_base36 wire (world (rt s1)) = (tok, w2) ->
  let request :=
    Part001.upload_request P
      (multipart_body ("----" ++ tok) (pd_fields (payload_data_of P file))
         (file_name file) (file_type file) (file_bytes file)) tok in
  @host_requestUrl wire request w2 = (Resolved response, w3) ->
  status response <> 201 -> status response <> 204 ->
  Part001.upload (host := obsidian wire) name size file s
  = (Throw (Error ("Failed to upload file: Error: " ++ refusal_message (status response))),
     answered (host := obsidian wire) (drawn (host := obsidian wire) s1 w2) request
       (settled request response) w3).
Proof.
  intros HP Hr request Hu H1 H2.
  assert (H : @host_requestUrl (obsidian wire) request w2
              = (settled request response, w3)) by (simpl; rewrite Hu; reflexivity).
  unfold settled, throws_on_status, refusal_message in *.
  destruct (400 <=? status response) eqn:E; simpl in H |- *.
  - rewrite (part001_upload_post_rejected (host := obsidian wire)
               _ _ _ _ _ _ _ _ _ _ HP Hr H).
    reflexivity.
  - rewrite (part001_upload_refused (host := obsidian wire)
               _ _ _ _ _ _ _ _ _ _ HP Hr H H1 H2).
    reflexivity.
Qed.

End UploadStatus.

(** C4. When the server answers the multipart POST to
    [policy.upload_url] with a status outside 201 and 204, whatever that
    status is, [upload] fails with an error whose message carries the
    status, in decimal, and the POST is the last request of the call:
    the completion PUT is not issued.  A status of 400 or more makes
    [requestUrl] itself reject, with "Request failed, status <status>";
    a lower one is refused by [upload]'s own test, with "Upload failed
    with status: <status>"; either message comes out under "Failed to
    upload file: Error: " and determines the status.  In
    [src/lib/github.ts] and in [src/unnamed/part_001]. *)
Theorem upload_fails_with_refused_status :
  forall (wire : Host) (s s1 : @Session (obsidian wire)) (name : string) (size : Z)
         (file : File) (P : UploadPolicy) (tok : string) (w2 w3 : @World wire)
         (response : RequestUrlResponse),
    @Math_random_base36 wire (world (rt s1)) = (tok, w2) ->
    status response <> 201 -> status response <> 204 ->
    let body := multipart_body ("----" ++ tok) (pd_fields (payload_data_of P file))
                  (file_name file) (file_type file) (file_bytes file) in
    let type := GitHubLib.content_type_of (host := obsidian wire) name in
    let failure :=
      Error ("Failed to upload file: Error: " ++ refusal_message (status response)) in
    (GitHubLib.getPolicy (host := obsidian wire) name size type s = (Ok P, s1) ->
     @host_requestUrl wire (GitHubLib.upload_request P body tok) w2
     = (Resolved response, w3) ->
     fst (GitHubLib.upload (host := obsidian wire) name size file s) = Throw failure
     /\ trace (rt (snd (GitHubLib.upload (host := obsidian wire) name size file s)))
        = (trace (rt s1)
           ++ [(GitHubLib.upload_request P body tok,
                settled (GitHubLib.upload_request P body tok) response)])%list)
    /\
    (Part001.getPolicy (host := obsidian wire) name size type s = (Ok P, s1) ->
     @host_requestUrl wire (Part001.upload_request P body tok) w2
     = (Resolved response, w3) ->
     fst (Part001.upload (host := obsidian wire) name size file s) = Throw failure
     /\ trace (rt (snd (Part001.upload (host := obsidian wire) name size file s)))
        = (trace (rt s1)
           ++ [(Part001.upload_request P body tok,
                settled (Part001.upload_request P body tok) response)])%list)
    /\
    (forall st : Z, refusal_message st = refusal_message (status response) ->
                    st = status response).
Proof.
  intros wire s s1 name size file P tok w2 w3 response Hr H1 H2 body type failure.
  split; [|split].
  - intros HP Hu.
    rewrite (lib_upload_refused_status wire _ _ _ _ _ _ _ _ _ _ HP Hr Hu H1 H2).
    split; reflexivity.
  - intros HP Hu.
    rewrite (part001_upload_refused_status wire _ _ _ _ _ _ _ _ _ _ HP Hr Hu H1 H2).
    split; reflexivity.
  - intros st. apply refusal_message_inj.
Qed.

Lemma upload_fails_with_refused_status_witness :
  let s := Wire.start Example.client Example.upload_refused in
  let body := multipart_body "----4fzyo82mvyr" Example.form_fields "a.png" "image/png"
                (file_bytes Mock.a_png) in
  (GitHubLib.getPolicy "a.png" 10 "image/png" s
   = (Ok Example.policy, snd (GitHubLib.getPolicy "a.png" 10 "image/png" s))
   /\ fst (GitHubLib.upload "a.png" 10 Mock.a_png s)
      = Throw (Error "Failed to upload file: Error: Request failed, status 403")
   /\ trace (rt (snd (GitHubLib.upload "a.png" 10 Mock.a_png s)))
      = (trace (rt (snd (GitHubLib.getPolicy "a.png" 10 "image/png" s)))
         ++ [(GitHubLib.upload_request Example.policy body "4fzyo82mvyr",
              Rejected (Request_failed 403))])%list)
  /\
  (Part001.getPolicy "a.png" 10 "image/png" s
   = (Ok Example.policy, snd (Part001.getPolicy "a.png" 10 "image/png" s))
   /\ fst (Part001.upload "a.png" 10 Mock.a_png s)
      = Throw (Error "Failed to upload file: Error: Request failed, status 403")
   /\ trace (rt (snd (Part001.upload "a.png" 10 Mock.a_png s)))
      = (trace (rt (snd (Part001.getPolicy "a.png" 10 "image/png" s)))
         ++ [(Part001.upload_request Example.policy body "4fzyo82mvyr",
              Rejected (Request_failed 403))])%list).
Proof.
  intros s body.
  assert (H1 : status Example.forbidden_response <> 201) by discriminate.
  assert (H2 : status Example.forbidden_response <> 204) by discriminate.
  assert (HA : GitHubLib.getPolicy "a.png" 10 "image/png" s
               = (Ok Example.policy, snd (GitHubLib.getPolicy "a.png" 10 "image/png" s)))
    by reflexivity.
  assert (HB : Part001.getPolicy "a.png" 10 "image/png" s
               = (Ok Example.policy, snd (Part001.getPolicy "a.png" 10 "image/png" s)))
    by reflexivity.
  destruct (upload_fails_with_refused_status Mock.scripted s
              (snd (GitHubLib.getPolicy "a.png" 10 "image/png" s))
              "a.png" 10 Mock.a_png Example.policy "4fzyo82mvyr"
              [Example.forbidden] [] Example.forbidden_response eq_refl H1 H2)
    as (A & _ & _).
  destruct (upload_fails_with_refused_status Mock.scripted s
              (snd (Part001.getPolicy "a.png" 10 "image/png" s))
              "a.png" 10 Mock.a_png Example.policy "4fzyo82mvyr"
              [Example.forbidden] [] Example.forbidden_response eq_refl H1 H2)
    as (_ & B & _).
  split; (split; [assumption|]).
  - exact (A HA eq_refl).
  - exact (B HB eq_refl).
Defined.

(** ** The cached repository id *)

Section Calls.

Context {host : Host}.

Lemma issued_between_refl Q s : issued_between Q s s.
Proof. exists []. rewrite app_nil_r. split; [reflexivity | constructor]. Qed.

Lemma issued_between_trans Q s1 s2 s3 :
  issued_between Q s1 s2 -> issued_between Q s2 s3 -> issued_between Q s1 s3.
Proof.
  intros (e1 & H1 & F1) (e2 & H2 & F2). exists (e1 ++ e2)%list. split.
  - rewrite H2, H1, app_assoc. reflexivity.
  - apply Forall_app. split; assumption.
Qed.

Lemma truthy_nonzero (z : Z) : z <> 0 -> truthy (VNum z) = true.
Proof. intros H. simpl. apply Z.eqb_neq in H. rewrite H. reflexivity. Qed.

Lemma upload_keeps_cached_id name size file s z :
  z <> 0 -> repoId (this s) = VNum z ->
  repoId (this (snd (GitHubLib.upload name size file s))) = VNum z
  /\ issued_between not_a_GET s (snd (GitHubLib.upload name size file s)).
Proof.
  intros Hz Hid. pose proof (proj2 (Z.eqb_neq z 0) Hz) as T.
  destruct s as [[rp rid us] r]. simpl in Hid. subst rid.
  unfold GitHubLib.upload, GitHubLib.getPolicy, GitHubLib.payloadGenerator,
    GitHubLib.markUploadComplete, method_toString.
  run. rewrite T. simpl.
  repeat split_match; simpl; (split; [reflexivity | try close_trace]).
Qed.

End Calls.

(** Where the resolution is idempotent.  Once an id other than 0 is
    cached, every later resolution returns that very value, changes
    nothing and issues no request; through any sequence of [getRepoId]
    and [upload] calls the id stays and no GET (the metadata request is
    the only one) is issued.  A client of the default repository,
    "cli/cli", holds 212613049 from its construction on, so it never
    asks for the metadata. *)
Theorem repo_id_resolution_idempotent :
  forall (host : Host),
    (forall (s : Session) (z : Z),
        z <> 0 -> repoId (this s) = VNum z ->
        GitHubLib.getRepoId s = (Ok (VNum z), s))
    /\
    (forall (calls : list Call) (s : Session) (z : Z),
        z <> 0 -> repoId (this s) = VNum z ->
        repoId (this (run_calls calls s)) = VNum z
        /\ issued_between not_a_GET s (run_calls calls s))
    /\
    (forall userSession : string,
        repoId (GitHubLib.constructor userSession None) = VNum 212613049
        /\ repoId (GitHubLib.constructor userSession (Some "cli/cli")) = VNum 212613049).
Proof.
  intros host.
  assert (A : forall (s : Session) (z : Z),
             z <> 0 -> repoId (this s) = VNum z ->
             GitHubLib.getRepoId s = (Ok (VNum z), s)).
  { intros s z Hz Hid. rewrite <- Hid. apply getRepoId_cached.
    rewrite Hid. apply truthy_nonzero, Hz. }
  split; [exact A | split].
  - induction calls as [|c calls IH]; intros s z Hz Hid.
    + split; [exact Hid | apply issued_between_refl].
    + assert (Hc : repoId (this (run_call c s)) = VNum z
                   /\ issued_between not_a_GET s (run_call c s)).
      { destruct c as [|name size file]; simpl.
        - rewrite (A s z Hz Hid). split; [exact Hid | apply issued_between_refl].
        - apply upload_keeps_cached_id; assumption. }
      destruct Hc as [Hid' Hb]. destruct (IH (run_call c s) z Hz Hid') as [Hid'' Hb'].
      split; [exact Hid'' | exact (issued_between_trans _ _ _ _ Hb Hb')].
  - intros userSession. split; reflexivity.
Qed.

Lemma repo_id_resolution_idempotent_witness :
  let s := Mock.start Example.client Example.all_succeed in
  let calls := [call_getRepoId; call_upload "a.png" 10 Mock.a_png; call_getRepoId] in
  (212613049 <> 0 /\ repoId (this s) = VNum 212613049)
  /\ GitHubLib.getRepoId s = (Ok (VNum 212613049), s)
  /\ repoId (this (run_calls calls s)) = VNum 212613049
  /\ issued_between not_a_GET s (run_calls calls s).
Proof.
  intros s calls.
  assert (Hz : 212613049 <> 0) by discriminate.
  assert (Hid : repoId (this s) = VNum 212613049) by reflexivity.
  destruct (repo_id_resolution_idempotent Mock.scripted) as (A & B & _).
  split; [split; assumption | split].
  - exact (A s 212613049 Hz Hid).
  - exact (B calls s 212613049 Hz Hid).
Defined.


(** ** The policy request *)

Section PolicyRequest.

Context {host : Host}.

(** The request that follows the resolution of the repository id is the
    policy request, whatever comes after it. *)
Lemma upload_issues_policy_request s s0 z name size file :
  GitHubLib.getRepoId s = (Ok (VNum z), s0) ->
  exists o rest,
    trace (rt (snd (GitHubLib.upload name size file s)))
    = (trace (rt s0)
       ++ (GitHubLib.policy_request (this s0)
             (GitHubLib.policy_form (Number_toString z) name size
                (GitHubLib.content_type_of name)), o) :: rest)%list.
Proof.
  intros Hid.
  destruct (resolved_session _ _ _ Hid) as (Hres & Hv).
  unfold GitHubLib.upload. unfold bind at 1.
  unfold GitHubLib.getPolicy.
  unfold bind at 1, get_this at 1. unfold bind at 1.
  rewrite Hres. unfold bind at 1, get_this at 1. unfold bind at 1.
  rewrite Hv. simpl.
  unfold GitHubLib.payloadGenerator, GitHubLib.markUploadComplete. run.
  repeat split_match; simpl; rewrite <- ?app_assoc; simpl;
    eexists; eexists; reflexivity.
Qed.

End PolicyRequest.

(** C6. In every [upload(name, size, file)] call that gets as far as the
    policy endpoint (the repository id resolves to a number), the request
    sent there carries a form body of exactly the four fields
    repository_id, name, size and content_type, in that order, and the
    content_type is what the static table gives for the extension of
    [name], application/octet-stream when it gives nothing. *)
Theorem policy_request_carries_four_fields :
  forall (host : Host) (s s0 : Session) (z : Z) (name : string) (size : Z) (file : File),
    GitHubLib.getRepoId s = (Ok (VNum z), s0) ->
    let content_type :=
      match mime_lookup (path_extname name) with
      | Some type => if is_empty type then "application/octet-stream" else type
      | None => "application/octet-stream"
      end in
    exists (request : RequestUrlParam) (o : Outcome)
           (rest : list (RequestUrlParam * Outcome)),
      trace (rt (snd (GitHubLib.upload name size file s)))
      = (trace (rt s0) ++ (request, o) :: rest)%list
      /\ url request = "https://github.com/upload/policies/assets"
      /\ method request = "POST"
      /\ body request
         = TextBody (URLSearchParams_toString
                       [("repository_id", Number_toString z);
                        ("name", name);
                        ("size", Number_toString size);
                        ("content_type", content_type)]).
Proof.
  intros host s s0 z name size file Hid content_type.
  destruct (upload_issues_policy_request s s0 z name size file Hid) as (o & rest & H).
  eexists; exists o, rest. split; [exact H | repeat split].
Qed.

Lemma policy_request_carries_four_fields_witness :
  let s := Mock.start Example.client Example.all_succeed in
  GitHubLib.getRepoId s = (Ok (VNum 212613049), s)
  /\ (exists (request : RequestUrlParam) (o : Outcome)
             (rest : list (RequestUrlParam * Outcome)),
         trace (rt (snd (GitHubLib.upload "a.png" 10 Mock.a_png s)))
         = (trace (rt s) ++ (request, o) :: rest)%list
         /\ url request = "https://github.com/upload/policies/assets"
         /\ method request = "POST"
         /\ body request
            = TextBody (URLSearchParams_toString
                          [("repository_id", "212613049");
                           ("name", "a.png");
                           ("size", "10");
                           ("content_type", "image/png")]))
  /\ (exists (request : RequestUrlParam) (o : Outcome)
             (rest : list (RequestUrlParam * Outcome)),
         trace (rt (snd (GitHubLib.upload "notes.zzz" 10 Mock.a_png s)))
         = (trace (rt s) ++ (request, o) :: rest)%list
         /\ url request = "https://github.com/upload/policies/assets"
         /\ method request = "POST"
         /\ body request
            = TextBody (URLSearchParams_toString
                          [("repository_id", "212613049");
                           ("name", "notes.zzz");
                           ("size", "10");
                           ("content_type", "application/octet-stream")])).
Proof.
  intros s.
  assert (Hid : GitHubLib.getRepoId s = (Ok (VNum 212613049), s)) by reflexivity.
  split; [exact Hid | split].
  - exact (policy_request_carries_four_fields Mock.scripted s s 212613049 "a.png" 10
             Mock.a_png Hid).
  - exact (policy_request_carries_four_fields Mock.scripted s s 212613049 "notes.zzz" 10
             Mock.a_png Hid).
Defined.

(** ** Where the code departs from what is asked of it *)

Section Resolution.

Context {host : Host}.

(** A failing metadata endpoint makes [getRepoId] fail under the message
    of the repository resolution. *)
Lemma getRepoId_endpoint_error (s : Session) (e : JsError) (w : World) :
  truthy (repoId (this s)) = false ->
  host_requestUrl (GitHubLib.repo_request (this s)) (world (rt s)) = (Rejected e, w) ->
  GitHubLib.getRepoId s
  = (Throw (Error ("Failed to get repo ID: " ++ Error_toString e)),
     answered s (GitHubLib.repo_request (this s)) (Rejected e) w).
Proof.
  intros T H. unfold GitHubLib.getRepoId. unfold bind at 1, get_this at 1.
  rewrite T. unfold try_catch, bind.
  rewrite (requestUrl_rejected _ _ _ _ H). reflexivity.
Qed.

(** A metadata document without [id] does not: [getRepoId] resolves
    with [undefined] and leaves it in [this.repoId]. *)
Lemma getRepoId_absent_id (s : Session) (response : RequestUrlResponse)
    (props : list (string * Json)) (w : World) :
  truthy (repoId (this s)) = false ->
  host_requestUrl (GitHubLib.repo_request (this s)) (world (rt s))
  = (Resolved response, w) ->
  json response = Parsed_ok (JObj props) ->
  assoc "id" props = None ->
  GitHubLib.getRepoId s
  = (Ok VUndefined,
     {| this := {| repo := repo (this s); repoId := VUndefined;
                   userSession := userSession (this s) |};
        rt := rt (answered s (GitHubLib.repo_request (this s)) (Resolved response) w) |}).
Proof.
  intros T H J A. unfold GitHubLib.getRepoId. unfold bind at 1, get_this at 1.
  rewrite T. unfold try_catch, bind.
  rewrite (requestUrl_resolved _ _ _ _ H).
  unfold response_json, data_id. rewrite J. unfold ret at 1. rewrite A.
  reflexivity.
Qed.

End Resolution.

(** C8, on the code.  A metadata endpoint that fails does make
    [getRepoId] fail with "Failed to get repo ID".  A metadata document
    without [id] does not: [getRepoId] resolves with [undefined], stores
    it in [this.repoId], and the [upload] that follows dies on
    [this.repoId!.toString()] with a TypeError, having sent nothing but
    the metadata request. *)
Theorem absent_id_is_cached_as_undefined :
  let offline := Mock.start Example.other_client Example.offline in
  let s := Mock.start Example.other_client Example.no_id_then_success in
  fst (GitHubLib.getRepoId offline)
  = Throw (Error "Failed to get repo ID: Error: net::ERR_CONNECTION_REFUSED")
  /\ fst (GitHubLib.getRepoId s) = Ok VUndefined
  /\ repoId (this (snd (GitHubLib.getRepoId s))) = VUndefined
  /\ fst (GitHubLib.upload "a.png" 10 Mock.a_png s)
     = Throw (TypeError "Cannot read properties of undefined (reading 'toString')")
  /\ trace (rt (snd (GitHubLib.upload "a.png" 10 Mock.a_png s)))
     = [(GitHubLib.repo_request Example.other_client, Example.metadata_without_id)].
Proof.
  intros offline s. repeat split; reflexivity.
Qed.

(** C7, on the code.  The handler of the vault's create event awaits
    [handleImagePaste], which catches the failure of the upload and
    returns normally; the handler then trashes the local file because
    the setting says so.  Here the platform answers the policy request
    with 401: one request is made (no retry), the note keeps its text,
    and the local image is gone from the vault. *)
Theorem failed_upload_still_trashes_local_image :
  let before := Example.plugin Example.expired in
  let after := snd (Main.on_create Example.pasted before) in
  fst (GitHubLib.upload "a.png" 10 Mock.a_png
         (Mock.start Example.client Example.expired))
  = Throw (Error
      "Failed to get upload policy: Error: Failed to get upload policy: Unauthorized")
  /\ fst (Main.on_create Example.pasted before) = Ok tt
  /\ List.length (trace (Main.prt after)) = 1%nat
  /\ Main.activeEditor after = Main.activeEditor before
  /\ assoc "attachments/a.png" (Main.vault before)
     = Some (Main.FileEntry (file_bytes Mock.a_png))
  /\ assoc "attachments/a.png" (Main.vault after) = None
  /\ Main.trashed after = [Example.pasted]
  /\ notices (Main.prt after)
     = ["GitPaste: Your Github session is expired. Add again";
        "GitPaste: Failed to get upload policy: Error: Failed to get upload policy: Unauthorized. Please check the console for details.";
        "GitPaste: Local Image is trashed"].
Proof.
  intros before after. repeat split; reflexivity.
Qed.

Section FailedUpload.

Context {host : Host}.

Lemma assoc_remove_path (k : string) (v : list (string * Main.VaultEntry)) :
  assoc k (Main.remove_path k v) = None.
Proof.
  induction v as [|[k' e] v IH]; simpl; [reflexivity|].
  destruct (String.eqb k k') eqn:E; [exact IH|].
  simpl. rewrite E. exact IH.
Qed.

(** Whatever makes the upload throw, the create handler goes on to trash
    the file when the setting is on, and leaves the note as it was. *)
Lemma on_create_trashes_after_any_failure
    (p : Main.Plugin) (file : Main.TFile) (data : bytes) (e : JsError) (s' : Session) :
  Main.deleteLocalImage (Main.settings p) = true ->
  is_empty (Main.githubSession (Main.settings p)) = false ->
  is_empty (Main.extension file) = false ->
  Main.image_extension (Main.extension file) = true ->
  assoc (Main.path file) (Main.vault p) = Some (Main.FileEntry data) ->
  GitHubLib.upload (Main.tfile_name file) (Z.of_nat (List.length data))
    {| file_name := Main.tfile_name file;
       file_type := Str.to_lower ("image/" ++ Main.extension file);
       file_bytes := data |}
    {| this := GitHubLib.constructor (Main.githubSession (Main.settings p)) None;
       rt := Main.prt p |}
  = (Throw e, s') ->
  let after := snd (Main.on_create file p) in
  fst (Main.on_create file p) = Ok tt
  /\ Main.trashed after = (Main.trashed p ++ [file])%list
  /\ assoc (Main.path file) (Main.vault after) = None
  /\ Main.activeEditor after = Main.activeEditor p
  /\ trace (Main.prt after) = trace (rt s').
Proof.
  intros Hdel Hsess Hext Himg Hfile Hup after. subst after.
  unfold Main.on_create. rewrite Hext, Himg.
  unfold Main.readBinary, Main.handleImagePaste, Main.on_client, Main.showNotice,
    Main.trashFile, file_size.
  run. rewrite Hfile. simpl. rewrite Hsess. simpl. rewrite Hup. simpl.
  destruct (Main.showNotices (Main.settings p)) eqn:E; simpl;
    rewrite ?Hdel; simpl; rewrite ?E; simpl; rewrite assoc_remove_path;
    repeat split; reflexivity.
Qed.

End FailedUpload.

(** ** The multipart body assembled by hand *)

Lemma Buffer_from_app (a b : string) :
  Buffer_from (a ++ b) = (Buffer_from a ++ Buffer_from b)%list.
Proof.
  unfold Buffer_from, list_byte_of_string.
  induction a as [|c a IH]; simpl; [reflexivity | rewrite IH; reflexivity].
Qed.

Lemma total_length (buffers : list bytes) (n : nat) :
  fold_left (fun sum buf => (sum + List.length buf)%nat) buffers n
  = (n + List.length (List.concat buffers))%nat.
Proof.
  revert n. induction buffers as [|buf rest IH]; intros n; simpl.
  - lia.
  - rewrite IH, length_app. lia.
Qed.

(** The copying loop: with [done] already in place and room for what is
    left, the loop leaves [done] followed by the buffers. *)
Lemma set_each_fills (buffers : list bytes) (done room : bytes) :
  List.length room = List.length (List.concat buffers) ->
  Part000.set_each (done ++ room)%list (List.length done) buffers
  = Ok (done ++ List.concat buffers)%list.
Proof.
  revert done room. induction buffers as [|buf rest IH]; intros done room Hroom; simpl in *.
  - destruct room; [reflexivity | discriminate].
  - rewrite length_app in Hroom.
    unfold Uint8Array_set. rewrite length_app.
    replace (List.length done + List.length buf <=? List.length done + List.length room)%nat
      with true by (symmetry; apply Nat.leb_le; lia).
    rewrite firstn_app, Nat.sub_diag, firstn_all. simpl. rewrite app_nil_r.
    rewrite skipn_app, skipn_all2 by lia. simpl.
    replace (List.length done + List.length buf - List.length done)%nat
      with (List.length buf) by lia.
    replace (done ++ buf ++ skipn (List.length buf) room)%list
      with ((done ++ buf) ++ skipn (List.length buf) room)%list
      by (rewrite <- app_assoc; reflexivity).
    replace (List.length done + List.length buf)%nat with (List.length (done ++ buf)%list)
      by apply length_app.
    rewrite IH.
    + rewrite <- app_assoc. reflexivity.
    + rewrite length_skipn. lia.
Qed.

(** The array that is sent is the concatenation of the parts. *)
Lemma combine_parts_concat (parts : list Part000.Part) :
  Part000.combine_parts parts = Ok (List.concat (map Part000.to_Uint8Array parts)).
Proof.
  unfold Part000.combine_parts, Uint8Array_new. rewrite total_length. simpl.
  apply (set_each_fills _ [] _). apply repeat_length.
Qed.

(** The parts pushed by [upload], put end to end, are the byte sequence
    of section 4.3 over the entries of the form. *)
Lemma make_parts_body (boundary : string) (P : UploadPolicy) (name type : string)
    (content : bytes) :
  List.concat (map Part000.to_Uint8Array
                 (Part000.make_parts boundary P name type content))
  = multipart_body boundary (Object_entries (form P)) name type content.
Proof.
  unfold Part000.make_parts, multipart_body.
  rewrite map_app, concat_app, map_map. simpl. rewrite app_nil_r.
  reflexivity.
Qed.

(** An object without array-index keys is enumerated in creation order. *)
Lemma Object_entries_named {A} (props : list (string * A)) :
  Forall (fun kv => array_index (fst kv) = None) props ->
  Object_entries props = props.
Proof.
  intros H.
  assert (I : indexed_props props = []).
  { induction H as [|[k v] props Hk _ IH]; simpl in *; [reflexivity|].
    rewrite Hk. exact IH. }
  assert (N : named_props props = props).
  { unfold named_props. induction H as [|[k v] props Hk _ IH]; simpl in *; [reflexivity|].
    rewrite Hk. f_equal. apply IH.
    destruct (array_index k); [discriminate | exact I]. }
  unfold Object_entries. rewrite I, N. reflexivity.
Qed.

Section BodySent.

Context {host : Host}.

Lemma part000_upload_sends_body s s1 name size file P tok w2 :
  Part000.getPolicy name size (GitHubLib.content_type_of name) s = (Ok P, s1) ->
  Math_random_base36 (world (rt s1)) = (tok, w2) ->
  exists o rest,
    trace (rt (snd (Part000.upload name size file s)))
    = (trace (rt s1)
       ++ (Part000.upload_request (this s1) P (Part000.boundary_of tok)
             (multipart_body (Part000.boundary_of tok) (Object_entries (form P))
                name (GitHubLib.content_type_of name) (file_bytes file)), o)
          :: rest)%list.
Proof.
  intros HP Hr.
  unfold Part000.upload. unfold bind at 1. rewrite HP.
  unfold try_catch. unfold bind at 1. unfold random_base36 at 1. rewrite Hr.
  cbv beta iota zeta. unfold bind at 1. unfold Part000.lift_result at 1.
  rewrite combine_parts_concat, make_parts_body.
  unfold Part000.markUploadComplete, GitHubLib.markUploadComplete.
  run.
  repeat split_match; simpl; rewrite <- ?app_assoc; simpl;
    eexists; eexists; reflexivity.
Qed.

End BodySent.

(** C2, as the code has it.  The multipart body sent to
    [policy.upload_url] is, byte for byte, the sequence of section 4.3:
    one part per form field, then the file part with the name, the
    content type and the raw bytes of the file, then the closing
    delimiter; whatever the bytes of the file and the values of the
    fields.  The fields come in the order in which [Object.entries]
    enumerates the form: keys that are array indices first, in ascending
    numeric order, then the other keys in insertion order; so in plain
    insertion order whenever no key of the form is an array index. *)
Theorem multipart_body_sent :
  forall (host : Host) (s s1 : Session) (name : string) (size : Z) (file : File)
         (P : UploadPolicy) (tok : string) (w2 : World),
    Part000.getPolicy name size (GitHubLib.content_type_of name) s = (Ok P, s1) ->
    Math_random_base36 (world (rt s1)) = (tok, w2) ->
    let boundary := "----WebKitFormBoundary" ++ tok in
    let type := GitHubLib.content_type_of name in
    (exists (request : RequestUrlParam) (o : Outcome)
            (rest : list (RequestUrlParam * Outcome)),
        trace (rt (snd (Part000.upload name size file s)))
        = (trace (rt s1) ++ (request, o) :: rest)%list
        /\ url request = upload_url P
        /\ method request = "POST"
        /\ body request
           = BinaryBody
               (List.concat
                  (map (fun kv =>
                          Buffer_from
                            ("--" ++ boundary ++ CRLF ++
                             "Content-Disposition: form-data; name=" ++ dquote
                               ++ fst kv ++ dquote ++ CRLF ++ CRLF ++
                             snd kv ++ CRLF))
                       (Object_entries (form P)))
                ++ Buffer_from
                     ("--" ++ boundary ++ CRLF ++
                      "Content-Disposition: form-data; name=" ++ dquote ++ "file"
                        ++ dquote ++ "; filename=" ++ dquote ++ name ++ dquote ++ CRLF ++
                      "Content-Type: " ++ type ++ CRLF ++ CRLF)
                ++ file_bytes file
                ++ Buffer_from CRLF
                ++ Buffer_from ("--" ++ boundary ++ "--" ++ CRLF))%list)
    /\
    (Forall (fun kv => array_index (fst kv) = None) (form P) ->
     Object_entries (form P) = form P).
Proof.
  intros host s s1 name size file P tok w2 HP Hr boundary type. split.
  - destruct (part000_upload_sends_body s s1 name size file P tok w2 HP Hr)
      as (o & rest & H).
    eexists; exists o, rest. split; [exact H | repeat split].
  - apply Object_entries_named.
Qed.

Lemma multipart_body_sent_witness :
  let s := Mock.start Example.client Example.all_succeed in
  let s1 := snd (Part000.getPolicy "a.png" 10 "image/png" s) in
  (Part000.getPolicy "a.png" 10 "image/png" s = (Ok Example.policy, s1)
   /\ Forall (fun kv => array_index (fst kv) = None) Example.form_fields)
  /\ (exists (request : RequestUrlParam) (o : Outcome)
             (rest : list (RequestUrlParam * Outcome)),
         trace (rt (snd (Part000.upload "a.png" 10 Mock.a_png s)))
         = (trace (rt s1) ++ (request, o) :: rest)%list
         /\ url request = "https://s3/bucket"
         /\ method request = "POST"
         /\ body request
            = BinaryBody
                (multipart_body Example.webkit_boundary
                   (Object_entries Example.form_fields) "a.png" "image/png"
                   (file_bytes Mock.a_png)))
  /\ Object_entries Example.form_fields = Example.form_fields.
Proof.
  intros s s1.
  assert (HP : Part000.getPolicy "a.png" 10 "image/png" s = (Ok Example.policy, s1))
    by reflexivity.
  assert (HF : Forall (fun kv => array_index (fst kv) = None) Example.form_fields)
    by (repeat constructor).
  destruct (multipart_body_sent Mock.scripted s s1 "a.png" 10 Mock.a_png Example.policy
              "4fzyo82mvyr" (world (rt s1)) HP eq_refl) as [A B].
  split; [split; assumption | split].
  - exact A.
  - exact (B HF).
Defined.

(** The claim C2 as first stated, with the fields in insertion order,
    fails on a form that has an array-index key: the platform sends the
    form [{"b": "x", "1": "y"}], and the body that goes out has the field
    [1] before the field [b]. *)
Lemma indexed_field_is_sent_first :
  let s := Mock.start Example.client Example.indexed_form in
  let sent := map (fun ev => body (fst ev))
                  (trace (rt (snd (Part000.upload "a.png" 10 Mock.a_png s)))) in
  fst (Part000.getPolicy "a.png" 10 "image/png" s)
  = Ok {| upload_url := upload_url Example.policy;
          upload_authenticity_token := upload_authenticity_token Example.policy;
          asset_upload_url := asset_upload_url Example.policy;
          asset_upload_authenticity_token :=
            asset_upload_authenticity_token Example.policy;
          asset := asset Example.policy;
          form := [("b", "x"); ("1", "y")];
          header := header Example.policy;
          same_origin := same_origin Example.policy |}
  /\ nth_error sent 1
     = Some (BinaryBody
               (multipart_body Example.webkit_boundary [("1", "y"); ("b", "x")]
                  "a.png" "image/png" (file_bytes Mock.a_png)))
  /\ nth_error sent 1
     <> Some (BinaryBody
                (multipart_body Example.webkit_boundary [("b", "x"); ("1", "y")]
                   "a.png" "image/png" (file_bytes Mock.a_png))).
Proof.
  intros s sent. split; [reflexivity | split; [reflexivity|]].
  vm_compute. discriminate.
Qed.

(** ** One policy per call *)

Section FreshPolicy.

Context {host : Host}.



End FreshPolicy.


(** * Further properties of the code *)

(** ** The resolution of the repository id *)

Section MoreResolution.

Context {host : Host}.

(** Everything the guarded resolution at the head of [getPolicy] can do:
    nothing, or one metadata request; it shows no notice, keeps [repo]
    and [userSession], and fails only under its own message. *)
Lemma resolution_steps (s s0 : Session) (r : Result unit) :
  (if negb (truthy (repoId (this s)))
   then bind GitHubLib.getRepoId (fun _ => ret tt)
   else ret tt) s = (r, s0) ->
  notices (rt s0) = notices (rt s)
  /\ repo (this s0) = repo (this s)
  /\ userSession (this s0) = userSession (this s)
  /\ (trace (rt s0) = trace (rt s)
      \/ exists o, trace (rt s0)
                   = (trace (rt s) ++ [(GitHubLib.repo_request (this s), o)])%list)
  /\ (truthy (repoId (this s)) = true -> s0 = s)
  /\ (forall e, r = Throw e ->
        exists e0, e = Error ("Failed to get repo ID: " ++ Error_toString e0)).
Proof.
  unfold GitHubLib.getRepoId, data_id. run. intros H.
  repeat split_match; invert_pair; simpl; repeat split; try reflexivity;
    try discriminate; eauto.
  all: try (intros e0 He0; inversion He0; eauto).
Qed.

End MoreResolution.

(** X3. The first resolution for a repository whose id is not known
    sends one GET to [https://api.github.com/repos/<repo>], with no
    header and no body (so without the session cookie), stores the
    non-zero id it finds in the document and returns it; the next
    resolution returns the same id from the instance and sends
    nothing. *)
Theorem first_resolution_fetches_then_caches :
  forall (host : Host) (s : Session) (response : RequestUrlResponse)
         (props : list (string * Json)) (z : Z) (w : World),
    truthy (repoId (this s)) = false ->
    host_requestUrl (GitHubLib.repo_request (this s)) (world (rt s))
    = (Resolved response, w) ->
    json response = Parsed_ok (JObj props) ->
    assoc "id" props = Some (JNum z) ->
    z <> 0 ->
    let s1 := snd (GitHubLib.getRepoId s) in
    fst (GitHubLib.getRepoId s) = Ok (VNum z)
    /\ repoId (this s1) = VNum z
    /\ trace (rt s1)
       = (trace (rt s)
          ++ [({| url := "https://api.github.com/repos/" ++ repo (this s);
                  method := "GET"; req_headers := []; contentType := None;
                  body := NoBody; throw_opt := None |}, Resolved response)])%list
    /\ GitHubLib.getRepoId s1 = (Ok (VNum z), s1).
Proof.
  intros host s response props z w T H J A Hz s1.
  assert (E : GitHubLib.getRepoId s
              = (Ok (VNum z),
                 {| this := {| repo := repo (this s); repoId := VNum z;
                               userSession := userSession (this s) |};
                    rt := rt (answered s (GitHubLib.repo_request (this s))
                                (Resolved response) w) |})).
  { unfold GitHubLib.getRepoId. unfold bind at 1, get_this at 1.
    rewrite T. unfold try_catch, bind.
    rewrite (requestUrl_resolved _ _ _ _ H).
    unfold response_json, data_id. rewrite J. unfold ret at 1. rewrite A.
    reflexivity. }
  subst s1. rewrite E. simpl. repeat split.
  apply getRepoId_cached. simpl. apply Z.eqb_neq in Hz. rewrite Hz. reflexivity.
Qed.

Lemma first_resolution_fetches_then_caches_witness :
  let s := Mock.start Example.other_client Runs.metadata_seven in
  let s1 := snd (GitHubLib.getRepoId s) in
  (truthy (repoId (this s)) = false /\ 7 <> 0)
  /\ fst (GitHubLib.getRepoId s) = Ok (VNum 7)
  /\ repoId (this s1) = VNum 7
  /\ trace (rt s1)
     = [({| url := "https://api.github.com/repos/octo/repo";
            method := "GET"; req_headers := []; contentType := None;
            body := NoBody; throw_opt := None |},
         Resolved Runs.metadata_seven_response)]
  /\ GitHubLib.getRepoId s1 = (Ok (VNum 7), s1).
Proof.
  intros s s1.
  assert (T : truthy (repoId (this s)) = false) by reflexivity.
  assert (Hz : 7 <> 0) by discriminate.
  split; [split; assumption|].
  exact (first_resolution_fetches_then_caches Mock.scripted s
           Runs.metadata_seven_response [("id", JNum 7); ("name", JStr "repo")] 7 []
           T eq_refl eq_refl eq_refl Hz).
Defined.

(** X4. A resolution that fails leaves the instance as it was, so the
    next call tries again, and its error is always
    ["Failed to get repo ID: "] followed by the text of what went wrong:
    the error of the transport, the error of a body that is not JSON, or
    the TypeError raised by reading [id] of [null].  It has sent the one
    metadata request and shown no notice. *)
Theorem failed_resolution_changes_nothing :
  forall (host : Host) (s s' : Session) (e : JsError),
    GitHubLib.getRepoId s = (Throw e, s') ->
    this s' = this s
    /\ notices (rt s') = notices (rt s)
    /\ (exists e0, e = Error ("Failed to get repo ID: " ++ Error_toString e0))
    /\ (exists o, trace (rt s')
                  = (trace (rt s) ++ [(GitHubLib.repo_request (this s), o)])%list).
Proof.
  intros host s s' e. unfold GitHubLib.getRepoId, data_id. run. intros H.
  repeat split_match; invert_pair; try discriminate;
    repeat split; eauto.
Qed.

Lemma failed_resolution_changes_nothing_witness :
  let s := Mock.start Example.other_client Runs.metadata_null in
  let e := Error
    "Failed to get repo ID: TypeError: Cannot read properties of null (reading 'id')" in
  GitHubLib.getRepoId s = (Throw e, snd (GitHubLib.getRepoId s))
  /\ this (snd (GitHubLib.getRepoId s)) = this s
  /\ notices (rt (snd (GitHubLib.getRepoId s))) = notices (rt s)
  /\ (exists e0, e = Error ("Failed to get repo ID: " ++ Error_toString e0))
  /\ (exists o, trace (rt (snd (GitHubLib.getRepoId s)))
                = (trace (rt s) ++ [(GitHubLib.repo_request (this s), o)])%list).
Proof.
  intros s e.
  assert (H : GitHubLib.getRepoId s = (Throw e, snd (GitHubLib.getRepoId s)))
    by reflexivity.
  split; [exact H|].
  exact (failed_resolution_changes_nothing Mock.scripted s _ e H).
Defined.

(** ** What every [upload] call does and does not do *)

(** Opens [upload] in [Hup] up to the guarded resolution at the head of
    [getPolicy], and names its outcome. *)
Ltac open_upload Hup s r s0 Hres :=
  unfold GitHubLib.upload in Hup; unfold bind at 1 in Hup;
  unfold GitHubLib.getPolicy in Hup;
  unfold bind at 1, get_this at 1 in Hup; unfold bind at 1 in Hup;
  destruct ((if negb (truthy (repoId (this s)))
             then bind GitHubLib.getRepoId (fun _ => ret tt)
             else ret tt) s) as [r s0] eqn:Hres.

(** Opens what follows the resolution. *)
Ltac open_tail Hup :=
  unfold GitHubLib.payloadGenerator, GitHubLib.markUploadComplete, method_toString in Hup;
  run.

Section UploadErrors.

Context {host : Host}.

Lemma upload_throws_known_error (s s' : Session) (name : string) (size : Z) (file : File)
    (e : JsError) :
  GitHubLib.upload name size file s = (Throw e, s') ->
  upload_error e.
Proof.
  intros Hup.
  open_upload Hup s r s0 Hres.
  destruct (resolution_steps _ _ _ Hres) as (_ & _ & _ & _ & _ & Herr). clear Hres.
  unfold upload_error.
  destruct r as [[]| e1 |]; simpl in Hup.
  - open_tail Hup.
    repeat split_match; invert_pair; try discriminate; eauto 8.
  - invert_pair. destruct (Herr _ eq_refl) as [e0 ->]. eauto 8.
  - discriminate.
Qed.

End UploadErrors.

(** X5. Whatever makes [upload] of [src/lib/github.ts] throw, the error
    is one of five: the TypeError of [toString] on an id that is
    [undefined] or [null], or an [Error] whose message begins with
    "Failed to get repo ID: ", "Failed to get upload policy: " or
    "Failed to upload file: " and goes on with the text of the error
    underneath. *)
Theorem upload_errors_are_five :
  forall (host : Host) (s s' : Session) (name : string) (size : Z) (file : File)
         (e : JsError),
    GitHubLib.upload name size file s = (Throw e, s') ->
    upload_error e.
Proof.
  intros host s s' name size file e. apply upload_throws_known_error.
Qed.

Lemma upload_errors_are_five_witness :
  let s := Mock.start Example.client Example.upload_refused in
  GitHubLib.upload "a.png" 10 Mock.a_png s
  = (Throw (Error "Failed to upload file: Error: Upload failed with status: 403"),
     snd (GitHubLib.upload "a.png" 10 Mock.a_png s))
  /\ upload_error (Error "Failed to upload file: Error: Upload failed with status: 403").
Proof.
  intros s.
  assert (H : GitHubLib.upload "a.png" 10 Mock.a_png s
              = (Throw (Error "Failed to upload file: Error: Upload failed with status: 403"),
                 snd (GitHubLib.upload "a.png" 10 Mock.a_png s))) by reflexivity.
  split; [exact H|].
  exact (upload_errors_are_five Mock.scripted s _ "a.png" 10 Mock.a_png _ H).
Defined.

(** X6. In the first listing of [src/lib/github.ts], which requests of
    an [upload] call carry the session is fixed by the kind of request,
    whatever the policy says: the metadata GET and the multipart POST to
    [policy.upload_url] carry no [Cookie] header, also when that URL is
    one of github.com; the two requests with a form body, the policy
    POST and the completion PUT, carry the session of the instance under
    both cookie names. *)
Theorem session_cookie_on_form_requests_only :
  forall (host : Host) (s : Session) (name : string) (size : Z) (file : File),
    issued_between (cookie_by_body (userSession (this s))) s
      (snd (GitHubLib.upload name size file s)).
Proof.
  intros host s name size file.
  destruct (GitHubLib.upload name size file s) as [res s'] eqn:Hup. simpl.
  open_upload Hup s r s0 Hres.
  destruct (resolution_steps _ _ _ Hres) as (_ & _ & Huser & Htrace & _ & _). clear Hres.
  assert (Hpre : issued_between (cookie_by_body (userSession (this s))) s s0).
  { destruct Htrace as [E | [o E]]; unfold issued_between; rewrite E.
    - exists []. rewrite app_nil_r. split; [reflexivity | constructor].
    - eexists. split; [reflexivity|]. repeat constructor. }
  apply (issued_between_trans _ _ _ _ Hpre). clear Hpre Htrace.
  rewrite <- Huser. clear Huser.
  destruct r as [[]| e1 |]; simpl in Hup.
  - open_tail Hup.
    repeat split_match; invert_pair;
      first [ apply issued_between_refl
            | unfold issued_between; simpl; rewrite <- ?app_assoc; simpl;
              eexists; split; [reflexivity|];
              repeat (apply Forall_cons;
                      [ unfold cookie_by_body; simpl;
                        split; [ first [reflexivity | left; reflexivity
                                       | right; reflexivity ]
                               | reflexivity ] | ]);
              apply Forall_nil ].
  - invert_pair. apply issued_between_refl.
  - invert_pair. apply issued_between_refl.
Qed.

Section ClientNotices.

Context {host : Host}.

Lemma lib_upload_notices (s : Session) (name : string) (size : Z) (file : File) :
  notices (rt (snd (GitHubLib.upload name size file s))) = notices (rt s)
  \/ (notices (rt (snd (GitHubLib.upload name size file s)))
      = (notices (rt s) ++ ["GitPaste: Your Github session is expired. Add again"])%list
      /\ exists text,
           fst (GitHubLib.upload name size file s)
           = Throw (Error
               ("Failed to get upload policy: Error: Failed to get upload policy: "
                ++ text))).
Proof.
  destruct (GitHubLib.upload name size file s) as [res s'] eqn:Hup. simpl.
  open_upload Hup s r s0 Hres.
  destruct (resolution_steps _ _ _ Hres) as (Hn & _). clear Hres.
  rewrite <- Hn. clear Hn.
  destruct r as [[]| e1 |]; simpl in Hup.
  + open_tail Hup.
    repeat split_match; invert_pair;
      first [ left; reflexivity | right; split; [reflexivity | eexists; reflexivity] ].
  + invert_pair. left. reflexivity.
  + invert_pair. left. reflexivity.
Qed.

End ClientNotices.

(** X7. An [upload] call of [src/lib/github.ts] shows at most one notice
    of its own, the one of the expired session, and when it does the
    call has failed at the policy step; the client of
    [src/unnamed/part_001] never shows a notice. *)
Theorem client_notices :
  forall (host : Host) (s : Session) (name : string) (size : Z) (file : File),
    (notices (rt (snd (GitHubLib.upload name size file s))) = notices (rt s)
     \/ (notices (rt (snd (GitHubLib.upload name size file s)))
         = (notices (rt s) ++ ["GitPaste: Your Github session is expired. Add again"])%list
         /\ exists text,
              fst (GitHubLib.upload name size file s)
              = Throw (Error
                  ("Failed to get upload policy: Error: Failed to get upload policy: "
                   ++ text))))
    /\ notices (rt (snd (Part001.upload name size file s))) = notices (rt s).
Proof.
  intros host s name size file. split.
  - apply lib_upload_notices.
  - destruct (Part001.upload name size file s) as [res s'] eqn:Hup. simpl.
    unfold Part001.upload in Hup. unfold bind at 1 in Hup.
    unfold Part001.getPolicy, Part001.getRepoId in Hup.
    unfold bind at 1, get_this at 1 in Hup. unfold bind at 1 in Hup.
    destruct ((if negb (truthy (repoId (this s)))
               then bind GitHubLib.getRepoId (fun _ => ret tt)
               else ret tt) s) as [r s0] eqn:Hres.
    destruct (resolution_steps _ _ _ Hres) as (Hn & _). clear Hres.
    rewrite <- Hn. clear Hn.
    destruct r as [[]| e1 |]; simpl in Hup.
    + unfold GitHubLib.payloadGenerator, Part001.markUploadComplete, method_toString in Hup.
      run. repeat split_match; invert_pair; reflexivity.
    + invert_pair. reflexivity.
    + invert_pair. reflexivity.
Qed.

(** X8. No step is ever tried twice: an [upload] call of
    [src/lib/github.ts] sends at most four requests, and at most three
    when the repository id is already cached. *)
Theorem upload_sends_at_most_four_requests :
  forall (host : Host) (s : Session) (name : string) (size : Z) (file : File),
    exists evs,
      trace (rt (snd (GitHubLib.upload name size file s))) = (trace (rt s) ++ evs)%list
      /\ (List.length evs <= 4)%nat
      /\ (truthy (repoId (this s)) = true -> (List.length evs <= 3)%nat).
Proof.
  intros host s name size file.
  destruct (GitHubLib.upload name size file s) as [res s'] eqn:Hup. simpl.
  open_upload Hup s r s0 Hres.
  destruct (resolution_steps _ _ _ Hres) as (_ & _ & _ & Htrace & Hsame & _). clear Hres.
  assert (Hpre : exists pre, trace (rt s0) = (trace (rt s) ++ pre)%list
                             /\ (List.length pre <= 1)%nat
                             /\ (truthy (repoId (this s)) = true -> pre = [])).
  { destruct Htrace as [E | [o E]].
    - exists []. rewrite app_nil_r. repeat split; auto.
    - eexists. split; [exact E | split; [simpl; lia|]].
      intros T. rewrite (Hsame T) in E.
      apply (f_equal (@List.length _)) in E. rewrite length_app in E. simpl in E. lia. }
  destruct Hpre as (pre & Epre & Lpre & Cpre). clear Htrace Hsame.
  assert (Tail : exists post, trace (rt s') = (trace (rt s0) ++ post)%list
                              /\ (List.length post <= 3)%nat).
  { destruct r as [[]| e1 |]; simpl in Hup.
    - open_tail Hup.
      repeat split_match; invert_pair; simpl; rewrite <- ?app_assoc; simpl;
        first [ exists []; rewrite app_nil_r; split; [reflexivity | simpl; lia]
              | eexists; split; [reflexivity | simpl; lia] ].
    - invert_pair. exists []. rewrite app_nil_r. split; [reflexivity | simpl; lia].
    - invert_pair. exists []. rewrite app_nil_r. split; [reflexivity | simpl; lia]. }
  destruct Tail as (post & Epost & Lpost).
  exists (pre ++ post)%list. rewrite Epost, Epre, app_assoc. split; [reflexivity|].
  rewrite length_app. split; [lia|].
  intros T. rewrite (Cpre T). simpl. lia.
Qed.

Lemma upload_sends_at_most_four_requests_witness :
  let s := Mock.start Example.client Example.all_succeed in
  truthy (repoId (this s)) = true
  /\ exists evs,
       trace (rt (snd (GitHubLib.upload "a.png" 10 Mock.a_png s)))
       = (trace (rt s) ++ evs)%list
       /\ (List.length evs <= 3)%nat.
Proof.
  intros s.
  assert (T : truthy (repoId (this s)) = true) by reflexivity.
  split; [exact T|].
  destruct (upload_sends_at_most_four_requests Mock.scripted s "a.png" 10 Mock.a_png)
    as (evs & E & _ & L).
  exists evs. split; [exact E | exact (L T)].
Defined.

(** ** The completion request *)

(** X1. A completion PUT that fails makes the whole [upload] fail, after
    the file has been stored: the error is "Failed to upload file:
    Error: Failed to mark upload as complete: " followed by the text of
    the failure, and the link to the asset is not returned.  In
    [src/lib/github.ts] and in [src/unnamed/part_001]. *)
Theorem failed_completion_fails_the_upload :
  forall (host : Host) (s s1 : Session) (name : string) (size : Z) (file : File)
         (P : UploadPolicy) (tok : string) (w2 w3 w4 : World)
         (response : RequestUrlResponse) (e : JsError),
    Math_random_base36 (world (rt s1)) = (tok, w2) ->
    status response = 201 \/ status response = 204 ->
    let body := multipart_body ("----" ++ tok) (pd_fields (payload_data_of P file))
                  (file_name file) (file_type file) (file_bytes file) in
    (GitHubLib.getPolicy name size (GitHubLib.content_type_of name) s = (Ok P, s1) ->
     host_requestUrl (GitHubLib.upload_request P body tok) w2 = (Resolved response, w3) ->
     host_requestUrl (GitHubLib.complete_request (this s1) P) w3 = (Rejected e, w4) ->
     fst (GitHubLib.upload name size file s)
     = Throw (Error ("Failed to upload file: Error: Failed to mark upload as complete: "
                     ++ Error_toString e))
     /\ trace (rt (snd (GitHubLib.upload name size file s)))
        = (trace (rt s1)
           ++ [(GitHubLib.upload_request P body tok, Resolved response);
               (GitHubLib.complete_request (this s1) P, Rejected e)])%list)
    /\
    (Part001.getPolicy name size (GitHubLib.content_type_of name) s = (Ok P, s1) ->
     host_requestUrl (Part001.upload_request P body tok) w2 = (Resolved response, w3) ->
     host_requestUrl (Part001.complete_request (this s1) P) w3 = (Rejected e, w4) ->
     fst (Part001.upload name size file s)
     = Throw (Error ("Failed to upload file: Error: Failed to mark upload as complete: "
                     ++ Error_toString e))
     /\ trace (rt (snd (Part001.upload name size file s)))
        = (trace (rt s1)
           ++ [(Part001.upload_request P body tok, Resolved response);
               (Part001.complete_request (this s1) P, Rejected e)])%list).
Proof.
  intros host s s1 name size file P tok w2 w3 w4 response e Hr Hacc body.
  apply accepted_iff in Hacc.
  split; intros HP Hu Hc.
  - assert (E : GitHubLib.upload name size file s
                = (Throw (Error
                     ("Failed to upload file: Error: Failed to mark upload as complete: "
                      ++ Error_toString e)),
                   answered (answered (drawn s1 w2) (GitHubLib.upload_request P body tok)
                               (Resolved response) w3)
                     (GitHubLib.complete_request (this s1) P) (Rejected e) w4)).
    { unfold GitHubLib.upload. unfold bind at 1. rewrite HP.
      unfold GitHubLib.payloadGenerator, GitHubLib.markUploadComplete.
      run. rewrite Hr. simpl. fold body. rewrite Hu. simpl. rewrite Hacc. simpl.
      rewrite Hc. reflexivity. }
    rewrite E. simpl. rewrite <- app_assoc. split; reflexivity.
  - assert (E : Part001.upload name size file s
                = (Throw (Error
                     ("Failed to upload file: Error: Failed to mark upload as complete: "
                      ++ Error_toString e)),
                   answered (answered (drawn s1 w2) (Part001.upload_request P body tok)
                               (Resolved response) w3)
                     (Part001.complete_request (this s1) P) (Rejected e) w4)).
    { unfold Part001.upload. unfold bind at 1. rewrite HP.
      unfold GitHubLib.payloadGenerator, Part001.markUploadComplete.
      run. rewrite Hr. simpl. fold body. rewrite Hu. simpl. rewrite Hacc. simpl.
      rewrite Hc. reflexivity. }
    rewrite E. simpl. rewrite <- app_assoc. split; reflexivity.
Qed.

Lemma failed_completion_fails_the_upload_witness :
  let s := Mock.start Example.client Runs.completion_lost in
  let body := multipart_body "----4fzyo82mvyr" Example.form_fields "a.png" "image/png"
                (file_bytes Mock.a_png) in
  let lost :=
    Error ("Failed to upload file: Error: Failed to mark upload as complete: "
           ++ "Error: net::ERR_CONNECTION_REFUSED") in
  (GitHubLib.getPolicy "a.png" 10 "image/png" s
   = (Ok Example.policy, snd (GitHubLib.getPolicy "a.png" 10 "image/png" s))
   /\ fst (GitHubLib.upload "a.png" 10 Mock.a_png s) = Throw lost
   /\ trace (rt (snd (GitHubLib.upload "a.png" 10 Mock.a_png s)))
      = (trace (rt (snd (GitHubLib.getPolicy "a.png" 10 "image/png" s)))
         ++ [(GitHubLib.upload_request Example.policy body "4fzyo82mvyr",
              Resolved Runs.stored_response);
             (GitHubLib.complete_request Example.client Example.policy,
              Rejected Mock.refused)])%list)
  /\
  (Part001.getPolicy "a.png" 10 "image/png" s
   = (Ok Example.policy, snd (Part001.getPolicy "a.png" 10 "image/png" s))
   /\ fst (Part001.upload "a.png" 10 Mock.a_png s) = Throw lost
   /\ trace (rt (snd (Part001.upload "a.png" 10 Mock.a_png s)))
      = (trace (rt (snd (Part001.getPolicy "a.png" 10 "image/png" s)))
         ++ [(Part001.upload_request Example.policy body "4fzyo82mvyr",
              Resolved Runs.stored_response);
             (Part001.complete_request Example.client Example.policy,
              Rejected Mock.refused)])%list).
Proof.
  intros s body lost.
  assert (Hacc : status Runs.stored_response = 201 \/ status Runs.stored_response = 204)
    by (right; reflexivity).
  assert (HA : GitHubLib.getPolicy "a.png" 10 "image/png" s
               = (Ok Example.policy, snd (GitHubLib.getPolicy "a.png" 10 "image/png" s)))
    by reflexivity.
  assert (HB : Part001.getPolicy "a.png" 10 "image/png" s
               = (Ok Example.policy, snd (Part001.getPolicy "a.png" 10 "image/png" s)))
    by reflexivity.
  destruct (failed_completion_fails_the_upload Mock.scripted s
              (snd (GitHubLib.getPolicy "a.png" 10 "image/png" s))
              "a.png" 10 Mock.a_png Example.policy "4fzyo82mvyr"
              [Resolved Runs.stored_response] [] [] Runs.stored_response Mock.refused
              eq_refl Hacc) as (A & _).
  destruct (failed_completion_fails_the_upload Mock.scripted s
              (snd (Part001.getPolicy "a.png" 10 "image/png" s))
              "a.png" 10 Mock.a_png Example.policy "4fzyo82mvyr"
              [Resolved Runs.stored_response] [] [] Runs.stored_response Mock.refused
              eq_refl Hacc) as (_ & B).
  split; (split; [assumption|]).
  - exact (A HA eq_refl eq_refl).
  - exact (B HB eq_refl eq_refl).
Defined.

(** ** The revision that looks at no status *)

(** X2. [upload] of [src/unnamed/part_000] looks at no status: as soon
    as the three requests resolve and the answer to the policy request
    is a policy document, it returns the two links, whatever the status
    of the policy answer, of the multipart POST and of the completion
    PUT. *)
Theorem part000_ignores_statuses :
  forall (host : Host) (s s0 : Session) (z : Z) (name : string) (size : Z) (file : File)
         (presp uresp cresp : RequestUrlResponse) (j : Json) (P : UploadPolicy)
         (tok : string) (w1 w2 w3 w4 : World),
    GitHubLib.getRepoId s = (Ok (VNum z), s0) ->
    host_requestUrl
      (Part000.policy_request (this s0)
         (GitHubLib.policy_form (Number_toString z) name size
            (GitHubLib.content_type_of name)))
      (world (rt s0)) = (Resolved presp, w1) ->
    json presp = Parsed_ok j ->
    UploadPolicy_of_json j = Some P ->
    Math_random_base36 w1 = (tok, w2) ->
    host_requestUrl
      (Part000.upload_request (this s0) P (Part000.boundary_of tok)
         (multipart_body (Part000.boundary_of tok) (Object_entries (form P)) name
            (GitHubLib.content_type_of name) (file_bytes file)))
      w2 = (Resolved uresp, w3) ->
    host_requestUrl (GitHubLib.complete_request (this s0) P) w3 = (Resolved cresp, w4) ->
    fst (Part000.upload name size file s)
    = Ok {| githubLink := href (asset P);
            awsLink := or_else (assoc "location" (headers uresp)) EmptyString |}.
Proof.
  intros host s s0 z name size file presp uresp cresp j P tok w1 w2 w3 w4
         Hid Hp Hj HP Hr Hu Hc.
  destruct (resolved_session _ _ _ Hid) as (Hres & Hv).
  assert (G : Part000.getPolicy name size (GitHubLib.content_type_of name) s
              = (Ok P, answered s0
                         (Part000.policy_request (this s0)
                            (GitHubLib.policy_form (Number_toString z) name size
                               (GitHubLib.content_type_of name)))
                         (Resolved presp) w1)).
  { unfold Part000.getPolicy.
    unfold bind at 1, get_this at 1. unfold bind at 1.
    rewrite Hres. unfold bind at 1, get_this at 1. unfold bind at 1.
    rewrite Hv. simpl. unfold try_catch, bind.
    rewrite (requestUrl_resolved _ _ _ _ Hp).
    unfold response_json, as_UploadPolicy. rewrite Hj. unfold ret at 1.
    rewrite HP. reflexivity. }
  unfold Part000.upload. unfold bind at 1. rewrite G.
  unfold try_catch. unfold bind at 1. unfold random_base36 at 1. simpl world. rewrite Hr.
  cbv beta iota zeta. unfold bind at 1. unfold Part000.lift_result at 1.
  rewrite combine_parts_concat, make_parts_body.
  unfold Part000.markUploadComplete, GitHubLib.markUploadComplete.
  run. rewrite Hu. simpl. rewrite Hc. reflexivity.
Qed.

Lemma part000_ignores_statuses_witness :
  let s := Mock.start Example.client Runs.error_statuses in
  GitHubLib.getRepoId s = (Ok (VNum 212613049), s)
  /\ map (fun ev => match snd ev with
                    | Resolved response => Some (status response)
                    | Rejected _ => None
                    end)
         (trace (rt (snd (Part000.upload "a.png" 10 Mock.a_png s))))
     = [Some 422; Some 403; Some 500]
  /\ fst (Part000.upload "a.png" 10 Mock.a_png s)
     = Ok {| githubLink := "https://x/assets/1"; awsLink := "https://s3/y" |}.
Proof.
  intros s.
  assert (Hid : GitHubLib.getRepoId s = (Ok (VNum 212613049), s)) by reflexivity.
  split; [exact Hid | split; [reflexivity|]].
  refine (part000_ignores_statuses Mock.scripted s s 212613049 "a.png" 10 Mock.a_png
            _ _ _ _ Example.policy "4fzyo82mvyr" _ _ _ _
            Hid eq_refl eq_refl eq_refl eq_refl eq_refl eq_refl).
Defined.

(** X9. [upload] of [src/unnamed/part_000] sends the session cookie to
    the storage endpoint: the multipart POST to [policy.upload_url]
    carries a [Cookie] header with the session under both cookie
    names. *)
Theorem part000_sends_cookie_to_upload_url :
  forall (host : Host) (s s1 : Session) (name : string) (size : Z) (file : File)
         (P : UploadPolicy) (tok : string) (w2 : World),
    Part000.getPolicy name size (GitHubLib.content_type_of name) s = (Ok P, s1) ->
    Math_random_base36 (world (rt s1)) = (tok, w2) ->
    exists (request : RequestUrlParam) (o : Outcome)
           (rest : list (RequestUrlParam * Outcome)),
      trace (rt (snd (Part000.upload name size file s)))
      = (trace (rt s1) ++ (request, o) :: rest)%list
      /\ url request = upload_url P
      /\ assoc "Cookie" (req_headers request)
         = Some ("user_session=" ++ userSession (this s1)
                 ++ "; __Host-user_session_same_site=" ++ userSession (this s1) ++ ";").
Proof.
  intros host s s1 name size file P tok w2 HP Hr.
  destruct (part000_upload_sends_body s s1 name size file P tok w2 HP Hr)
    as (o & rest & H).
  eexists; exists o, rest. split; [exact H | split; reflexivity].
Qed.

Lemma part000_sends_cookie_to_upload_url_witness :
  let s := Mock.start Example.client Example.all_succeed in
  let s1 := snd (Part000.getPolicy "a.png" 10 "image/png" s) in
  Part000.getPolicy "a.png" 10 "image/png" s = (Ok Example.policy, s1)
  /\ exists (request : RequestUrlParam) (o : Outcome)
            (rest : list (RequestUrlParam * Outcome)),
       trace (rt (snd (Part000.upload "a.png" 10 Mock.a_png s)))
       = (trace (rt s1) ++ (request, o) :: rest)%list
       /\ url request = "https://s3/bucket"
       /\ assoc "Cookie" (req_headers request)
          = Some "user_session=sess; __Host-user_session_same_site=sess;".
Proof.
  intros s s1.
  assert (HP : Part000.getPolicy "a.png" 10 "image/png" s = (Ok Example.policy, s1))
    by reflexivity.
  split; [exact HP|].
  exact (part000_sends_cookie_to_upload_url Mock.scripted s s1 "a.png" 10 Mock.a_png
           Example.policy "4fzyo82mvyr" (world (rt s1)) HP eq_refl).
Defined.

(** ** Uploading from a path *)

Section FromPathProofs.

Context {host : Host} {disk : Disk}.

Lemma uploadFromPath_ready (filePath : string) (size : Z) (buffer : bytes) (s : Session) :
  statSync_size filePath = inr size ->
  readFile filePath = inr buffer ->
  FromPath.uploadFromPath filePath s
  = GitHubLib.upload (path_basename filePath) size
      {| file_name := path_basename filePath;
         file_type := FromPath.Blob_type
                        (or_else (mime_lookup filePath) "application/octet-stream");
         file_bytes := buffer |} s.
Proof.
  intros Hs Hr. unfold FromPath.uploadFromPath, FromPath.createFileFromPath.
  rewrite Hs, Hr. unfold FromPath.lift_sum, try_catch, bind, ret. reflexivity.
Qed.

End FromPathProofs.

(** X10. When [fs.statSync] or [fs.promises.readFile] fails,
    [uploadFromPath] fails with "Failed to upload file from path: "
    followed by the text of that error; nothing is requested and the
    session is as before. *)
Theorem uploadFromPath_wraps_disk_errors :
  forall (host : Host) (disk : Disk) (filePath : string) (s : Session) (e : JsError),
    (statSync_size filePath = inl e
     \/ (exists size, statSync_size filePath = inr size) /\ readFile filePath = inl e) ->
    FromPath.uploadFromPath filePath s
    = (Throw (Error ("Failed to upload file from path: " ++ Error_toString e)), s).
Proof.
  intros host disk filePath s e [H | [[size Hs] Hr]];
    unfold FromPath.uploadFromPath, FromPath.createFileFromPath.
  - rewrite H. reflexivity.
  - rewrite Hs, Hr. reflexivity.
Qed.

Lemma uploadFromPath_wraps_disk_errors_witness :
  let s := Mock.start Example.client Example.all_succeed in
  statSync_size (Disk := Runs.one_image) "/tmp/shots/b.png"
  = inl (Runs.enoent "/tmp/shots/b.png")
  /\ FromPath.uploadFromPath (disk := Runs.one_image) "/tmp/shots/b.png" s
     = (Throw (Error
          ("Failed to upload file from path: "
           ++ "Error: ENOENT: no such file or directory, stat '/tmp/shots/b.png'")), s).
Proof.
  intros s.
  assert (H : statSync_size (Disk := Runs.one_image) "/tmp/shots/b.png"
              = inl (Runs.enoent "/tmp/shots/b.png")) by reflexivity.
  split; [exact H|].
  exact (uploadFromPath_wraps_disk_errors Mock.scripted Runs.one_image
           "/tmp/shots/b.png" s _ (or_introl H)).
Defined.

Lemma upload_error_not_from_path (e : JsError) (m : string) :
  upload_error e -> e <> Error ("Failed to upload file from path: " ++ m).
Proof.
  unfold upload_error, Error, TypeError.
  intros [H | [H | [[e0 H] | [[e0 H] | [e0 H]]]]] E; rewrite H in E; simpl in E;
    discriminate E.
Qed.

(** X11. When the file can be read, [uploadFromPath] is [upload] of the
    base name, the size [statSync] reports and a [File] with the bytes
    read, and an error of that [upload] reaches the caller as it is:
    [return this.upload(...)] is not awaited inside the [try], so the
    [catch] never adds "Failed to upload file from path" to it. *)
Theorem uploadFromPath_passes_upload_through :
  forall (host : Host) (disk : Disk) (filePath : string) (size : Z) (buffer : bytes)
         (s : Session),
    statSync_size filePath = inr size ->
    readFile filePath = inr buffer ->
    FromPath.uploadFromPath filePath s
    = GitHubLib.upload (path_basename filePath) size
        {| file_name := path_basename filePath;
           file_type := FromPath.Blob_type
                          (or_else (mime_lookup filePath) "application/octet-stream");
           file_bytes := buffer |} s
    /\ forall e m, fst (FromPath.uploadFromPath filePath s) = Throw e ->
                   e <> Error ("Failed to upload file from path: " ++ m).
Proof.
  intros host disk filePath size buffer s Hs Hr.
  pose proof (uploadFromPath_ready filePath size buffer s Hs Hr) as E.
  split; [exact E|].
  intros e m H. rewrite E in H.
  apply upload_error_not_from_path.
  destruct (GitHubLib.upload (path_basename filePath) size _ s) as [r s'] eqn:Hup.
  simpl in H. subst r. exact (upload_throws_known_error _ _ _ _ _ _ Hup).
Qed.

Lemma uploadFromPath_passes_upload_through_witness :
  let s := Mock.start Example.client Example.expired in
  let file := {| file_name := "a.png"; file_type := "image/png";
                 file_bytes := file_bytes Mock.a_png |} in
  (statSync_size (Disk := Runs.one_image) "/tmp/shots/a.png" = inr 10
   /\ readFile (Disk := Runs.one_image) "/tmp/shots/a.png" = inr (file_bytes Mock.a_png))
  /\ FromPath.uploadFromPath (disk := Runs.one_image) "/tmp/shots/a.png" s
     = GitHubLib.upload "a.png" 10 file s
  /\ fst (FromPath.uploadFromPath (disk := Runs.one_image) "/tmp/shots/a.png" s)
     = Throw (Error
         "Failed to get upload policy: Error: Failed to get upload policy: Unauthorized")
  /\ forall m,
       Error "Failed to get upload policy: Error: Failed to get upload policy: Unauthorized"
       <> Error ("Failed to upload file from path: " ++ m).
Proof.
  intros s file.
  assert (Hs : statSync_size (Disk := Runs.one_image) "/tmp/shots/a.png" = inr 10)
    by reflexivity.
  assert (Hr : readFile (Disk := Runs.one_image) "/tmp/shots/a.png"
               = inr (file_bytes Mock.a_png)) by reflexivity.
  destruct (uploadFromPath_passes_upload_through Mock.scripted Runs.one_image
              "/tmp/shots/a.png" 10 (file_bytes Mock.a_png) s Hs Hr) as [A B].
  split; [split; assumption | split; [exact A | split; [reflexivity|]]].
  intros m. exact (B _ m eq_refl).
Defined.

(** ** The plugin of [src/unnamed/part_002] *)

Lemma starts_with_sound (p s : string) :
  Str.starts_with p s = true -> s = p ++ Str.drop (String.length p) s.
Proof.
  revert s. induction p as [|a p IH]; intros s H; simpl in *; [reflexivity|].
  destruct s as [|b s]; [discriminate|].
  apply andb_true_iff in H. destruct H as [Hab Hp].
  apply Ascii.eqb_eq in Hab. subst b. simpl. f_equal. apply IH, Hp.
Qed.

Lemma starts_with_app (p r : string) : Str.starts_with p (p ++ r) = true.
Proof.
  induction p as [|a p IH]; simpl; [reflexivity|].
  rewrite Ascii.eqb_refl. exact IH.
Qed.

Lemma split_at_first_sound (n s b a : string) :
  Str.split_at_first n s = Some (b, a) -> s = b ++ n ++ a.
Proof.
  revert b. induction s as [|c s IH]; intros b H.
  - simpl in H. destruct (Str.starts_with n EmptyString) eqn:E; [|discriminate].
    inversion H; subst. simpl. apply (starts_with_sound _ _ E).
  - simpl in H. destruct (Str.starts_with n (String c s)) eqn:E.
    + inversion H; subst. simpl. apply (starts_with_sound _ _ E).
    + destruct (Str.split_at_first n s) as [[b' a']|] eqn:R; [|discriminate].
      inversion H; subst. simpl. f_equal. apply IH. reflexivity.
Qed.

Lemma split_at_first_complete (n b a : string) :
  Str.split_at_first n (b ++ n ++ a) <> None.
Proof.
  induction b as [|c b IH]; simpl.
  - destruct (n ++ a) eqn:E; simpl; rewrite <- ?E, starts_with_app; discriminate.
  - destruct (Str.starts_with n (String c (b ++ n ++ a))); [discriminate|].
    destruct (Str.split_at_first n (b ++ n ++ a)) as [[b' a']|]; [discriminate|].
    exact IH.
Qed.

(** [contains] is the search for a substring. *)
Lemma contains_spec (n s : string) :
  Str.contains n s = true <-> exists b a, s = b ++ n ++ a.
Proof.
  unfold Str.contains. split.
  - destruct (Str.split_at_first n s) as [[b a]|] eqn:E; [|discriminate].
    intros _. exists b, a. apply split_at_first_sound, E.
  - intros (b & a & ->).
    destruct (Str.split_at_first n (b ++ n ++ a)) eqn:E; [reflexivity|].
    exfalso. exact (split_at_first_complete _ _ _ E).
Qed.

(** X13. The create handler picks its files by an unanchored,
    case-insensitive search: it acts on a file exactly when the
    extension, in lower case, contains [png], [jpg], [jpeg], [gif] or
    [bmp] somewhere; for every other file it does nothing at all. *)
Theorem create_handler_picks_image_extensions :
  forall (host : Host) (p : Main.Plugin) (file : Main.TFile),
    (Main.image_extension (Main.extension file) = true
     <-> exists k b a, In k image_words
                       /\ Str.to_lower (Main.extension file) = b ++ k ++ a)
    /\ (Main.image_extension (Main.extension file) = false ->
        Main.on_create file p = (Ok tt, p)).
Proof.
  intros host p file. split.
  - unfold Main.image_extension, image_words. rewrite !orb_true_iff, !contains_spec.
    split.
    + intros [[[[H | H] | H] | H] | H]; destruct H as (b & a & H);
        eexists; exists b, a; (split; [|exact H]); simpl; auto 6.
    + intros (k & b & a & Hk & H). simpl in Hk.
      destruct Hk as [<- | [<- | [<- | [<- | [<- | []]]]]]; eauto 10.
  - intros H. unfold Main.on_create. rewrite H, andb_false_r. reflexivity.
Qed.

Lemma create_handler_picks_image_extensions_witness :
  let p := Runs.plugin_with "sess" true true true Example.all_succeed in
  Main.image_extension "md" = false
  /\ Main.on_create Runs.created_note p = (Ok tt, p)
  /\ Main.image_extension "PNG" = true
  /\ Main.image_extension "xbmp2" = true.
Proof.
  intros p.
  assert (H : Main.image_extension (Main.extension Runs.created_note) = false)
    by reflexivity.
  destruct (create_handler_picks_image_extensions Mock.scripted p Runs.created_note)
    as [_ A].
  split; [exact H | split; [exact (A H) | split; reflexivity]].
Defined.

(** X12. With no session in the settings, [handleImagePaste] stops at once:
    it sends no request and touches neither the vault nor the editor;
    when notices are on it shows one, whose text has the plugin's prefix
    twice. *)
Theorem no_session_no_request :
  forall (host : Host) (p : Main.Plugin) (file : File),
    Main.githubSession (Main.settings p) = EmptyString ->
    let p' := snd (Main.handleImagePaste (Some file) p) in
    fst (Main.handleImagePaste (Some file) p) = Ok tt
    /\ trace (Main.prt p') = trace (Main.prt p)
    /\ Main.vault p' = Main.vault p
    /\ Main.trashed p' = Main.trashed p
    /\ Main.activeEditor p' = Main.activeEditor p
    /\ notices (Main.prt p')
       = if Main.showNotices (Main.settings p)
         then (notices (Main.prt p)
               ++ ["GitPaste: GitPaste: Please Add GitHub Session to use this."])%list
         else notices (Main.prt p).
Proof.
  intros host p file H p'. subst p'.
  unfold Main.handleImagePaste, Main.showNotice. run. rewrite H. simpl.
  destruct (Main.showNotices (Main.settings p)); simpl; repeat split; reflexivity.
Qed.

Lemma no_session_no_request_witness :
  let p := Runs.plugin_with EmptyString true true true Example.all_succeed in
  let p' := snd (Main.handleImagePaste (Some Mock.a_png) p) in
  Main.githubSession (Main.settings p) = EmptyString
  /\ fst (Main.handleImagePaste (Some Mock.a_png) p) = Ok tt
  /\ trace (Main.prt p') = []
  /\ Main.vault p' = Main.vault p
  /\ Main.trashed p' = []
  /\ Main.activeEditor p' = Some Example.note
  /\ notices (Main.prt p')
     = ["GitPaste: GitPaste: Please Add GitHub Session to use this."].
Proof.
  intros p p'.
  assert (H : Main.githubSession (Main.settings p) = EmptyString) by reflexivity.
  split; [exact H|].
  exact (no_session_no_request Mock.scripted p Mock.a_png H).
Defined.

Section Vault.

Context {host : Host}.

Lemma assoc_remove_other (k k' : string) (v : list (string * Main.VaultEntry)) :
  k' <> k -> assoc k' (Main.remove_path k v) = assoc k' v.
Proof.
  intros H. induction v as [|[k0 e] v IH]; simpl; [reflexivity|].
  destruct (String.eqb k k0) eqn:E.
  - apply String.eqb_eq in E. subst k0.
    destruct (String.eqb k' k) eqn:E'; [apply String.eqb_eq in E'; contradiction|].
    exact IH.
  - simpl. destruct (String.eqb k' k0); [reflexivity | exact IH].
Qed.

Lemma list_byte_of_string_app (a b : string) :
  list_byte_of_string (a ++ b) = (list_byte_of_string a ++ list_byte_of_string b)%list.
Proof. exact (Buffer_from_app a b). Qed.

End Vault.

(** Takes a run of [logImageURL] apart, call by call. *)
Ltac open_log :=
  unfold Main.logImageURL, Main.vault_create, Main.vault_read, Main.vault_modify,
    Main.stored in *;
  run;
  repeat (first [ rewrite String.eqb_refl in * | split_match ]; simpl in *);
  invert_pair;
  repeat match goal with
         | H : Some _ = Some _ |- _ => inversion H; clear H; subst
         end.

(** X16. [logImageURL] writes to the log file and to nothing else, and
    what it writes there is what was read, with one line added.  No
    other path of the vault, no trashed file, nothing of the editor and
    of the network changes, however the call ends.  When the call
    completes, a folder at [logFilePath] has been left alone, and a file
    there (created empty first if there was none) holds the text that
    [vault.read] gave for it followed by a line feed and
    ["- <name>: <link>"].  So where the storage reads the bytes of the
    log as they are and takes the write, the call completes and the log
    is its former bytes followed by that line.  When [vault.create],
    [vault.read] or [vault.modify] rejects, the call fails and the log
    is as it was, or has just been created empty. *)
Theorem log_only_appends :
  forall (host : Host) (p : Main.Plugin) (fileName githubLink : string),
    let p' := snd (Main.logImageURL fileName githubLink p) in
    let res := fst (Main.logImageURL fileName githubLink p) in
    let k := Main.logFilePath (Main.settings p) in
    let line := String "010"%char EmptyString ++ "- " ++ fileName ++ ": " ++ githubLink in
    ((forall k', k' <> k -> assoc k' (Main.vault p') = assoc k' (Main.vault p))
     /\ Main.trashed p' = Main.trashed p
     /\ Main.activeEditor p' = Main.activeEditor p
     /\ Main.prt p' = Main.prt p)
    /\
    (res = Ok tt ->
     match assoc k (Main.vault p) with
     | Some Main.FolderEntry => Main.vault p' = Main.vault p
     | Some (Main.FileEntry old) =>
         exists text,
           Main.read_as (Main.adapter p) k old = inr text
           /\ assoc k (Main.vault p')
              = Some (Main.FileEntry (list_byte_of_string (text ++ line)))
     | None =>
         exists text,
           Main.read_as (Main.adapter p) k [] = inr text
           /\ assoc k (Main.vault p')
              = Some (Main.FileEntry (list_byte_of_string (text ++ line)))
     end)
    /\
    (forall old,
        assoc k (Main.vault p) = Some (Main.FileEntry old) ->
        Main.read_as (Main.adapter p) k old = inr (string_of_list_byte old) ->
        Main.modify_refused (Main.adapter p) k (string_of_list_byte old ++ line)
          (Main.vault p) = None ->
        res = Ok tt
        /\ assoc k (Main.vault p')
           = Some (Main.FileEntry (old ++ list_byte_of_string line)%list))
    /\
    (forall e, res = Throw e ->
        assoc k (Main.vault p') = assoc k (Main.vault p)
        \/ (assoc k (Main.vault p) = None
            /\ assoc k (Main.vault p') = Some (Main.FileEntry []))).
Proof.
  intros host p fileName githubLink p' res k line. subst p' res k line.
  split; [|split; [|split]].
  - destruct (Main.logImageURL fileName githubLink p) as [r q] eqn:H. simpl.
    open_log; repeat split; try reflexivity;
      intros k' Hk; apply String.eqb_neq in Hk as Hk'; simpl; rewrite ?Hk';
      rewrite ?assoc_remove_other by exact Hk; reflexivity.
  - destruct (Main.logImageURL fileName githubLink p) as [r q] eqn:H. simpl.
    intros Hr. subst r.
    open_log; try discriminate; try reflexivity;
      eexists; (split; [eassumption|]); simpl; rewrite String.eqb_refl; reflexivity.
  - intros old Hold Hread Hmod.
    destruct (Main.logImageURL fileName githubLink p) as [r q] eqn:H. simpl.
    unfold Main.logImageURL, Main.vault_create, Main.vault_read, Main.vault_modify,
      Main.stored in H.
    run. rewrite Hold in H. simpl in H. rewrite Hold, Hread in H. simpl in H.
    rewrite Hmod in H. invert_pair.
    rewrite String.eqb_refl, list_byte_of_string_app, list_byte_of_string_of_list_byte.
    split; reflexivity.
  - destruct (Main.logImageURL fileName githubLink p) as [r q] eqn:H. simpl.
    intros e Hr. subst r.
    open_log; try discriminate; simpl; rewrite ?String.eqb_refl;
      first [ left; reflexivity | left; assumption | right; split; reflexivity
            | right; split; [assumption | reflexivity] ].
Qed.

Lemma log_only_appends_witness :
  let p := Runs.plugin_with "sess" false true true [] in
  let p' := snd (Main.logImageURL "a.png" "https://x/assets/1" p) in
  let q := Runs.locked_log "sess" in
  let q' := snd (Main.logImageURL "a.png" "https://x/assets/1" q) in
  ("attachments/a.png" <> Main.logFilePath (Main.settings p)
   /\ assoc "attachments/a.png" (Main.vault p')
      = Some (Main.FileEntry (file_bytes Mock.a_png)))
  /\ (fst (Main.logImageURL "a.png" "https://x/assets/1" p) = Ok tt
      /\ assoc "uploaded-images.md" (Main.vault p')
         = Some (Main.FileEntry
                   (list_byte_of_string "# Uploaded"
                    ++ list_byte_of_string
                         (String "010"%char EmptyString
                          ++ "- a.png: https://x/assets/1"))%list))
  /\ (fst (Main.logImageURL "a.png" "https://x/assets/1" q)
      = Throw (Error "EACCES: permission denied, open 'uploaded-images.md'")
      /\ assoc "uploaded-images.md" (Main.vault q')
         = Some (Main.FileEntry (list_byte_of_string "# Uploaded"))).
Proof.
  intros p p' q q'.
  assert (H : "attachments/a.png" <> Main.logFilePath (Main.settings p)) by discriminate.
  destruct (log_only_appends Mock.scripted p "a.png" "https://x/assets/1")
    as ((A & _) & _ & B & _).
  destruct (log_only_appends Mock.scripted q "a.png" "https://x/assets/1")
    as (_ & _ & _ & C).
  assert (T : fst (Main.logImageURL "a.png" "https://x/assets/1" q)
              = Throw (Error "EACCES: permission denied, open 'uploaded-images.md'"))
    by reflexivity.
  split; [split; [exact H | exact (A _ H)] | split].
  - exact (B (list_byte_of_string "# Uploaded") eq_refl eq_refl eq_refl).
  - split; [exact T|].
    destruct (C _ T) as [E | [E _]]; [exact E | discriminate E].
Defined.

Section Keeps.

Context {host : Host}.

Lemma same_files_refl (p : Main.Plugin) : same_files p p.
Proof. repeat split. Qed.

Lemma same_files_trans (p1 p2 p3 : Main.Plugin) :
  same_files p1 p2 -> same_files p2 p3 -> same_files p1 p3.
Proof.
  intros (T1 & S1 & V1) (T2 & S2 & V2). repeat split.
  - rewrite T2. exact T1.
  - rewrite S2. exact S1.
  - intros k Hk. rewrite V2 by (rewrite S1; exact Hk). apply V1, Hk.
Qed.

Lemma keeps_files_ret {A} (a : A) : keeps_files (ret a : Main.App A).
Proof. intros p r p' H. inversion H. apply same_files_refl. Qed.

Lemma keeps_files_get : keeps_files (get : Main.App Main.Plugin).
Proof. intros p r p' H. inversion H. apply same_files_refl. Qed.

Lemma keeps_files_bind {A B} (m : Main.App A) (k : A -> Main.App B) :
  keeps_files m -> (forall a, keeps_files (k a)) -> keeps_files (bind m k).
Proof.
  intros Hm Hk p r p' H. unfold bind in H.
  destruct (m p) as [r1 p1] eqn:E. pose proof (Hm _ _ _ E) as S1.
  destruct r1; [| inversion H; subst; exact S1 | inversion H; subst; exact S1].
  exact (same_files_trans _ _ _ S1 (Hk _ _ _ _ H)).
Qed.

Lemma keeps_files_try_catch {A} (m : Main.App A) (h : JsError -> Main.App A) :
  keeps_files m -> (forall e, keeps_files (h e)) -> keeps_files (try_catch m h).
Proof.
  intros Hm Hh p r p' H. unfold try_catch in H.
  destruct (m p) as [r1 p1] eqn:E. pose proof (Hm _ _ _ E) as S1.
  destruct r1; [inversion H; subst; exact S1 | | inversion H; subst; exact S1].
  exact (same_files_trans _ _ _ S1 (Hh _ _ _ _ H)).
Qed.

Lemma keeps_files_showNotice (msg : string) : keeps_files (Main.showNotice msg).
Proof.
  intros p r p' H. unfold Main.showNotice in H. run.
  destruct (Main.showNotices (Main.settings p)); inversion H; repeat split.
Qed.

Lemma keeps_files_on_client {A} (gh : GitHub) (m : Async A) :
  keeps_files (Main.on_client gh m).
Proof.
  intros p r p' H. unfold Main.on_client in H.
  destruct (m _) as [r1 s1]. inversion H. repeat split.
Qed.

Lemma keeps_files_set_editor (e : option Main.Editor) :
  keeps_files (modify (fun p => Main.set_editor p e)).
Proof. intros p r p' H. inversion H. repeat split. Qed.

Lemma keeps_files_rewrite_note (name filePath : string) :
  keeps_files (Main.rewrite_note name filePath).
Proof.
  unfold Main.rewrite_note. apply keeps_files_bind; [apply keeps_files_get|].
  intros p0. destruct (Main.activeEditor p0); [|apply keeps_files_ret].
  destruct (Str.contains _ _);
    (apply keeps_files_bind; [apply keeps_files_set_editor | intros; apply keeps_files_showNotice]).
Qed.

Lemma keeps_files_logImageURL (fileName githubLink : string) :
  keeps_files (Main.logImageURL fileName githubLink).
Proof.
  intros p r p' H.
  open_log; repeat split; simpl;
    intros k' Hk; apply String.eqb_neq in Hk as Hk'; rewrite ?Hk';
    rewrite ?assoc_remove_other by exact Hk; reflexivity.
Qed.

Lemma keeps_files_handleImagePaste (file : option File) :
  keeps_files (Main.handleImagePaste file).
Proof.
  unfold Main.handleImagePaste. destruct file as [file|]; [|apply keeps_files_ret].
  apply keeps_files_bind; [apply keeps_files_get|]. intros p0.
  destruct (is_empty _); [apply keeps_files_showNotice|].
  apply keeps_files_try_catch; [|intros; apply keeps_files_showNotice].
  apply keeps_files_bind; [apply keeps_files_on_client|]. intros result.
  apply keeps_files_bind; [apply keeps_files_rewrite_note|]. intros _.
  apply keeps_files_bind; [apply keeps_files_get|]. intros p1.
  destruct (Main.enableLogging _); [apply keeps_files_logImageURL | apply keeps_files_ret].
Qed.

End Keeps.

(** X14. With the deletion of local images switched off, the create
    handler trashes nothing, whatever the upload does: the list of
    trashed files is as before and every file of the vault other than
    the log file is as it was. *)
Theorem delete_off_keeps_every_file :
  forall (host : Host) (p : Main.Plugin) (file : Main.TFile),
    Main.deleteLocalImage (Main.settings p) = false ->
    let p' := snd (Main.on_create file p) in
    Main.trashed p' = Main.trashed p
    /\ forall k, k <> Main.logFilePath (Main.settings p) ->
                 assoc k (Main.vault p') = assoc k (Main.vault p).
Proof.
  intros host p file Hdel p'. subst p'.
  assert (S : same_files p (snd (Main.on_create file p))).
  { unfold Main.on_create.
    destruct (negb (is_empty (Main.extension file))
              && Main.image_extension (Main.extension file));
      [|apply same_files_refl].
    unfold bind at 1. unfold Main.readBinary at 1. unfold bind at 1, get at 1.
    destruct (assoc (Main.path file) (Main.vault p)) as [[data|]|];
      try (simpl; apply same_files_refl).
    unfold ret at 1. unfold bind at 1.
    destruct (Main.handleImagePaste _ p) as [r p1] eqn:Hh.
    pose proof (keeps_files_handleImagePaste _ _ _ _ Hh) as S1.
    destruct r; simpl; try exact S1.
    unfold bind, get. destruct S1 as (T1 & E1 & V1).
    rewrite E1, Hdel. simpl. repeat split; assumption. }
  destruct S as (T & _ & V). split; assumption.
Qed.

Lemma delete_off_keeps_every_file_witness :
  let p := Runs.plugin_with "sess" false true true Example.all_succeed in
  let p' := snd (Main.on_create Example.pasted p) in
  (Main.deleteLocalImage (Main.settings p) = false
   /\ "attachments/a.png" <> Main.logFilePath (Main.settings p))
  /\ Main.trashed p' = []
  /\ assoc "attachments/a.png" (Main.vault p')
     = Some (Main.FileEntry (file_bytes Mock.a_png)).
Proof.
  intros p p'.
  assert (H : Main.deleteLocalImage (Main.settings p) = false) by reflexivity.
  assert (K : "attachments/a.png" <> Main.logFilePath (Main.settings p)) by discriminate.
  destruct (delete_off_keeps_every_file Mock.scripted p Example.pasted H) as [A B].
  split; [split; assumption | split; [exact A | exact (B _ K)]].
Defined.

Section EditorLemmas.

Context {host : Host}.

Lemma nth_set_nth_same (n : nat) (x : string) (l : list string) :
  (n < List.length l)%nat -> nth n (Main.set_nth n x l) EmptyString = x.
Proof.
  revert l. induction n as [|n IH]; intros [|y l] H; simpl in *; try lia; auto.
  apply IH. lia.
Qed.

Lemma nth_set_nth_other (n i : nat) (x : string) (l : list string) :
  i <> n -> nth i (Main.set_nth n x l) EmptyString = nth i l EmptyString.
Proof.
  revert i l. induction n as [|n IH]; intros i [|y l] H; simpl; auto.
  - destruct i; [contradiction | reflexivity].
  - destruct i; [reflexivity|]. apply IH. lia.
Qed.

Lemma length_set_nth (n : nat) (x : string) (l : list string) :
  List.length (Main.set_nth n x l) = List.length l.
Proof.
  revert l. induction n as [|n IH]; intros [|y l]; simpl; auto.
Qed.

Lemma substitute_no_dollar (r m b a : string) :
  no_dollar r = true -> Str.substitute r m b a = r.
Proof.
  induction r as [|c r IH]; intros H; [reflexivity|].
  simpl in H. apply andb_true_iff in H. destruct H as [Hc Hr].
  specialize (IH Hr).
  destruct c as [[] [] [] [] [] [] [] []]; simpl in *; try discriminate;
    rewrite IH; reflexivity.
Qed.

Lemma showNotice_editor (msg : string) (p : Main.Plugin) :
  Main.activeEditor (snd (Main.showNotice msg p)) = Main.activeEditor p
  /\ fst (Main.showNotice msg p) = Ok tt
  /\ Main.settings (snd (Main.showNotice msg p)) = Main.settings p.
Proof.
  unfold Main.showNotice. run. destruct (Main.showNotices (Main.settings p)); repeat split.
Qed.

Lemma logImageURL_editor (n l : string) (p : Main.Plugin) :
  Main.activeEditor (snd (Main.logImageURL n l p)) = Main.activeEditor p.
Proof.
  destruct (Main.logImageURL n l p) as [r q] eqn:H. simpl.
  open_log; reflexivity.
Qed.

End EditorLemmas.

Section Rewrite.

Context {host : Host}.

Lemma rewrite_note_replaces (p : Main.Plugin) (ed : Main.Editor)
    (name filePath b a : string) :
  Main.activeEditor p = Some ed ->
  Str.split_at_first (Main.local_embed name)
    (nth (Main.cursor_line ed) (Main.lines ed) EmptyString) = Some (b, a) ->
  fst (Main.rewrite_note name filePath p) = Ok tt
  /\ Main.settings (snd (Main.rewrite_note name filePath p)) = Main.settings p
  /\ Main.activeEditor (snd (Main.rewrite_note name filePath p))
     = Some {| Main.lines :=
                 Main.set_nth (Main.cursor_line ed)
                   (b ++ Str.substitute ("![" ++ name ++ "](" ++ filePath ++ ")")
                           (Main.local_embed name) b a ++ a)
                   (Main.lines ed);
               Main.cursor_line := Main.cursor_line ed;
               Main.cursor_ch := Main.cursor_ch ed |}.
Proof.
  intros Hed Hsplit.
  destruct (Main.rewrite_note name filePath p) as [r2 p2] eqn:R.
  unfold Main.rewrite_note, Str.contains, Str.replace_first, Main.showNotice in R.
  unfold bind at 1, get at 1 in R. rewrite Hed, Hsplit in R.
  run. destruct (Main.showNotices (Main.settings p)); inversion R; repeat split.
Qed.

End Rewrite.

(** X15. After a successful upload, when the line under the cursor holds
    the local embed [![[name]]], [handleImagePaste] replaces the first
    such embed on that line by [![name](link)] (literally so when that
    text has no [$], otherwise with the [$] patterns of
    [String.prototype.replace] expanded), keeps what stands before and
    after it, and changes no other line. *)
Theorem successful_paste_rewrites_cursor_line :
  forall (host : Host) (p : Main.Plugin) (file : File) (r : UploadResult) (s' : Session)
         (ed : Main.Editor) (b a : string),
    is_empty (Main.githubSession (Main.settings p)) = false ->
    GitHubLib.upload (file_name file) (file_size file) file
      {| this := GitHubLib.constructor (Main.githubSession (Main.settings p)) None;
         rt := Main.prt p |} = (Ok r, s') ->
    Main.activeEditor p = Some ed ->
    (Main.cursor_line ed < List.length (Main.lines ed))%nat ->
    Str.split_at_first (Main.local_embed (file_name file))
      (nth (Main.cursor_line ed) (Main.lines ed) EmptyString) = Some (b, a) ->
    let markdown := "![" ++ file_name file ++ "](" ++ githubLink r ++ ")" in
    exists ed',
      Main.activeEditor (snd (Main.handleImagePaste (Some file) p)) = Some ed'
      /\ nth (Main.cursor_line ed) (Main.lines ed') EmptyString
         = b ++ Str.substitute markdown (Main.local_embed (file_name file)) b a ++ a
      /\ (no_dollar markdown = true ->
          nth (Main.cursor_line ed) (Main.lines ed') EmptyString = b ++ markdown ++ a)
      /\ (forall i, i <> Main.cursor_line ed ->
            nth i (Main.lines ed') EmptyString = nth i (Main.lines ed) EmptyString)
      /\ List.length (Main.lines ed') = List.length (Main.lines ed).
Proof.
  intros host p file r s' ed b a Hsess Hup Hed Hlt Hsplit markdown.
  set (p1 := Main.set_prt p (rt s')).
  assert (Hed1 : Main.activeEditor p1 = Some ed) by exact Hed.
  destruct (rewrite_note_replaces p1 ed (file_name file) (githubLink r) b a Hed1 Hsplit)
    as (R1 & R2 & R3).
  assert (E : Main.activeEditor (snd (Main.handleImagePaste (Some file) p))
              = Main.activeEditor (snd (Main.rewrite_note (file_name file) (githubLink r) p1))).
  { unfold Main.handleImagePaste. unfold bind at 1, get at 1. rewrite Hsess.
    unfold try_catch. unfold bind at 1. unfold Main.on_client. rewrite Hup.
    fold p1. unfold bind at 1.
    destruct (Main.rewrite_note (file_name file) (githubLink r) p1) as [r2 p2].
    simpl in R1. subst r2. simpl. unfold bind at 1, get at 1.
    destruct (Main.enableLogging (Main.settings p2)).
    - destruct (Main.logImageURL (file_name file) (githubLink r) p2) as [r3 p3] eqn:L.
      pose proof (logImageURL_editor (file_name file) (githubLink r) p2) as K.
      rewrite L in K. simpl in K.
      destruct r3; simpl;
        [exact K | rewrite (proj1 (showNotice_editor _ _)); exact K | exact K].
    - reflexivity. }
  rewrite E, R3. eexists. split; [reflexivity|]. simpl.
  split; [apply nth_set_nth_same, Hlt | split; [|split]].
  - intros ND. rewrite nth_set_nth_same by exact Hlt.
    fold markdown. rewrite (substitute_no_dollar _ _ _ _ ND). reflexivity.
  - intros i Hi. apply nth_set_nth_other, Hi.
  - apply length_set_nth.
Qed.

Lemma successful_paste_rewrites_cursor_line_witness :
  let p := Runs.plugin_with "sess" false true true Example.all_succeed in
  let s := {| this := GitHubLib.constructor "sess" None; rt := Main.prt p |} in
  let r := {| githubLink := "https://x/assets/1"; awsLink := "https://s3/y" |} in
  (GitHubLib.upload "a.png" 10 Mock.a_png s = (Ok r, snd (GitHubLib.upload "a.png" 10 Mock.a_png s))
   /\ Str.split_at_first "![[a.png]]" "see ![[a.png]] below" = Some ("see ", " below"))
  /\ exists ed',
       Main.activeEditor (snd (Main.handleImagePaste (Some Mock.a_png) p)) = Some ed'
       /\ nth 1 (Main.lines ed') EmptyString = "see ![a.png](https://x/assets/1) below"
       /\ nth 0 (Main.lines ed') EmptyString = "# Trip"
       /\ List.length (Main.lines ed') = 2%nat.
Proof.
  intros p s r.
  assert (Hup : GitHubLib.upload "a.png" 10 Mock.a_png s
                = (Ok r, snd (GitHubLib.upload "a.png" 10 Mock.a_png s))) by reflexivity.
  assert (Hsplit : Str.split_at_first "![[a.png]]" "see ![[a.png]] below"
                   = Some ("see ", " below")) by reflexivity.
  split; [split; assumption|].
  assert (Hlt : (Main.cursor_line Example.note < List.length (Main.lines Example.note))%nat)
    by (simpl; lia).
  destruct (successful_paste_rewrites_cursor_line Mock.scripted p Mock.a_png r _
              Example.note "see " " below" eq_refl Hup eq_refl Hlt Hsplit)
    as (ed' & A & _ & C & D & E).
  exists ed'. split; [exact A | split; [exact (C eq_refl) | split; [|exact E]]].
  apply (D 0%nat). discriminate.
Defined.

(** X17. Switching the plugin's notices off does not silence the
    client: when the platform turns the policy request down,
    [src/lib/github.ts] raises its notice of the expired session itself,
    and that notice, and no other, is shown by [handleImagePaste] of
    [src/unnamed/part_002]. *)
Theorem expired_session_notice_ignores_setting :
  forall (host : Host) (p : Main.Plugin) (file : File) (response : RequestUrlResponse)
         (w : World),
    Main.showNotices (Main.settings p) = false ->
    is_empty (Main.githubSession (Main.settings p)) = false ->
    host_requestUrl
      (GitHubLib.policy_request
         (GitHubLib.constructor (Main.githubSession (Main.settings p)) None)
         (GitHubLib.policy_form "212613049" (file_name file) (file_size file)
            (GitHubLib.content_type_of (file_name file))))
      (world (Main.prt p)) = (Resolved response, w) ->
    status response <> 201 ->
    fst (Main.handleImagePaste (Some file) p) = Ok tt
    /\ notices (Main.prt (snd (Main.handleImagePaste (Some file) p)))
       = (notices (Main.prt p)
          ++ ["GitPaste: Your Github session is expired. Add again"])%list.
Proof.
  intros host p file response w Hoff Hsess Hreq Hst.
  set (gh := GitHubLib.constructor (Main.githubSession (Main.settings p)) None).
  set (s := {| this := gh; rt := Main.prt p |}).
  assert (Hid : GitHubLib.getRepoId s = (Ok (VNum 212613049), s))
    by (apply (getRepoId_cached s); reflexivity).
  pose proof (lib_upload_policy_failure s s 212613049 (file_name file) (file_size file)
                file (Resolved response) w Hid Hreq Hst) as Hup.
  destruct (Main.handleImagePaste (Some file) p) as [r p'] eqn:Hh.
  unfold Main.handleImagePaste in Hh. unfold bind at 1, get at 1 in Hh.
  rewrite Hsess in Hh. unfold try_catch in Hh. unfold bind at 1 in Hh.
  unfold Main.on_client in Hh. fold gh in Hh. fold s in Hh. rewrite Hup in Hh.
  unfold lib_policy_failure, Main.showNotice in Hh. run. rewrite Hoff in Hh.
  inversion Hh. split; reflexivity.
Qed.

Lemma expired_session_notice_ignores_setting_witness :
  let p := Runs.plugin_with "sess" false false false Example.expired in
  (Main.showNotices (Main.settings p) = false
   /\ status Example.unauthorized_response <> 201)
  /\ fst (Main.handleImagePaste (Some Mock.a_png) p) = Ok tt
  /\ notices (Main.prt (snd (Main.handleImagePaste (Some Mock.a_png) p)))
     = ["GitPaste: Your Github session is expired. Add again"].
Proof.
  intros p.
  assert (Hoff : Main.showNotices (Main.settings p) = false) by reflexivity.
  assert (Hst : status Example.unauthorized_response <> 201) by discriminate.
  split; [split; assumption|].
  exact (expired_session_notice_ignores_setting Mock.scripted p Mock.a_png
           Example.unauthorized_response [] Hoff eq_refl eq_refl Hst).
Defined.

(** ** The first plugin, [src/main.ts] *)

Lemma string_append_assoc (a b c : string) : (a ++ b) ++ c = a ++ (b ++ c).
Proof.
  induction a as [| ch a IH]; simpl; [reflexivity | rewrite IH; reflexivity].
Qed.

Section FirstPlugin.

Context {host : Host}.

(** [handleImagePaste] of [src/main.ts] as a function of what [upload]
    does in [paste_session]. *)
Lemma main_ts_paste (p : MainTs.Plugin) (file : File) :
  MainTs.handleImagePaste (Some file) p
  = match GitHubLib.upload (file_name file) (file_size file) file (paste_session p) with
    | (Ok result, s') =>
        (Ok tt,
         {| MainTs.settings := MainTs.settings p;
            MainTs.activeEditor :=
              match MainTs.activeEditor p with
              | Some e =>
                  Some {| MainTs.before :=
                            MainTs.before e ++ "![" ++ file_name file ++ "]("
                              ++ githubLink result ++ ")";
                          MainTs.selected := EmptyString;
                          MainTs.after := MainTs.after e |}
              | None => None
              end;
            MainTs.prt := rt s' |})
    | (Throw e, s') =>
        (Throw e, {| MainTs.settings := MainTs.settings p;
                     MainTs.activeEditor := MainTs.activeEditor p;
                     MainTs.prt := rt s' |})
    | (Stuck, s') =>
        (Stuck, {| MainTs.settings := MainTs.settings p;
                   MainTs.activeEditor := MainTs.activeEditor p;
                   MainTs.prt := rt s' |})
    end.
Proof.
  unfold MainTs.handleImagePaste, paste_session, MainTs.on_client, MainTs.Notice,
    MainTs.replaceSelection.
  run.
  destruct (is_empty (MainTs.githubSession (MainTs.settings p))); simpl;
    destruct (GitHubLib.upload _ _ _ _) as [[result | e |] s']; simpl; try reflexivity;
    destruct (MainTs.activeEditor p); reflexivity.
Qed.

End FirstPlugin.

(** X18. In [src/main.ts] a missing session does not stop the paste:
    the notice asking for a session is shown and the upload is attempted
    all the same, its policy request carrying the two cookies with empty
    values. *)
Theorem first_plugin_uploads_without_session :
  forall (host : Host) (p : MainTs.Plugin) (file : File),
    MainTs.githubSession (MainTs.settings p) = EmptyString ->
    let p' := snd (MainTs.handleImagePaste (Some file) p) in
    exists (request : RequestUrlParam) (o : Outcome)
           (rest : list (RequestUrlParam * Outcome)) (more : list string),
      trace (MainTs.prt p') = (trace (MainTs.prt p) ++ (request, o) :: rest)%list
      /\ url request = "https://github.com/upload/policies/assets"
      /\ assoc "Cookie" (req_headers request)
         = Some "user_session=; __Host-user_session_same_site=;"
      /\ notices (MainTs.prt p')
         = (notices (MainTs.prt p)
            ++ "GitPaste: Please Add Github Session to use this." :: more)%list.
Proof.
  intros host p file H p'. subst p'.
  rewrite main_ts_paste.
  assert (T1 : trace (rt (paste_session p)) = trace (MainTs.prt p)).
  { unfold paste_session. rewrite H. reflexivity. }
  assert (T2 : notices (rt (paste_session p))
               = (notices (MainTs.prt p)
                  ++ ["GitPaste: Please Add Github Session to use this."])%list).
  { unfold paste_session. rewrite H. reflexivity. }
  assert (C : this (paste_session p) = GitHubLib.constructor EmptyString None).
  { unfold paste_session. rewrite H. reflexivity. }
  remember (paste_session p) as S eqn:HS. clear HS.
  assert (Hid : GitHubLib.getRepoId S = (Ok (VNum 212613049), S)).
  { replace (VNum 212613049) with (repoId (this S)) by (rewrite C; reflexivity).
    apply (getRepoId_cached S). rewrite C. reflexivity. }
  destruct (upload_issues_policy_request S S 212613049
              (file_name file) (file_size file) file Hid) as (o & rest & Htrace).
  pose proof (lib_upload_notices S (file_name file) (file_size file) file) as Hn.
  destruct (GitHubLib.upload (file_name file) (file_size file) file S) as [res s'].
  simpl in Htrace, Hn.
  rewrite T1 in Htrace. rewrite T2 in Hn. rewrite C in Htrace.
  assert (N : exists more,
             notices (rt s')
             = (notices (MainTs.prt p)
                ++ "GitPaste: Please Add Github Session to use this." :: more)%list).
  { destruct Hn as [E | [E _]]; rewrite E.
    - exists []. reflexivity.
    - eexists. rewrite <- app_assoc. reflexivity. }
  destruct N as [more N].
  eexists; exists o, rest, more.
  destruct res; simpl;
    (split; [exact Htrace | split; [reflexivity | split; [reflexivity | exact N]]]).
Qed.

Lemma first_plugin_uploads_without_session_witness :
  let p := Runs.first_plugin EmptyString Example.expired in
  let p' := snd (MainTs.handleImagePaste (Some Mock.a_png) p) in
  MainTs.githubSession (MainTs.settings p) = EmptyString
  /\ exists (request : RequestUrlParam) (o : Outcome)
            (rest : list (RequestUrlParam * Outcome)) (more : list string),
       trace (MainTs.prt p') = (trace (MainTs.prt p) ++ (request, o) :: rest)%list
       /\ url request = "https://github.com/upload/policies/assets"
       /\ assoc "Cookie" (req_headers request)
          = Some "user_session=; __Host-user_session_same_site=;"
       /\ notices (MainTs.prt p')
          = (notices (MainTs.prt p)
             ++ "GitPaste: Please Add Github Session to use this." :: more)%list.
Proof.
  intros p p'.
  assert (H : MainTs.githubSession (MainTs.settings p) = EmptyString) by reflexivity.
  split; [exact H|].
  exact (first_plugin_uploads_without_session Mock.scripted p Mock.a_png H).
Defined.

(** X19. [handleImagePaste] of [src/main.ts] has no [catch]: when the
    upload fails, its error is the error of the handler and the document
    is untouched; when it succeeds and a markdown view is active, the
    selection is replaced by [![name](link)], so that the document is
    what stood before the selection, that text, and what stood after. *)
Theorem first_plugin_replaces_selection_or_throws :
  forall (host : Host) (p : MainTs.Plugin) (file : File),
    let p' := snd (MainTs.handleImagePaste (Some file) p) in
    (forall e s',
        GitHubLib.upload (file_name file) (file_size file) file (paste_session p)
        = (Throw e, s') ->
        fst (MainTs.handleImagePaste (Some file) p) = Throw e
        /\ MainTs.activeEditor p' = MainTs.activeEditor p)
    /\
    (forall r s' ed,
        GitHubLib.upload (file_name file) (file_size file) file (paste_session p)
        = (Ok r, s') ->
        MainTs.activeEditor p = Some ed ->
        fst (MainTs.handleImagePaste (Some file) p) = Ok tt
        /\ exists ed',
             MainTs.activeEditor p' = Some ed'
             /\ MainTs.selected ed' = EmptyString
             /\ MainTs.getValue ed'
                = MainTs.before ed ++ ("![" ++ file_name file ++ "](" ++ githubLink r ++ ")")
                    ++ MainTs.after ed).
Proof.
  intros host p file p'. subst p'. rewrite main_ts_paste. split.
  - intros e s' H. rewrite H. split; reflexivity.
  - intros r s' ed H Hed. rewrite H, Hed. split; [reflexivity|].
    eexists. split; [reflexivity | split; [reflexivity|]].
    unfold MainTs.getValue.
    cbn [MainTs.before MainTs.selected MainTs.after].
    change (EmptyString ++ MainTs.after ed) with (MainTs.after ed).
    apply string_append_assoc.
Qed.

Lemma first_plugin_replaces_selection_or_throws_witness :
  let p := Runs.first_plugin "sess" Example.all_succeed in
  let p' := snd (MainTs.handleImagePaste (Some Mock.a_png) p) in
  (GitHubLib.upload "a.png" 10 Mock.a_png (paste_session p)
   = (Ok {| githubLink := "https://x/assets/1"; awsLink := "https://s3/y" |}, snd (GitHubLib.upload "a.png" 10 Mock.a_png (paste_session p)))
   /\ MainTs.activeEditor p
      = Some {| MainTs.before := "see "; MainTs.selected := "here";
                MainTs.after := " below" |})
  /\ fst (MainTs.handleImagePaste (Some Mock.a_png) p) = Ok tt
  /\ exists ed',
       MainTs.activeEditor p' = Some ed'
       /\ MainTs.selected ed' = EmptyString
       /\ MainTs.getValue ed'
          = "see " ++ ("![" ++ "a.png" ++ "](" ++ "https://x/assets/1" ++ ")")
              ++ " below".
Proof.
  intros p p'.
  assert (U : GitHubLib.upload "a.png" 10 Mock.a_png (paste_session p)
              = (Ok {| githubLink := "https://x/assets/1"; awsLink := "https://s3/y" |},
                 snd (GitHubLib.upload "a.png" 10 Mock.a_png (paste_session p))))
    by (vm_compute; reflexivity).
  assert (A : MainTs.activeEditor p
              = Some {| MainTs.before := "see "; MainTs.selected := "here";
                        MainTs.after := " below" |}) by reflexivity.
  split; [split; [exact U | exact A]|].
  exact (proj2 (first_plugin_replaces_selection_or_throws Mock.scripted p Mock.a_png)
           {| githubLink := "https://x/assets/1"; awsLink := "https://s3/y" |} _ _ U A).
Defined.

(** ** Every field of the form is sent *)

Lemma insert_by_index_perm {A} (n : N) (p : string * A) (l : list (N * (string * A))) :
  Permutation (map snd (insert_by_index n p l)) (p :: map snd l).
Proof.
  induction l as [| [m q] l IH]; simpl; [apply Permutation_refl|].
  destruct (n <? m)%N; simpl; [apply Permutation_refl|].
  eapply perm_trans; [apply perm_skip, IH | apply perm_swap].
Qed.

Lemma Object_entries_perm {A} (props : list (string * A)) :
  Permutation (Object_entries props) props.
Proof.
  unfold Object_entries, named_props.
  induction props as [| [k v] props IH]; simpl; [apply Permutation_refl|].
  destruct (array_index k) as [n|]; simpl.
  - eapply perm_trans.
    + apply Permutation_app_tail, insert_by_index_perm.
    + simpl. apply perm_skip, IH.
  - apply Permutation_sym, Permutation_cons_app, Permutation_sym, IH.
Qed.

(** X20. The parts that [upload] of [src/unnamed/part_000] pushes are one
    part per field of the policy form, each field once whatever the order
    of enumeration, followed by exactly three more: the head of the file
    part, the bytes of the file and the closing delimiter. *)
Theorem part000_sends_each_field_once :
  forall (boundary : string) (P : UploadPolicy) (name contentType : string)
         (fileBuffer : bytes),
    exists fields : list (string * string),
      Permutation fields (form P)
      /\ Part000.make_parts boundary P name contentType fileBuffer
         = (map (fun kv => Part000.PartBuffer (Buffer_from (field_part boundary kv))) fields
            ++ [Part000.PartBuffer (Buffer_from (file_part_head boundary name contentType));
                Part000.PartBuffer fileBuffer;
                Part000.PartBuffer (Buffer_from (CRLF ++ "--" ++ boundary ++ "--" ++ CRLF))])%list
      /\ List.length (Part000.make_parts boundary P name contentType fileBuffer)
         = (List.length (form P) + 3)%nat.
Proof.
  intros boundary P name contentType fileBuffer.
  exists (Object_entries (form P)).
  split; [apply Object_entries_perm|].
  split; [reflexivity|].
  unfold Part000.make_parts. rewrite length_app, length_map.
  rewrite (Permutation_length (Object_entries_perm (form P))). reflexivity.
Qed.

(** X21. The payload object [{...policy.form, file: file}] that [upload]
    of [src/lib/github.ts] hands to the payload generator holds the file
    passed in and, as text fields, every field of the policy form that is
    not named [file], each once; a form field named [file] is never among
    them. *)
Theorem payload_holds_fields_and_file :
  forall (P : UploadPolicy) (file : File),
    pd_file (payload_data_of P file) = file
    /\ Permutation (pd_fields (payload_data_of P file))
         (filter (fun kv => negb (String.eqb (fst kv) "file")) (form P))
    /\ ~ In "file" (map fst (pd_fields (payload_data_of P file))).
Proof.
  intros P file. unfold payload_data_of. simpl.
  split; [reflexivity | split].
  - generalize (Object_entries_perm (form P)).
    generalize (Object_entries (form P)) (form P).
    intros l l' HP. induction HP as [| x a b HP IH | x y a | a b c H1 IH1 H2 IH2]; simpl.
    + apply perm_nil.
    + destruct (negb (String.eqb (fst x) "file")); [apply perm_skip|]; exact IH.
    + destruct (negb (String.eqb (fst x) "file")), (negb (String.eqb (fst y) "file"));
        try apply perm_swap; apply Permutation_refl.
    + eapply perm_trans; eassumption.
  - intros Hin. apply in_map_iff in Hin. destruct Hin as ([k v] & Hk & Hin).
    apply filter_In in Hin. destruct Hin as [_ Hf]. simpl in Hk, Hf. subst k.
    discriminate.
Qed.

(** ** Form bodies read back *)

Lemma hex_value_digit (n : nat) : (n < 16)%nat -> Form.hex_value (hex_digit n) = Some n.
Proof.
  intros H.
  do 16 (destruct n as [|n]; [reflexivity|]). lia.
Qed.

Lemma hex_digit_plain (n : nat) (ch : ascii) :
  (n < 16)%nat -> (nat_of_ascii ch < 48)%nat \/ nat_of_ascii ch = 61%nat ->
  Ascii.eqb (hex_digit n) ch = false.
Proof.
  intros H Hch. apply Ascii.eqb_neq. intros E. subst ch.
  do 16 (destruct n as [|n]; [vm_compute in Hch; lia|]). lia.
Qed.

Lemma unreserved_plain (c : ascii) :
  urlencoded_unreserved c = true ->
  Ascii.eqb c "%" = false /\ Ascii.eqb c "+" = false
  /\ Ascii.eqb c "&" = false /\ Ascii.eqb c "=" = false.
Proof.
  destruct c as [[] [] [] [] [] [] [] []]; vm_compute; intros H;
    first [discriminate H | repeat split].
Qed.

Lemma byte_of_two_digits (c : ascii) :
  ascii_of_nat (16 * (nat_of_ascii c / 16) + nat_of_ascii c mod 16) = c.
Proof.
  rewrite <- Nat.div_mod_eq. apply ascii_nat_embedding.
Qed.

Lemma high_digit (c : ascii) : (nat_of_ascii c / 16 < 16)%nat.
Proof.
  pose proof (nat_ascii_bounded c) as H.
  apply Nat.Div0.div_lt_upper_bound. lia.
Qed.

Lemma low_digit (c : ascii) : (nat_of_ascii c mod 16 < 16)%nat.
Proof.
  apply Nat.mod_upper_bound. lia.
Qed.

Lemma urldecode_urlencode (s : string) : Form.urldecode (urlencode s) = Some s.
Proof.
  induction s as [| c s IH]; [reflexivity|].
  cbn [urlencode].
  destruct (urlencoded_unreserved c) eqn:U.
  - destruct (unreserved_plain c U) as (E1 & E2 & _).
    cbn [Form.urldecode]. rewrite E1, IH, E2. reflexivity.
  - destruct (nat_of_ascii c =? 32)%nat eqn:Sp.
    + apply Nat.eqb_eq in Sp.
      assert (c = " "%char) by (rewrite <- (ascii_nat_embedding c), Sp; reflexivity).
      subst c. cbn [Form.urldecode]. rewrite IH. reflexivity.
    + cbn [Form.urldecode].
      change (Ascii.eqb "%" "%") with true. cbv iota.
      rewrite (hex_value_digit _ (high_digit c)), (hex_value_digit _ (low_digit c)), IH.
      rewrite byte_of_two_digits. reflexivity.
Qed.

Lemma urlencode_free_of (ch : ascii) (s : string) :
  ch = "&"%char \/ ch = "="%char -> free_of ch (urlencode s) = true.
Proof.
  intros Hch.
  assert (Hn : (nat_of_ascii ch < 48)%nat \/ nat_of_ascii ch = 61%nat)
    by (destruct Hch; subst ch; [left; vm_compute; lia | right; reflexivity]).
  induction s as [| c s IH]; [reflexivity|].
  cbn [urlencode].
  destruct (urlencoded_unreserved c) eqn:U.
  - destruct (unreserved_plain c U) as (_ & _ & E3 & E4).
    cbn [free_of]. rewrite IH. destruct Hch; subst ch; rewrite ?E3, ?E4; reflexivity.
  - destruct (nat_of_ascii c =? 32)%nat.
    + cbn [free_of]. rewrite IH. destruct Hch; subst ch; reflexivity.
    + cbn [free_of].
      rewrite (hex_digit_plain _ ch (high_digit c) Hn),
        (hex_digit_plain _ ch (low_digit c) Hn), IH.
      destruct Hch; subst ch; reflexivity.
Qed.

Lemma free_of_app (ch : ascii) (a b : string) :
  free_of ch (a ++ b) = free_of ch a && free_of ch b.
Proof.
  induction a as [| c a IH]; simpl; [reflexivity|].
  rewrite IH, andb_assoc. reflexivity.
Qed.

Lemma split_on_free (sep : ascii) (a : string) :
  free_of sep a = true -> Form.split_on sep a = [a].
Proof.
  induction a as [| c a IH]; intros H; simpl in *; [reflexivity|].
  apply andb_true_iff in H. destruct H as [Hc Ha].
  apply negb_true_iff in Hc. rewrite Hc, (IH Ha). reflexivity.
Qed.

Lemma split_on_first (sep : ascii) (a rest : string) :
  free_of sep a = true ->
  Form.split_on sep (a ++ String sep rest) = a :: Form.split_on sep rest.
Proof.
  induction a as [| c a IH]; intros H; simpl in *.
  - rewrite Ascii.eqb_refl. reflexivity.
  - apply andb_true_iff in H. destruct H as [Hc Ha].
    apply negb_true_iff in Hc. rewrite Hc, (IH Ha). reflexivity.
Qed.

Lemma split_at_first_free (ch : ascii) (a b : string) :
  free_of ch a = true ->
  Str.split_at_first (String ch EmptyString) (a ++ String ch b) = Some (a, b).
Proof.
  induction a as [| c a IH]; intros H.
  - simpl. destruct b; simpl; rewrite Ascii.eqb_refl; reflexivity.
  - simpl in H. apply andb_true_iff in H. destruct H as [Hc Ha].
    apply negb_true_iff in Hc.
    change (String c a ++ String ch b) with (String c (a ++ String ch b)).
    cbn [Str.split_at_first Str.starts_with].
    rewrite Ascii.eqb_sym, Hc. cbn [andb]. rewrite (IH Ha). reflexivity.
Qed.

Lemma parse_pair_encoded (k v : string) :
  Form.parse_pair (urlencode k ++ "=" ++ urlencode v) = Some (k, v).
Proof.
  unfold Form.parse_pair.
  change (urlencode k ++ "=" ++ urlencode v)
    with (urlencode k ++ String "="%char (urlencode v)).
  rewrite (split_at_first_free "=" _ _ (urlencode_free_of "=" k (or_intror eq_refl))).
  rewrite !urldecode_urlencode. reflexivity.
Qed.

Lemma pair_free_of_amp (k v : string) :
  free_of "&" (urlencode k ++ "=" ++ urlencode v) = true.
Proof.
  rewrite !free_of_app, !(urlencode_free_of "&" _ (or_introl eq_refl)). reflexivity.
Qed.

Lemma parse_pairs_encoded (p : string * string) (params : list (string * string)) :
  Form.parse_pairs (Form.split_on "&" (URLSearchParams_toString (p :: params)))
  = Some (p :: params).
Proof.
  revert p. induction params as [| q params IH]; intros [k v].
  - cbn [URLSearchParams_toString].
    rewrite (split_on_free _ _ (pair_free_of_amp k v)).
    cbn [Form.parse_pairs]. rewrite parse_pair_encoded. reflexivity.
  - change (URLSearchParams_toString ((k, v) :: q :: params))
      with (urlencode k ++ "=" ++ urlencode v ++ "&"
              ++ URLSearchParams_toString (q :: params)).
    replace (urlencode k ++ "=" ++ urlencode v ++ "&"
               ++ URLSearchParams_toString (q :: params))
      with ((urlencode k ++ "=" ++ urlencode v)
              ++ String "&"%char (URLSearchParams_toString (q :: params))).
    + rewrite (split_on_first _ _ _ (pair_free_of_amp k v)).
      cbn [Form.parse_pairs]. rewrite parse_pair_encoded, IH. reflexivity.
    + rewrite !string_append_assoc. reflexivity.
Qed.

Lemma parse_toString (params : list (string * string)) :
  Form.parse (URLSearchParams_toString params) = Some params.
Proof.
  destruct params as [| p params]; [reflexivity|].
  unfold Form.parse.
  assert (E : is_empty (URLSearchParams_toString (p :: params)) = false).
  { destruct p as [k v]. destruct params as [| q params];
      cbn [URLSearchParams_toString]; destruct (urlencode k); reflexivity. }
  rewrite E. apply parse_pairs_encoded.
Qed.

(** X22. The form bodies of the policy request and of the completion
    request read back as exactly the fields the code appended, whatever
    characters the file name, the content type and the token contain: the
    policy body as the four fields repository_id, name, size and
    content_type, the completion body as the single field
    authenticity_token.  No text in a value can add, drop or split a
    field. *)
Theorem form_bodies_read_back :
  forall (gh : GitHub) (repository_id name : string) (size : Z) (contentType : string)
         (P : UploadPolicy),
    (exists text,
        body (GitHubLib.policy_request gh
                (GitHubLib.policy_form repository_id name size contentType))
        = TextBody text
        /\ Form.parse text
           = Some [("repository_id", repository_id); ("name", name);
                   ("size", Number_toString size); ("content_type", contentType)])
    /\
    (exists text,
        body (GitHubLib.complete_request gh P) = TextBody text
        /\ Form.parse text
           = Some [("authenticity_token", asset_upload_authenticity_token P)]).
Proof.
  intros gh repository_id name size contentType P. split.
  - eexists. split; [reflexivity|]. apply parse_toString.
  - eexists. split; [reflexivity|]. apply parse_toString.
Qed.
